(** * Commit search engine of the codebase time machine

    A shallow embedding of [src/python/query_engine.py] (class
    [QueryEngine]) and of the index builder and writer of
    [src/python/analyze_repo.py] (class [CodebaseTimeMachine]), with the
    properties of the hybrid commit search stated over it.

    Modelling conventions.
    - Python [str] is [string]; the text is taken to be ASCII, so
      [str.lower] maps [A-Z] and leaves every other character alone, and
      the whitespace of [str.split] and [str.strip] is the ASCII one
      (9-13, 28-32).
    - Python [int] is [Z] where it comes from data and [nat] where the
      code computes a count, a length or a rank.
    - A dict read with [d.get(key, default)] is a record whose fields are
      options: [None] is the absent key.  A key that is there has a value
      of the type that [analyze_repo.py] writes for it.
    - The dicts of [commit_metadata] are objects of a heap, because
      [semantic_search] copies them and writes to the copies.  No
      statement of the engine writes to a commit dict or to a file change
      dict, so these are values.
    - The embedding model, the FAISS index, the clock and the files on
      disk are collaborators: they are the fields of [Externals] and of
      the [Model] and [Index] objects. *)

From Stdlib Require Import ZArith Ascii String Floats.PrimFloat Sorting.Sorted Sorting.Permutation.
From stdpp Require Import base option list strings gmap.

Local Open Scope string_scope.
Local Open Scope list_scope.

(** ** Python string operations *)

Module Str.

Definition is_upper (c : ascii) : bool :=
  let n := Ascii.nat_of_ascii c in (65 <=? n)%nat && (n <=? 90)%nat.

Definition lower_char (c : ascii) : ascii :=
  if is_upper c then Ascii.ascii_of_nat (Ascii.nat_of_ascii c + 32) else c.

(** [s.lower()] *)
Fixpoint lower (s : string) : string :=
  match s with
  | EmptyString => EmptyString
  | String c s' => String (lower_char c) (lower s')
  end.

(** [str.isspace] on one character *)
Definition is_space (c : ascii) : bool :=
  let n := Ascii.nat_of_ascii c in
  ((9 <=? n)%nat && (n <=? 13)%nat) || ((28 <=? n)%nat && (n <=? 32)%nat).

(** [s.split()]: [cur] is the token being read, in reverse. *)
Fixpoint split_go (cur : list ascii) (s : string) : list string :=
  let flush := match cur with
               | [] => []
               | _ => [string_of_list_ascii (rev cur)]
               end in
  match s with
  | EmptyString => flush
  | String c s' =>
      if is_space c then flush ++ split_go [] s'
      else split_go (c :: cur) s'
  end.

Definition split (s : string) : list string := split_go [] s.

(** [sep.join(l)] *)
Fixpoint join (sep : string) (l : list string) : string :=
  match l with
  | [] => ""
  | [x] => x
  | x :: l' => x +:+ sep +:+ join sep l'
  end.

(** [sub in s] *)
Fixpoint contains (sub s : string) : bool :=
  String.prefix sub s ||
  match s with
  | EmptyString => false
  | String _ s' => contains sub s'
  end.

(** [s.count(sub)]: occurrences that do not overlap, from the left.
    [skip] is the number of characters of the last match still to pass. *)
Fixpoint count_from (sub : string) (skip : nat) (s : string) : nat :=
  match s with
  | EmptyString =>
      match skip with
      | O => if String.prefix sub "" then 1 else 0
      | S _ => 0
      end
  | String _ s' =>
      match skip with
      | S k => count_from sub k s'
      | O =>
          if String.prefix sub s
          then S (count_from sub (String.length sub - 1) s')
          else count_from sub 0 s'
      end
  end.

Definition count (sub s : string) : nat := count_from sub 0 s.

(** [s.replace(old, new)] *)
Fixpoint replace_from (old new : string) (skip : nat) (s : string) : string :=
  match s with
  | EmptyString =>
      match skip with
      | O => if String.prefix old "" then new else ""
      | S _ => ""
      end
  | String c s' =>
      match skip with
      | S k => replace_from old new k s'
      | O =>
          if String.prefix old s
          then match old with
               | EmptyString => new +:+ String c (replace_from old new 0 s')
               | String _ _ => new +:+ replace_from old new (String.length old - 1) s'
               end
          else String c (replace_from old new 0 s')
      end
  end.

Definition replace (old new s : string) : string := replace_from old new 0 s.

Fixpoint lstrip (s : string) : string :=
  match s with
  | EmptyString => EmptyString
  | String c s' => if is_space c then lstrip s' else s
  end.

Fixpoint rstrip (s : string) : string :=
  match s with
  | EmptyString => EmptyString
  | String c s' =>
      match rstrip s' with
      | EmptyString => if is_space c then EmptyString else String c EmptyString
      | r => String c r
      end
  end.

(** [s.strip()] *)
Definition strip (s : string) : string := rstrip (lstrip s).

(** [bool(s)] *)
Definition truthy (s : string) : bool :=
  match s with EmptyString => false | _ => true end.

End Str.

(** ** Python list operations *)

Module Py.

(** [l[:k]] for a Python integer [k]: a negative [k] counts from the end. *)
Definition slice_to {A} (l : list A) (k : Z) : list A :=
  if (k <? 0)%Z then take (Z.to_nat (Z.of_nat (length l) + k)) l
  else take (Z.to_nat k) l.

(** One step of [sorted(l, key=key, reverse=True)]: [x] stood before
    every element of [l], so it goes before the first element whose key
    is not greater than its own. *)
Fixpoint insert_reverse {A K} (leb : K -> K -> bool) (key : A -> K)
    (x : A) (l : list A) : list A :=
  match l with
  | [] => [x]
  | y :: l' =>
      if leb (key y) (key x) then x :: y :: l'
      else y :: insert_reverse leb key x l'
  end.

(** [sorted(l, key=key, reverse=True)]: descending keys, equal keys in
    their original order. *)
Fixpoint sorted_reverse {A K} (leb : K -> K -> bool) (key : A -> K)
    (l : list A) : list A :=
  match l with
  | [] => []
  | x :: l' => insert_reverse leb key x (sorted_reverse leb key l')
  end.

End Py.

(** ** Data model *)

(** One entry of a commit's [file_changes]; [old_path] and [new_path] are
    [null] for an added or a deleted file. *)
Record FileChange := {
  filename : option string;
  old_path : option string;
  new_path : option string;
  change_type : option string;
  added_lines : option Z;
  deleted_lines : option Z;
}.

(** An embedding, and a query vector. *)
Definition Vector := list float.

(** One entry of [analysis_data['commits_data']], as [json.load] gives it.
    [embedding] is there only before [save_analysis_results] removes it;
    [Some None] is the key set to [None]. *)
Record Commit := {
  hash : option string;
  author : option string;
  author_email : option string;
  date : option string;
  message : option string;
  insertions : option Z;
  deletions : option Z;
  files_modified : option Z;
  file_changes : option (list FileChange);
  embedding : option (option Vector);
}.

(** The analysis document.  [structure_info] and [insights] are carried
    as their JSON text; [other_keys] are the names of any further keys. *)
Record AnalysisData := {
  repo_id : option string;
  repo_url : option string;
  analysis_timestamp : option string;
  status : option string;
  structure_info : option string;
  insights : option string;
  commits_data : option (list Commit);
  other_keys : list string;
}.

(** [{}] *)
Definition empty_dict : AnalysisData :=
  {| repo_id := None; repo_url := None; analysis_timestamp := None;
     status := None; structure_info := None; insights := None;
     commits_data := None; other_keys := [] |}.

(** [key in d] *)
Definition present {A} (o : option A) : bool :=
  match o with Some _ => true | None => false end.

(** [bool(d)] for the analysis document: some key is present. *)
Definition dict_truthy (d : AnalysisData) : bool :=
  present (repo_id d) || present (repo_url d) ||
  present (analysis_timestamp d) || present (status d) ||
  present (structure_info d) || present (insights d) ||
  present (commits_data d) ||
  match other_keys d with [] => false | _ => true end.

(** A dict of [commit_metadata], and a semantic result, which is a copy of
    one with [similarity_score] and [rank] set. *)
Record MetaDict := {
  md_hash : option string;
  md_author : option string;
  md_date : option string;
  md_message : option string;
  md_files_modified : option Z;
  md_similarity_score : option float;
  md_rank : option nat;
}.

(** [d['similarity_score'] = v] and [d['rank'] = v] *)
Definition set_similarity_score (v : float) (d : MetaDict) : MetaDict :=
  {| md_hash := md_hash d; md_author := md_author d; md_date := md_date d;
     md_message := md_message d; md_files_modified := md_files_modified d;
     md_similarity_score := Some v; md_rank := md_rank d |}.

Definition set_rank (v : nat) (d : MetaDict) : MetaDict :=
  {| md_hash := md_hash d; md_author := md_author d; md_date := md_date d;
     md_message := md_message d; md_files_modified := md_files_modified d;
     md_similarity_score := md_similarity_score d; md_rank := Some v |}.

(** The result dicts of the lexical searches, one record per literal. *)
Record KeywordHit := {
  kw_hash : string;
  kw_author : string;
  kw_date : string;
  kw_message : string;
  kw_files_modified : Z;
  kw_keyword_score : nat;
  kw_file_changes : list FileChange;
}.

Record AuthorHit := {
  au_hash : string;
  au_author : string;
  au_author_email : string;
  au_date : string;
  au_message : string;
  au_files_modified : Z;
  au_insertions : Z;
  au_deletions : Z;
}.

Record FileHit := {
  fi_hash : string;
  fi_author : string;
  fi_date : string;
  fi_message : string;
  fi_matching_files : list FileChange;
  fi_total_files_modified : Z;
}.

Record TimeHit := {
  tr_hash : string;
  tr_author : string;
  tr_date : string;
  tr_message : string;
  tr_files_modified : Z;
  tr_insertions : Z;
  tr_deletions : Z;
}.

(** An entry of [results['results']]. *)
Inductive Result :=
  | SemanticResult (d : MetaDict)
  | KeywordResult (h : KeywordHit)
  | AuthorResult (h : AuthorHit)
  | FileResult (h : FileHit)
  | TimeRangeResult (h : TimeHit).

(** [result.get('hash', '')] *)
Definition result_hash (r : Result) : string :=
  match r with
  | SemanticResult d => default "" (md_hash d)
  | KeywordResult h => kw_hash h
  | AuthorResult h => au_hash h
  | FileResult h => fi_hash h
  | TimeRangeResult h => tr_hash h
  end.

(** ** Collaborators *)

(** The sentence transformer: [encode] gives the embedding of one text,
    or raises ([None]). *)
Record Model := { encode : string -> option Vector }.

(** A FAISS index: [search q k] gives the [k] pairs of a similarity and a
    slot (-1 where the index has fewer than [k] vectors), or raises; it
    reads the index and does not change it. *)
Record Index := {
  ntotal : nat;
  search : Vector -> Z -> option (list (float * Z));
}.

(** What a file holds, by what can read it. *)
Inductive FileContent :=
  | Json (d : AnalysisData)
  | Faiss (i : Index)
  | Pickle (m : list MetaDict)
  | Garbage.

(** The files by path; an absent path is a file that does not exist. *)
Abbreviation FileSystem := (gmap string FileContent).

Inductive ModelLoad :=
  | LoadRaises (msg : string)
  | Loaded (m : Model).

Record Externals := {
  cwd : string;                              (* os.getcwd() *)
  fs : FileSystem;
  sentence_transformer : string -> ModelLoad; (* SentenceTransformer(name) *)
  astype_float32 : Vector -> Vector;
  normalize_L2 : Vector -> Vector;           (* faiss.normalize_L2 *)
  now_isoformat : string;                    (* datetime.now().isoformat() *)
}.

(** [os.path.join(os.path.join(cwd, 'analysis_data'), name)] *)
Definition analysis_path (cwd name : string) : string :=
  cwd +:+ "/analysis_data/" +:+ name.

(** ** The query engine *)

Abbreviation loc := nat (only parsing).

(** [self], with the heap that holds the dicts of [commit_metadata] and
    the copies [semantic_search] makes of them. *)
Record QueryEngine := {
  embeddings_model : option Model;
  embeddings_index : option Index;
  commit_metadata : list loc;
  analysis_data : AnalysisData;
  heap : list MetaDict;
}.

(** [QueryEngine()] *)
Definition init : QueryEngine :=
  {| embeddings_model := None; embeddings_index := None;
     commit_metadata := []; analysis_data := empty_dict; heap := [] |}.

Definition set_embeddings_model (v : option Model) (self : QueryEngine) :=
  {| embeddings_model := v; embeddings_index := embeddings_index self;
     commit_metadata := commit_metadata self;
     analysis_data := analysis_data self; heap := heap self |}.

Definition set_embeddings_index (v : option Index) (self : QueryEngine) :=
  {| embeddings_model := embeddings_model self; embeddings_index := v;
     commit_metadata := commit_metadata self;
     analysis_data := analysis_data self; heap := heap self |}.

Definition set_commit_metadata (v : list loc) (self : QueryEngine) :=
  {| embeddings_model := embeddings_model self;
     embeddings_index := embeddings_index self; commit_metadata := v;
     analysis_data := analysis_data self; heap := heap self |}.

Definition set_analysis_data (v : AnalysisData) (self : QueryEngine) :=
  {| embeddings_model := embeddings_model self;
     embeddings_index := embeddings_index self;
     commit_metadata := commit_metadata self; analysis_data := v;
     heap := heap self |}.

Definition set_heap (v : list MetaDict) (self : QueryEngine) :=
  {| embeddings_model := embeddings_model self;
     embeddings_index := embeddings_index self;
     commit_metadata := commit_metadata self;
     analysis_data := analysis_data self; heap := v |}.

(** Methods are state transformers over [self]. *)
Definition M (A : Type) : Type := QueryEngine -> A * QueryEngine.

#[export] Instance M_ret : MRet M := fun _ a self => (a, self).
#[export] Instance M_bind : MBind M := fun _ _ f m self =>
  let '(a, self') := m self in f a self'.

Definition get : M QueryEngine := fun self => (self, self).
Definition modify (f : QueryEngine -> QueryEngine) : M unit :=
  fun self => (tt, f self).

(** A new dict object with the content [d]. *)
Definition alloc (d : MetaDict) : M loc :=
  fun self => (length (heap self), set_heap (heap self ++ [d]) self).

(** The content of the object at [l]. *)
Definition deref (l : loc) : M (option MetaDict) :=
  fun self => (heap self !! l, self).

(** An assignment to a key of the object at [l]. *)
Definition store (l : loc) (f : MetaDict -> MetaDict) : M unit :=
  modify (fun self => set_heap (alter f l (heap self)) self).

(** The value of [get_repository_summary]. *)
Record Summary := {
  sm_repo_id : string;
  sm_repo_url : string;
  sm_analysis_timestamp : string;
  sm_status : string;
  sm_structure_info : string;
  sm_insights : string;
  sm_semantic_search_available : bool;
  sm_total_commits_indexed : nat;
  sm_search_types : list string;
}.

Inductive SummaryDict :=
  | EmptySummary            (* {} *)
  | FullSummary (s : Summary).

(** The value of [process_query]: one constructor per [return]. *)
Record Answer := {
  an_query : string;
  an_repo_id : string;
  an_search_type : string;
  an_timestamp : string;
  an_results : list Result;
  an_summary : option SummaryDict;
  an_suggestions : option (list string);
  an_total_results : nat;
  an_total_commits_available : nat;
  an_analysis_date : string;
  an_repo_url : string;
}.

Inductive Response :=
  | NotFound (error : string) (suggestions : list string)
  | Failed (error query repo_id timestamp : string)
  | Answered (a : Answer).

(** The text a commit is matched against in [keyword_search]. *)
Definition commit_text (commit : Commit) : string :=
  Str.lower (default "" (message commit) +:+ " " +:+
             Str.join " " (map (fun f => default "" (filename f))
                               (default [] (file_changes commit)))).

(** The inner loop of [keyword_search]. *)
Definition keyword_match_score (query_keywords : list string) (text : string) : nat :=
  fold_left (fun score keyword =>
               if Str.contains keyword text then score + Str.count keyword text
               else score)
            query_keywords 0.

(** The result dict of [keyword_search] for a commit and its score. *)
Definition keyword_result (commit : Commit) (score : nat) : KeywordHit :=
  {| kw_hash := default "" (hash commit);
     kw_author := default "" (author commit);
     kw_date := default "" (date commit);
     kw_message := default "" (message commit);
     kw_files_modified := default 0%Z (files_modified commit);
     kw_keyword_score := score;
     kw_file_changes := take 3 (default [] (file_changes commit)) |}.

(** The body of the outer loop of [keyword_search]. *)
Definition keyword_hit (query_keywords : list string) (commit : Commit) : option KeywordHit :=
  let score := keyword_match_score query_keywords (commit_text commit) in
  if (0 <? score)%nat then Some (keyword_result commit score) else None.

Definition keyword_search (query : string) (top_k : Z) : M (list KeywordHit) :=
  self ← get;
  match commits_data (analysis_data self) with
  | None | Some [] => mret []
  | Some commits =>
      let query_keywords := Str.split (Str.lower query) in
      let results := omap (keyword_hit query_keywords) commits in
      mret (Py.slice_to (Py.sorted_reverse Nat.leb kw_keyword_score results) top_k)
  end.

Definition author_hit (query_lower : string) (commit : Commit) : option AuthorHit :=
  let author_name := Str.lower (default "" (author commit)) in
  let author_email' := Str.lower (default "" (author_email commit)) in
  if Str.contains query_lower author_name || Str.contains query_lower author_email' then
    Some {| au_hash := default "" (hash commit);
            au_author := default "" (author commit);
            au_author_email := default "" (author_email commit);
            au_date := default "" (date commit);
            au_message := default "" (message commit);
            au_files_modified := default 0%Z (files_modified commit);
            au_insertions := default 0%Z (insertions commit);
            au_deletions := default 0%Z (deletions commit) |}
  else None.

Definition author_search (query : string) : M (list AuthorHit) :=
  self ← get;
  match commits_data (analysis_data self) with
  | None | Some [] => mret []
  | Some commits =>
      let query_lower := Str.lower query in
      let results := omap (author_hit query_lower) commits in
      mret (Py.sorted_reverse String.leb au_date results)
  end.

Definition file_hit (query_lower : string) (commit : Commit) : option FileHit :=
  let matching_files :=
    List.filter (fun file_change =>
                   Str.contains query_lower (Str.lower (default "" (filename file_change))))
                (default [] (file_changes commit)) in
  match matching_files with
  | [] => None
  | _ =>
    Some {| fi_hash := default "" (hash commit);
            fi_author := default "" (author commit);
            fi_date := default "" (date commit);
            fi_message := default "" (message commit);
            fi_matching_files := matching_files;
            fi_total_files_modified := default 0%Z (files_modified commit) |}
  end.

Definition file_search (query : string) : M (list FileHit) :=
  self ← get;
  match commits_data (analysis_data self) with
  | None | Some [] => mret []
  | Some commits =>
      let query_lower := Str.lower query in
      let results := omap (file_hit query_lower) commits in
      mret (Py.sorted_reverse String.leb fi_date results)
  end.

(** The result dict of [time_range_search] for a commit. *)
Definition time_result (commit : Commit) : TimeHit :=
  {| tr_hash := default "" (hash commit);
     tr_author := default "" (author commit);
     tr_date := default "" (date commit);
     tr_message := default "" (message commit);
     tr_files_modified := default 0%Z (files_modified commit);
     tr_insertions := default 0%Z (insertions commit);
     tr_deletions := default 0%Z (deletions commit) |}.

Definition time_hit (start_date end_date : string) (commit : Commit) : option TimeHit :=
  let commit_date := default "" (date commit) in
  if String.leb start_date commit_date && String.leb commit_date end_date
  then Some (time_result commit) else None.

Definition time_range_search (start_date end_date : string) : M (list TimeHit) :=
  self ← get;
  match commits_data (analysis_data self) with
  | None | Some [] => mret []
  | Some commits =>
      let results := omap (time_hit start_date end_date) commits in
      mret (Py.sorted_reverse String.leb tr_date results)
  end.

Definition get_repository_summary : M SummaryDict :=
  self ← get;
  let d := analysis_data self in
  if negb (dict_truthy d) then mret EmptySummary
  else mret (FullSummary
    {| sm_repo_id := default "" (repo_id d);
       sm_repo_url := default "" (repo_url d);
       sm_analysis_timestamp := default "" (analysis_timestamp d);
       sm_status := default "unknown" (status d);
       sm_structure_info := default "{}" (structure_info d);
       sm_insights := default "{}" (insights d);
       sm_semantic_search_available := present (embeddings_index self);
       sm_total_commits_indexed := length (commit_metadata self);
       sm_search_types := ["semantic"; "keyword"; "author"; "file"; "time_range"] |}).

(** The loop of [semantic_search] over [indices[0]], from position [i]:
    the value is the list of the result objects, or [None] where a
    statement raises. *)
Fixpoint semantic_loop (hits : list (float * Z)) (i : nat) : M (option (list loc)) :=
  match hits with
  | [] => mret (Some [])
  | (similarity, idx) :: hits' =>
      self ← get;
      if (0 <=? idx)%Z && (idx <? Z.of_nat (length (commit_metadata self)))%Z then
        match commit_metadata self !! Z.to_nat idx with
        | None => mret None
        | Some source =>
            content ← deref source;
            match content with
            | None => mret None
            | Some d =>
                result ← alloc d;
                _ ← store result (set_similarity_score similarity);
                _ ← store result (set_rank (i + 1));
                rest ← semantic_loop hits' (S i);
                mret (cons result <$> rest)
            end
        end
      else semantic_loop hits' (S i)
  end.

(** The contents of the objects [ls], as the caller reads them. *)
Definition contents (ls : list loc) : M (option (list MetaDict)) :=
  self ← get; mret (mapM (fun l => heap self !! l) ls).

(** The analysis document and the index files of [repo_id]. *)
Definition analysis_file (cwd repo_id : string) : string :=
  analysis_path cwd (repo_id +:+ "_analysis.json").
Definition index_file (cwd repo_id : string) : string :=
  analysis_path cwd (repo_id +:+ "_index.faiss").
Definition metadata_file (cwd repo_id : string) : string :=
  analysis_path cwd (repo_id +:+ "_metadata.pkl").

(** [pickle.load] builds the dicts it reads as new objects. *)
Fixpoint alloc_all (ds : list MetaDict) : M (list loc) :=
  match ds with
  | [] => mret []
  | d :: ds' => l ← alloc d; ls ← alloc_all ds'; mret (l :: ls)
  end.

Section Engine.

Variable ext : Externals.

(** [True] is [None]; the message of the exception otherwise. *)
Definition initialize_model : M (option string) :=
  match sentence_transformer ext "all-MiniLM-L6-v2" with
  | LoadRaises msg => mret (Some msg)
  | Loaded m => _ ← modify (set_embeddings_model (Some m)); mret None
  end.

Definition load_analysis_data (repo_id : string) : M bool :=
  match fs ext !! analysis_file (cwd ext) repo_id with
  | None => mret false
  | Some (Json d) =>
      _ ← modify (set_analysis_data d);
      index_ok ←
        match fs ext !! index_file (cwd ext) repo_id with
        | None => mret true
        | Some (Faiss i) => _ ← modify (set_embeddings_index (Some i)); mret true
        | Some _ => mret false
        end;
      if index_ok : bool then
        match fs ext !! metadata_file (cwd ext) repo_id with
        | None => mret true
        | Some (Pickle m) =>
            ls ← alloc_all m; _ ← modify (set_commit_metadata ls); mret true
        | Some _ => mret false
        end
      else mret false
  | Some _ => mret false
  end.

Definition semantic_search (query : string) (top_k : Z) : M (list MetaDict) :=
  self ← get;
  match embeddings_model self, embeddings_index self with
  | Some model, Some index =>
      match encode model query with
      | None => mret []
      | Some query_embedding =>
          let query_embedding := normalize_L2 ext (astype_float32 ext query_embedding) in
          match search index query_embedding top_k with
          | None => mret []
          | Some hits =>
              results ← semantic_loop hits 0;
              match results with
              | None => mret []
              | Some ls => ds ← contents ls; mret (default [] ds)
              end
          end
      end
  | _, _ => mret []
  end.

(** The classification of [process_query] under ['auto']. *)
Definition auto_detect (query_lower : string) : string :=
  if Str.contains "author" query_lower || Str.contains "who" query_lower then "author"
  else if Str.contains "file" query_lower || Str.contains ".py" query_lower
          || Str.contains ".js" query_lower then "file"
  else if existsb (fun date_term => Str.contains date_term query_lower)
            ["before"; "after"; "during"; "2020"; "2021"; "2022"; "2023"; "2024"]
  then "time_range"
  else "semantic".

(** The loop of the combined search over [all_results]. *)
Fixpoint unique_results (all_results : list Result) (seen_hashes : gset string) : list Result :=
  match all_results with
  | [] => []
  | result :: rest =>
      let h := result_hash result in
      if Str.truthy h && bool_decide (h ∉ seen_hashes)
      then result :: unique_results rest ({[h]} ∪ seen_hashes)
      else unique_results rest seen_hashes
  end.

(** The search that [process_query] runs for [search_type]: the value
    of [results['results']], of [results.get('summary')] and of
    [results['search_type']]. *)
Definition execute (search_type query : string) : M (list Result * option SummaryDict * string) :=
  if String.eqb search_type "semantic" then
    rs ← semantic_search query 10;
    mret (SemanticResult <$> rs, None, "semantic")
  else if String.eqb search_type "keyword" then
    rs ← keyword_search query 10;
    mret (KeywordResult <$> rs, None, "keyword")
  else if String.eqb search_type "author" then
    let author_query :=
      Str.strip (Str.replace "who" "" (Str.replace "author" "" (Str.lower query))) in
    rs ← author_search author_query;
    mret (AuthorResult <$> rs, None, "author")
  else if String.eqb search_type "file" then
    let file_query :=
      Str.strip (Str.replace "modified" "" (Str.replace "file" "" (Str.lower query))) in
    rs ← file_search file_query;
    mret (FileResult <$> rs, None, "file")
  else if String.eqb search_type "summary" then
    summary ← get_repository_summary;
    mret ([], Some summary, "summary")
  else
    semantic_results ← semantic_search query 5;
    keyword_results ← keyword_search query 5;
    let all_results :=
      (SemanticResult <$> semantic_results) ++ (KeywordResult <$> keyword_results) in
    mret (take 10 (unique_results all_results ∅), None, "combined").

Definition no_results_suggestions : list string :=
  ["Try a broader search term";
   "Use specific keywords from commit messages";
   "Search by author name or file extension";
   "Use " +:+ String (ascii_of_nat 34) ("summary" +:+ String (ascii_of_nat 34) " to get repository overview")].

Definition summary_truthy (s : option SummaryDict) : bool :=
  match s with Some (FullSummary _) => true | _ => false end.

(** [process_query] from [results = {...}] to [return results]. *)
Definition answer (query repo_id search_type : string) : M Response :=
  let query_lower := Str.lower query in
  let search_type :=
    if String.eqb search_type "auto" then auto_detect query_lower
    else search_type in
  '(results, summary, search_type) ← execute search_type query;
  self ← get;
  let no_results :=
    match results with [] => true | _ => false end
    && negb (summary_truthy summary) in
  mret (Answered
    {| an_query := query;
       an_repo_id := repo_id;
       an_search_type := search_type;
       an_timestamp := now_isoformat ext;
       an_results := results;
       an_summary := summary;
       an_suggestions :=
         if no_results then Some no_results_suggestions else None;
       an_total_results := length results;
       an_total_commits_available :=
         length (default [] (commits_data (analysis_data self)));
       an_analysis_date := default "" (analysis_timestamp (analysis_data self));
       an_repo_url := default "" (repo_url (analysis_data self)) |}).

Definition process_query (query repo_id search_type : string) : M Response :=
  self ← get;
  loaded ← (if negb (dict_truthy (analysis_data self))
            then load_analysis_data repo_id else mret true);
  if negb loaded then
    mret (NotFound ("Repository analysis not found for ID: " +:+ repo_id)
                   ["Please analyze the repository first";
                    "Check if the repository ID is correct"])
  else
    self ← get;
    raised ← (if negb (present (embeddings_model self))
              then initialize_model else mret None);
    match raised with
    | Some msg => mret (Failed msg query repo_id (now_isoformat ext))
    | None => answer query repo_id search_type
    end.

End Engine.

(** ** The index builder and writer of [analyze_repo.py] *)

(** The fields of [CodebaseTimeMachine] that the builder and the writer
    use. *)
Record CodebaseTimeMachine := {
  tm_embeddings_index : option Index;
  tm_commit_metadata : list MetaDict;
}.

(** [bool(commit.get('embedding'))]: the key is there, is not [None] and
    is not the empty list. *)
Definition embedding_truthy (commit : Commit) : option Vector :=
  match embedding commit with
  | Some (Some (x :: v)) => Some (x :: v)
  | _ => None
  end.

(** The metadata dict of a commit; [commit['hash']] and the like raise
    where the key is absent ([None]). *)
Definition metadata_of (commit : Commit) : option MetaDict :=
  h ← hash commit; a ← author commit; d ← date commit;
  m ← message commit; f ← files_modified commit;
  Some {| md_hash := Some h; md_author := Some a; md_date := Some d;
          md_message := Some m; md_files_modified := Some f;
          md_similarity_score := None; md_rank := None |}.

(** The loop of [create_embeddings_index]: the embeddings and the
    metadata of the commits that have an embedding. *)
Fixpoint collect_embeddings (commits_data : list Commit)
    : option (list Vector * list MetaDict) :=
  match commits_data with
  | [] => Some ([], [])
  | commit :: rest =>
      match embedding_truthy commit with
      | Some v =>
          md ← metadata_of commit;
          '(embeddings, metadata) ← collect_embeddings rest;
          Some (v :: embeddings, md :: metadata)
      | None => collect_embeddings rest
      end
  end.

Section Builder.

(** [IndexFlatIP(dimension)], [normalize_L2] and [add] over the array
    of the embeddings; [None] where one of them raises. *)
Variable build_index : list Vector -> option Index.

Definition create_embeddings_index (commits_data : list Commit)
    (self : CodebaseTimeMachine) : option Index * CodebaseTimeMachine :=
  match collect_embeddings commits_data with
  | None => (None, self)
  | Some ([], _) => (None, self)
  | Some (embeddings, metadata) =>
      match build_index embeddings with
      | None => (None, self)
      | Some index =>
          (Some index,
           {| tm_embeddings_index := Some index; tm_commit_metadata := metadata |})
      end
  end.

End Builder.

(** [del clean_commit['embedding']] on a copy of the commit *)
Definition clean_commit (commit : Commit) : Commit :=
  {| hash := hash commit; author := author commit;
     author_email := author_email commit; date := date commit;
     message := message commit; insertions := insertions commit;
     deletions := deletions commit; files_modified := files_modified commit;
     file_changes := file_changes commit; embedding := None |}.

Definition clean_data (d : AnalysisData) : AnalysisData :=
  {| repo_id := repo_id d; repo_url := repo_url d;
     analysis_timestamp := analysis_timestamp d; status := status d;
     structure_info := structure_info d; insights := insights d;
     commits_data := map clean_commit <$> commits_data d;
     other_keys := other_keys d |}.

(** [save_analysis_results], where every write succeeds: the files after
    the call. *)
Definition save_analysis_results (cwd repo_id : string) (d : AnalysisData)
    (self : CodebaseTimeMachine) (files : FileSystem) : bool * FileSystem :=
  let files := <[analysis_file cwd repo_id := Json (clean_data d)]> files in
  match tm_embeddings_index self with
  | Some index =>
      (true,
       <[metadata_file cwd repo_id := Pickle (tm_commit_metadata self)]>
         (<[index_file cwd repo_id := Faiss index]> files))
  | None => (true, files)
  end.

(** ** The searches as the specification words them *)

(** The tokens of a query with those of length 3 or less discarded. *)
Definition long_tokens (query : string) : list string :=
  List.filter (fun t => (3 <? String.length t)%nat) (Str.split (Str.lower query)).

(** Deduplication by commit id that keeps the first occurrence. *)
Fixpoint dedup_first (rs : list Result) : list Result :=
  match rs with
  | [] => []
  | r :: rs' =>
      r :: List.filter (fun r' => negb (String.eqb (result_hash r') (result_hash r)))
                       (dedup_first rs')
  end.

(** ** Predicates of the statements *)

(** [a] may stand before [b] in a list of descending keys. *)
Definition descending {A K} (leb : K -> K -> bool) (key : A -> K) (a b : A) : Prop :=
  leb (key b) (key a) = true.

(** What holds of a token: it is not empty, and each of its characters
    is no whitespace and satisfies [P]. *)
Definition token (P : ascii -> Prop) (t : string) : Prop :=
  t <> "" /\ Forall (fun c => P c /\ Str.is_space c = false) (list_ascii_of_string t).

(** A string without a space. *)
Definition spaceless (sub : string) : Prop :=
  Forall (fun c => c <> " "%char) (list_ascii_of_string sub).

(** [self'] has the fields of [self]. *)
Definition same_fields (self self' : QueryEngine) : Prop :=
  embeddings_model self' = embeddings_model self
  /\ embeddings_index self' = embeddings_index self
  /\ commit_metadata self' = commit_metadata self
  /\ analysis_data self' = analysis_data self.

(** [self'] is [self] with new objects: the fields are the same and the
    objects of [self] are where they were, with the content they had. *)
Definition extends (self self' : QueryEngine) : Prop :=
  same_fields self self' /\ exists new, heap self' = heap self ++ new.

(** Every dict of [commit_metadata] is an object of the heap. *)
Definition metadata_allocated (self : QueryEngine) : Prop :=
  Forall (fun l => l < length (heap self)) (commit_metadata self).

(** The dicts [semantic_search] returns for the answer [hits] of the
    index, read off the metadata: the hit at position [i] with a slot in
    range gives the dict of the slot with the similarity and the rank
    [i + 1].  The slot of a hit in range has a dict where the metadata
    is allocated, which is where this reading is used. *)
Fixpoint semantic_dicts (self : QueryEngine) (hits : list (float * Z)) (i : nat)
    : list MetaDict :=
  match hits with
  | [] => []
  | (similarity, idx) :: hits' =>
      if (0 <=? idx)%Z && (idx <? Z.of_nat (length (commit_metadata self)))%Z then
        match commit_metadata self !! Z.to_nat idx ≫= (fun l => heap self !! l) with
        | Some d =>
            set_rank (i + 1) (set_similarity_score similarity d)
            :: semantic_dicts self hits' (S i)
        | None => []
        end
      else semantic_dicts self hits' (S i)
  end.

(** The session after a load that read the document [d]. *)
Definition loaded_session (ext : Externals) (repo_id : string) (d : AnalysisData)
    (self : QueryEngine) : QueryEngine :=
  let self := set_analysis_data d self in
  let self :=
    match fs ext !! index_file (cwd ext) repo_id with
    | Some (Faiss i) => set_embeddings_index (Some i) self
    | _ => self
    end in
  match fs ext !! metadata_file (cwd ext) repo_id with
  | Some (Pickle m) =>
      set_commit_metadata (seq (length (heap self)) (length m))
                          (set_heap (heap self ++ m) self)
  | _ => self
  end.

(** [results['results']] of a response that has it. *)
Definition results_of (r : Response) : option (list Result) :=
  match r with
  | Answered a => Some (an_results a)
  | _ => None
  end.

(** [results['search_type']] of a response that has it. *)
Definition search_type_of (r : Response) : option string :=
  match r with
  | Answered a => Some (an_search_type a)
  | _ => None
  end.

(** ** Sample repositories *)

Module Samples.

Definition file (name : string) : FileChange :=
  {| filename := Some name; old_path := Some name; new_path := Some name;
     change_type := Some "ModificationType.MODIFY";
     added_lines := Some 1%Z; deleted_lines := Some 0%Z |}.

Definition commit (h : option string) (when msg : string) (files : list string) : Commit :=
  {| hash := h; author := Some "Ada"; author_email := Some "ada@example.org";
     date := Some when; message := Some msg;
     insertions := Some 4%Z; deletions := Some 2%Z;
     files_modified := Some (Z.of_nat (length files));
     file_changes := Some (file <$> files); embedding := None |}.

Definition document (commits : list Commit) : AnalysisData :=
  {| repo_id := Some "0123456789ab"; repo_url := Some "https://example.org/r.git";
     analysis_timestamp := Some "2024-04-01T09:00:00"; status := Some "completed";
     structure_info := None; insights := None;
     commits_data := Some commits; other_keys := [] |}.

(** The two commits of the keyword scoring property. *)
Definition parser_commits : list Commit :=
  [commit (Some "a1") "2024-03-15T10:00:00" "fix bug in parser" [];
   commit (Some "b2") "2024-03-17T08:30:00" "update readme" []].

(** A commit whose dict has no ['hash']. *)
Definition unnamed_commits : list Commit :=
  [commit None "2024-03-15T10:00:00" "refactor parser module" ["parser.py"]].

(** A commit that changed five files. *)
Definition wide_commits : list Commit :=
  [commit (Some "c3") "2023-11-02T12:00:00" "rename parser helpers"
          ["a.py"; "b.py"; "c.py"; "d.py"; "e.py"]].

(** A commit of 2024 that says "before", and a commit of 2019. *)
Definition release_commits : list Commit :=
  [commit (Some "d4") "2024-03-15T10:00:00" "cleanup before release" [];
   commit (Some "e5") "2019-05-01T10:00:00" "update readme" []].

Definition meta (h msg : string) : MetaDict :=
  {| md_hash := Some h; md_author := Some "Ada"; md_date := Some "2024-03-15T10:00:00";
     md_message := Some msg; md_files_modified := Some 0%Z;
     md_similarity_score := None; md_rank := None |}.

Definition model : Model := {| encode := fun _ => Some [1%float; 0%float] |}.

(** An index of two vectors that answers every query alike. *)
Definition index : Index :=
  {| ntotal := 2;
     search := fun _ k =>
       Some (take (Z.to_nat k)
               ([(0.75%float, 1%Z); (0.5%float, 0%Z)] ++ replicate (Z.to_nat k) ((-1)%float, (-1)%Z))) |}.

Definition externals (files : FileSystem) : Externals :=
  {| cwd := "/srv"; fs := files;
     sentence_transformer := fun _ => Loaded model;
     astype_float32 := fun v => v; normalize_L2 := fun v => v;
     now_isoformat := "2024-04-02T00:00:00" |}.

(** Only the analysis document is on disk. *)
Definition document_only (commits : list Commit) : FileSystem :=
  {[ analysis_file "/srv" "0123456789ab" := Json (document commits) ]}.

(** The index holds two vectors, the metadata one dict, the document
    two commits. *)
Definition mismatched : FileSystem :=
  <[ metadata_file "/srv" "0123456789ab" := Pickle [meta "a1" "fix bug in parser"] ]>
    (<[ index_file "/srv" "0123456789ab" := Faiss index ]>
       (document_only parser_commits)).

Definition complete : FileSystem :=
  <[ metadata_file "/srv" "0123456789ab" :=
       Pickle [meta "a1" "fix bug in parser"; meta "b2" "update readme"] ]>
    (<[ index_file "/srv" "0123456789ab" := Faiss index ]>
       (document_only parser_commits)).

(** A session with the document loaded and nothing else. *)
Definition session (commits : list Commit) : QueryEngine :=
  set_analysis_data (document commits) init.

(** A session with the model, the index and the metadata loaded. *)
Definition full_session : QueryEngine :=
  {| embeddings_model := Some model; embeddings_index := Some index;
     commit_metadata := [0; 1]; analysis_data := document parser_commits;
     heap := [meta "a1" "fix bug in parser"; meta "b2" "update readme"] |}.

End Samples.

(** ** The insights of [analyze_repo.py] *)

(** A computation that returns or raises; [msg] is [str(e)]. *)
Inductive Raises (A : Type) :=
  | Raise (msg : string)
  | Return (a : A).
Arguments Raise {A} msg.
Arguments Return {A} a.

#[export] Instance Raises_ret : MRet Raises := fun _ a => Return a.
#[export] Instance Raises_bind : MBind Raises := fun _ _ f m =>
  match m with
  | Raise msg => Raise msg
  | Return a => f a
  end.

(** [d[key]]: a [KeyError], whose text is the key in quotes, where the
    key is absent. *)
Definition subscript {A} (key : string) (o : option A) : Raises A :=
  match o with
  | Some a => Return a
  | None => Raise ("'" +:+ key +:+ "'")
  end.

(** A dict from strings to counts, as the list of its items in the order
    in which the keys came in. *)
Abbreviation Counter := (list (string * nat)).

(** [d[key] = d.get(key, 0) + 1] *)
Fixpoint bump (key : string) (d : Counter) : Counter :=
  match d with
  | [] => [(key, 1)]
  | (k, n) :: d' =>
      if String.eqb k key then (k, n + 1) :: d' else (k, n) :: bump key d'
  end.

(** The order of Python on the items of a dict: by key, then by count. *)
Definition item_leb (a b : string * nat) : bool :=
  if String.eqb a.1 b.1 then Nat.leb a.2 b.2 else String.leb a.1 b.1.

(** One step of [sorted(l)]: [x] stood before every element of [l], so
    it goes before the first element that is greater than it. *)
Fixpoint insert_sorted {A} (leb : A -> A -> bool) (x : A) (l : list A) : list A :=
  match l with
  | [] => [x]
  | y :: l' =>
      if leb y x then y :: insert_sorted leb x l' else x :: y :: l'
  end.

(** [sorted(l)] *)
Fixpoint sorted {A} (leb : A -> A -> bool) (l : list A) : list A :=
  match l with
  | [] => []
  | x :: l' => insert_sorted leb x (sorted leb l')
  end.

(** The first loop of [generate_insights]. *)
Fixpoint count_authors_and_months (commits_data : list Commit)
    (author_stats monthly_activity : Counter) : Raises (Counter * Counter) :=
  match commits_data with
  | [] => Return (author_stats, monthly_activity)
  | commit :: rest =>
      a ← subscript "author" (author commit);
      let author_stats := bump a author_stats in
      d ← subscript "date" (date commit);
      let month := String.substring 0 7 d in
      let monthly_activity := bump month monthly_activity in
      count_authors_and_months rest author_stats monthly_activity
  end.

(** The loop over the file changes of one commit. *)
Fixpoint count_files_of (changes : list FileChange) (freq : Counter) : Raises Counter :=
  match changes with
  | [] => Return freq
  | file_change :: rest =>
      name ← subscript "filename" (filename file_change);
      count_files_of rest (bump name freq)
  end.

(** The loop over the commits for the file modification pattern. *)
Fixpoint count_files (commits_data : list Commit) (freq : Counter) : Raises Counter :=
  match commits_data with
  | [] => Return freq
  | commit :: rest =>
      freq ← count_files_of (default [] (file_changes commit)) freq;
      count_files rest freq
  end.

(** The loop over the words of one message. *)
Definition count_words (words : list string) (common_keywords : Counter) : Counter :=
  fold_left (fun d word => if (3 <? String.length word)%nat then bump word d else d)
            words common_keywords.

(** The loop over the commits for the commit message analysis. *)
Fixpoint count_keywords (commits_data : list Commit) (common_keywords : Counter)
    : Raises Counter :=
  match commits_data with
  | [] => Return common_keywords
  | commit :: rest =>
      m ← subscript "message" (message commit);
      count_keywords rest (count_words (Str.split (Str.lower m)) common_keywords)
  end.

(** The insights dict; [complexity_insights] is carried as its JSON text. *)
Record Insights := {
  in_total_commits_analyzed : nat;
  in_unique_authors : nat;
  in_active_months : nat;
  in_recent_active_authors : nat;
  in_top_contributors : Counter;
  in_most_modified_files : Counter;
  in_activity_timeline : Counter;
  in_common_commit_keywords : Counter;
  in_complexity_insights : string;
}.

(** The value of [generate_insights]: [{"error": msg}] or the insights. *)
Inductive InsightsDict :=
  | InsightsError (msg : string)
  | InsightsOf (i : Insights).

(** The [try] block of [generate_insights] after the test of
    [commits_data].  The items of [monthly_activity] have distinct keys,
    so the dict of the sorted items has them all, in their order. *)
Definition compute_insights (commits_data : list Commit) (complexity_data : string)
    : Raises Insights :=
  '(author_stats, monthly_activity) ← count_authors_and_months commits_data [] [];
  let top_authors := take 10 (Py.sorted_reverse Nat.leb snd author_stats) in
  let recent_commits :=
    take 30 (Py.sorted_reverse String.leb (fun x => default "" (date x)) commits_data) in
  let recent_authors : gset string :=
    list_to_set ((fun commit => default "" (author commit)) <$> recent_commits) in
  file_modification_freq ← count_files commits_data [];
  let most_modified_files := take 10 (Py.sorted_reverse Nat.leb snd file_modification_freq) in
  common_keywords ← count_keywords commits_data [];
  let top_keywords := take 20 (Py.sorted_reverse Nat.leb snd common_keywords) in
  Return
    {| in_total_commits_analyzed := length commits_data;
       in_unique_authors := length author_stats;
       in_active_months := length monthly_activity;
       in_recent_active_authors := size recent_authors;
       in_top_contributors := top_authors;
       in_most_modified_files := most_modified_files;
       in_activity_timeline := sorted item_leb monthly_activity;
       in_common_commit_keywords := top_keywords;
       in_complexity_insights := complexity_data |}.

Definition generate_insights (commits_data : list Commit) (complexity_data : string)
    : InsightsDict :=
  match commits_data with
  | [] => InsightsError "No commits data available"
  | _ =>
      match compute_insights commits_data complexity_data with
      | Raise msg => InsightsError msg
      | Return insights => InsightsOf insights
      end
  end.

(** The number of times [key] is in [keys]. *)
Definition occurrences (key : string) (keys : list string) : nat :=
  length (List.filter (String.eqb key) keys).

(** The count of [key] in a counter, 0 where it is absent. *)
Definition count_of (key : string) (d : Counter) : nat :=
  sum_list_with (fun item => if String.eqb item.1 key then item.2 else 0) d.

(** The counter after the keys [keys] are counted into [d], one by one. *)
Definition bump_all (keys : list string) (d : Counter) : Counter :=
  fold_left (fun d key => bump key d) keys d.

(** The words of a message that [generate_insights] counts. *)
Definition counted_words (commit : Commit) : list string :=
  List.filter (fun word => (3 <? String.length word)%nat)
              (Str.split (Str.lower (default "" (message commit)))).

(** The names of the changed files of a commit. *)
Definition file_names (commit : Commit) : list string :=
  omap filename (default [] (file_changes commit)).

(** The insights of commits that have the keys, by counting. *)
Definition insights_of (commits_data : list Commit) (complexity_data : string) : Insights :=
  let author_stats := bump_all (omap author commits_data) [] in
  let monthly_activity :=
    bump_all (String.substring 0 7 <$> omap date commits_data) [] in
  let recent_commits :=
    take 30 (Py.sorted_reverse String.leb (fun x => default "" (date x)) commits_data) in
  {| in_total_commits_analyzed := length commits_data;
     in_unique_authors := length author_stats;
     in_active_months := length monthly_activity;
     in_recent_active_authors :=
       size (list_to_set ((fun commit => default "" (author commit)) <$> recent_commits)
             : gset string);
     in_top_contributors := take 10 (Py.sorted_reverse Nat.leb snd author_stats);
     in_most_modified_files :=
       take 10 (Py.sorted_reverse Nat.leb snd
                  (bump_all (commits_data ≫= file_names) []));
     in_activity_timeline := sorted item_leb monthly_activity;
     in_common_commit_keywords :=
       take 20 (Py.sorted_reverse Nat.leb snd
                  (bump_all (commits_data ≫= counted_words) []));
     in_complexity_insights := complexity_data |}.

(** The commit has the keys that [generate_insights] subscripts. *)
Definition insightful (commit : Commit) : Prop :=
  is_Some (author commit) /\ is_Some (date commit) /\ is_Some (message commit)
  /\ Forall (fun f => is_Some (filename f)) (default [] (file_changes commit)).

(** ** Further predicates of the statements *)

(** The condition of [author_search] on a commit. *)
Definition author_matches (query_lower : string) (commit : Commit) : bool :=
  Str.contains query_lower (Str.lower (default "" (author commit)))
  || Str.contains query_lower (Str.lower (default "" (author_email commit))).

(** The result dict of [author_search] for a commit. *)
Definition author_result (commit : Commit) : AuthorHit :=
  {| au_hash := default "" (hash commit);
     au_author := default "" (author commit);
     au_author_email := default "" (author_email commit);
     au_date := default "" (date commit);
     au_message := default "" (message commit);
     au_files_modified := default 0%Z (files_modified commit);
     au_insertions := default 0%Z (insertions commit);
     au_deletions := default 0%Z (deletions commit) |}.

(** The condition of [file_search] on a file change. *)
Definition file_matches (query_lower : string) (file_change : FileChange) : bool :=
  Str.contains query_lower (Str.lower (default "" (filename file_change))).

(** The file changes of a commit that [file_search] keeps. *)
Definition matching_files (query_lower : string) (commit : Commit) : list FileChange :=
  List.filter (file_matches query_lower) (default [] (file_changes commit)).

(** The result dict of [file_search] for a commit. *)
Definition file_result (query_lower : string) (commit : Commit) : FileHit :=
  {| fi_hash := default "" (hash commit);
     fi_author := default "" (author commit);
     fi_date := default "" (date commit);
     fi_message := default "" (message commit);
     fi_matching_files := matching_files query_lower commit;
     fi_total_files_modified := default 0%Z (files_modified commit) |}.

(** The keyword hits of the commits of a session, in the order of the
    store, before they are sorted and cut. *)
Definition keyword_hits (query : string) (self : QueryEngine) : list KeywordHit :=
  omap (keyword_hit (Str.split (Str.lower query)))
       (default [] (commits_data (analysis_data self))).

(** The response dict that [process_query] builds from the outcome of
    the search, in the session [self] after the search. *)
Definition response_of (ext : Externals) (query repo_id : string)
    (outcome : list Result * option SummaryDict * string) (self : QueryEngine) : Answer :=
  let '(results, summary, search_type) := outcome in
  {| an_query := query;
     an_repo_id := repo_id;
     an_search_type := search_type;
     an_timestamp := now_isoformat ext;
     an_results := results;
     an_summary := summary;
     an_suggestions :=
       if match results with [] => true | _ => false end
          && negb (summary_truthy summary)
       then Some no_results_suggestions else None;
     an_total_results := length results;
     an_total_commits_available :=
       length (default [] (commits_data (analysis_data self)));
     an_analysis_date := default "" (analysis_timestamp (analysis_data self));
     an_repo_url := default "" (repo_url (analysis_data self)) |}.

(** The search type that [process_query] dispatches on. *)
Definition resolved_type (query search_type : string) : string :=
  if String.eqb search_type "auto" then auto_detect (Str.lower query) else search_type.

(** The entry [r] of the time range search carries the fields of
    [commit], with the defaults of [commit.get]. *)
Definition time_entry_of (commit : Commit) (r : TimeHit) : Prop :=
  tr_hash r = default "" (hash commit)
  /\ tr_author r = default "" (author commit)
  /\ tr_date r = default "" (date commit)
  /\ tr_message r = default "" (message commit)
  /\ tr_files_modified r = default 0%Z (files_modified commit)
  /\ tr_insertions r = default 0%Z (insertions commit)
  /\ tr_deletions r = default 0%Z (deletions commit).

(** The date of [commit] lies between the bounds, both included. *)
Definition dated_between (start_date end_date : string) (commit : Commit) : bool :=
  String.leb start_date (default "" (date commit))
  && String.leb (default "" (date commit)) end_date.

(** The session in which [process_query] runs the search: the session
    after the load, where it had no data, with the model that was
    loaded, where it had none. *)
Definition searched_session (ext : Externals) (repo_id : string) (self : QueryEngine)
    : QueryEngine :=
  let self :=
    if dict_truthy (analysis_data self) then self
    else (load_analysis_data ext repo_id self).2 in
  match embeddings_model self, sentence_transformer ext "all-MiniLM-L6-v2" with
  | None, Loaded m => set_embeddings_model (Some m) self
  | _, _ => self
  end.

(** ** Further sample data *)

Module Cases.

(** An analyzer that has built the sample index. *)
Definition analyzer : CodebaseTimeMachine :=
  {| tm_embeddings_index := Some Samples.index;
     tm_commit_metadata :=
       [Samples.meta "a1" "fix bug in parser"; Samples.meta "b2" "update readme"] |}.

(** An analyzer that has built no index. *)
Definition bare_analyzer : CodebaseTimeMachine :=
  {| tm_embeddings_index := None; tm_commit_metadata := [] |}.

(** The files after the analyzer has saved the sample document. *)
Definition saved : FileSystem :=
  (save_analysis_results "/srv" "0123456789ab"
     (Samples.document Samples.parser_commits) analyzer ∅).2.

(** The files after a second analysis, without an index, of the same
    repository. *)
Definition saved_again : FileSystem :=
  (save_analysis_results "/srv" "0123456789ab"
     (Samples.document Samples.release_commits) bare_analyzer saved).2.

(** The document beside an index file that no reader reads. *)
Definition broken_index : FileSystem :=
  <[ index_file "/srv" "0123456789ab" := Garbage ]>
    (Samples.document_only Samples.parser_commits).

(** Collaborators whose sentence transformer cannot be loaded. *)
Definition offline (files : FileSystem) : Externals :=
  {| cwd := "/srv"; fs := files;
     sentence_transformer := fun _ => LoadRaises "connection refused";
     astype_float32 := fun v => v; normalize_L2 := fun v => v;
     now_isoformat := "2024-04-02T00:00:00" |}.

End Cases.

(** * Properties *)

(** Decides the comparisons of two literal search types. *)
Ltac eval_eqb :=
  repeat match goal with
         | |- context [String.eqb ?a ?b] =>
             let v := eval vm_compute in (String.eqb a b) in
             match v with
             | true => change (String.eqb a b) with true
             | false => change (String.eqb a b) with false
             end
         end; cbv iota.

(** ** Strings *)

Example split_ex :
  Str.split (Str.lower "  Fix  BUG in parser ") = ["fix"; "bug"; "in"; "parser"].
Proof. reflexivity. Qed.

Example count_ex :
  Str.count "aa" "aaaaa" = 2 /\ Str.count "" "abc" = 4
  /\ Str.count "bug" "fix bug in debugger" = 2.
Proof. repeat split; reflexivity. Qed.

Example replace_ex :
  Str.strip (Str.replace "who" "" (Str.replace "author" "" (Str.lower "Who is the AUTHOR alice ")))
  = "is the  alice"
  /\ Str.replace "" "X" "abc" = "XaXbXcX" /\ Str.replace "aa" "b" "aaaaa" = "bba".
Proof. repeat split; reflexivity. Qed.

Example sorted_reverse_ex :
  Py.sorted_reverse Nat.leb snd [("a", 1); ("b", 3); ("c", 1); ("d", 3); ("e", 2)]
  = [("b", 3); ("d", 3); ("e", 2); ("a", 1); ("c", 1)].
Proof. reflexivity. Qed.

Example slice_to_ex :
  Py.slice_to [1; 2; 3; 4] 2 = [1; 2] /\ Py.slice_to [1; 2; 3; 4] (-1) = [1; 2; 3]
  /\ Py.slice_to [1; 2; 3; 4] 10 = [1; 2; 3; 4] /\ Py.slice_to [1; 2; 3; 4] (-9) = [].
Proof. repeat split; reflexivity. Qed.

Lemma contains_cons sub c s :
  Str.contains sub (String c s) = String.prefix sub (String c s) || Str.contains sub s.
Proof. reflexivity. Qed.

Lemma contains_tail sub c s :
  Str.contains sub (String c s) = false -> Str.contains sub s = false.
Proof. rewrite contains_cons. intros H. apply orb_false_elim in H. tauto. Qed.

(** A string that does not occur is counted zero times. *)
Lemma count_from_absent sub s : forall skip,
  Str.contains sub s = false -> Str.count_from sub skip s = 0.
Proof.
  induction s as [|c s IH]; intros skip H.
  - destruct skip; simpl in *; [|done].
    rewrite orb_false_r in H. by rewrite H.
  - pose proof (contains_tail _ _ _ H) as Ht.
    rewrite contains_cons in H. apply orb_false_elim in H as [Hp _].
    destruct skip; cbn [Str.count_from]; [rewrite Hp|]; auto.
Qed.

(** A string that occurs is counted at least once. *)
Lemma count_present sub s :
  Str.contains sub s = true -> 1 <= Str.count sub s.
Proof.
  unfold Str.count. induction s as [|c s IH]; intros H.
  - simpl in *. rewrite orb_false_r in H. rewrite H. lia.
  - rewrite contains_cons in H. cbn [Str.count_from].
    destruct (String.prefix sub (String c s)); [lia|]. simpl in H. auto.
Qed.

(** The score is the sum of the occurrence counts of the keywords. *)
Lemma keyword_match_score_sum kws text :
  keyword_match_score kws text = sum_list_with (fun k => Str.count k text) kws.
Proof.
  unfold keyword_match_score.
  enough (forall acc,
    fold_left (fun score keyword =>
                 if Str.contains keyword text then score + Str.count keyword text
                 else score) kws acc
    = acc + sum_list_with (fun k => Str.count k text) kws) as H by apply (H 0).
  induction kws as [|k kws IH]; intros acc; simpl; [lia|].
  rewrite IH. destruct (Str.contains k text) eqn:E; [lia|].
  unfold Str.count. rewrite (count_from_absent _ _ 0 E). lia.
Qed.

Lemma keyword_match_score_ge kws text k :
  k ∈ kws -> Str.count k text <= keyword_match_score kws text.
Proof.
  rewrite keyword_match_score_sum.
  induction 1 as [k kws|k k' kws _ IH]; simpl; lia.
Qed.

(** ** Sorting and slicing *)

Section Sorted_reverse.

Context {A K : Type} (leb : K -> K -> bool) (key : A -> K).

Lemma insert_reverse_perm x l : Py.insert_reverse leb key x l ≡ₚ x :: l.
Proof.
  induction l as [|y l IH]; simpl; [done|].
  destruct (leb (key y) (key x)); [done|].
  rewrite IH. apply perm_swap.
Qed.

Lemma sorted_reverse_perm l : Py.sorted_reverse leb key l ≡ₚ l.
Proof.
  induction l as [|x l IH]; simpl; [done|].
  rewrite insert_reverse_perm. by rewrite IH.
Qed.

Lemma elem_of_sorted_reverse x l : x ∈ Py.sorted_reverse leb key l <-> x ∈ l.
Proof. by rewrite sorted_reverse_perm. Qed.

Hypothesis leb_total : forall a b, leb a b = true \/ leb b a = true.
Hypothesis leb_trans : forall a b c, leb a b = true -> leb b c = true -> leb a c = true.

Lemma insert_reverse_sorted x l :
  StronglySorted (descending leb key) l -> StronglySorted (descending leb key) (Py.insert_reverse leb key x l).
Proof.
  induction 1 as [|y l Hl IH Hy]; simpl.
  - repeat constructor.
  - destruct (leb (key y) (key x)) eqn:E.
    + constructor; [by constructor|].
      constructor; [done|].
      eapply Forall_impl; [exact Hy|]. intros z Hz. unfold descending in *. eauto.
    + constructor; [done|].
      rewrite insert_reverse_perm. constructor; [|done].
      unfold descending. destruct (leb_total (key x) (key y)); congruence.
Qed.

Lemma sorted_reverse_sorted l : StronglySorted (descending leb key) (Py.sorted_reverse leb key l).
Proof.
  induction l; simpl; [constructor|]. by apply insert_reverse_sorted.
Qed.

End Sorted_reverse.

Lemma elem_of_slice_to {A} (l : list A) k x : x ∈ Py.slice_to l k -> x ∈ l.
Proof. unfold Py.slice_to. destruct (k <? 0)%Z; apply subseteq_take. Qed.

Lemma string_leb_trans a b c :
  String.leb a b = true -> String.leb b c = true -> String.leb a c = true.
Proof.
  unfold String.leb. revert b c.
  induction a as [|x a IH]; intros [|y b] [|z c]; simpl; try done.
  unfold Ascii.compare.
  destruct (N.compare_spec (N_of_ascii x) (N_of_ascii y)),
           (N.compare_spec (N_of_ascii y) (N_of_ascii z)),
           (N.compare_spec (N_of_ascii x) (N_of_ascii z));
    try done; try lia.
  apply IH.
Qed.

(** ** Tokens *)

Lemma lower_char_not_upper c : Str.is_upper (Str.lower_char c) = false.
Proof. destruct c as [[] [] [] [] [] [] [] []]; reflexivity. Qed.

Lemma lower_not_upper s :
  Forall (fun c => Str.is_upper c = false) (list_ascii_of_string (Str.lower s)).
Proof.
  induction s; simpl; constructor; auto using lower_char_not_upper.
Qed.

Section Tokens.

Variable P : ascii -> Prop.

Lemma token_of_rev c cur :
  Forall (fun c => P c /\ Str.is_space c = false) (c :: cur) ->
  token P (string_of_list_ascii (rev (c :: cur))).
Proof.
  intros H. split.
  - simpl. destruct (rev cur); discriminate.
  - rewrite list_ascii_of_string_of_list_ascii. by apply List.Forall_rev.
Qed.

Lemma split_go_tokens s : forall cur,
  Forall (fun c => P c /\ Str.is_space c = false) cur ->
  Forall P (list_ascii_of_string s) ->
  Forall (token P) (Str.split_go cur s).
Proof.
  induction s as [|c s IH]; intros cur Hcur Hs.
  - destruct cur; [constructor|]. constructor; [|constructor].
    by apply token_of_rev.
  - simpl in Hs. apply Forall_cons in Hs as [Hc Hs].
    cbn [Str.split_go]. destruct (Str.is_space c) eqn:E.
    + apply Forall_app. split; [|by apply IH].
      destruct cur; [constructor|]. constructor; [|constructor].
      by apply token_of_rev.
    + apply IH; [|done]. by constructor.
Qed.

End Tokens.

(** The keywords of a query are non-empty, free of whitespace and in
    lower case. *)
Lemma query_keywords_tokens query :
  Forall (token (fun c => Str.is_upper c = false)) (Str.split (Str.lower query)).
Proof. apply split_go_tokens; [constructor|apply lower_not_upper]. Qed.

(** ** Keyword search *)

Lemma omap_ext_eq {A B} (f g : A -> option B) (l : list A) :
  (forall x, f x = g x) -> omap f l = omap g l.
Proof.
  intros H. induction l as [|x l IH]; [done|]. csimpl. by rewrite H, IH.
Qed.

(** The result of [keyword_search] over the commits of the session. *)
Lemma keyword_search_eq query top_k self :
  keyword_search query top_k self =
  (Py.slice_to
     (Py.sorted_reverse Nat.leb kw_keyword_score
        (omap (keyword_hit (Str.split (Str.lower query)))
              (default [] (commits_data (analysis_data self)))))
     top_k, self).
Proof.
  unfold keyword_search, mbind, M_bind, get, mret, M_ret.
  destruct (commits_data (analysis_data self)) as [[|c cs]|]; simpl; try done;
    unfold Py.slice_to; destruct (top_k <? 0)%Z; by rewrite take_nil.
Qed.

(** C2, as the code has it: the keywords of [keyword_search] are all the
    whitespace-separated tokens of the lower-cased query, whatever their
    length, and the score of a commit is the sum over these tokens of the
    number of occurrences of the token in the text of the commit; a
    commit is returned when that sum is positive. *)
Theorem keyword_search_counts_every_token (query : string) (top_k : Z) (self : QueryEngine) :
  let tokens := Str.split (Str.lower query) in
  let score commit := sum_list_with (fun t => Str.count t (commit_text commit)) tokens in
  Forall (token (fun c => Str.is_upper c = false)) tokens
  /\ fst (keyword_search query top_k self) =
     Py.slice_to
       (Py.sorted_reverse Nat.leb kw_keyword_score
          (omap (fun commit =>
                   if (0 <? score commit)%nat
                   then Some (keyword_result commit (score commit)) else None)
                (default [] (commits_data (analysis_data self)))))
       top_k
  /\ Forall (fun t => forall commit,
               Str.contains t (commit_text commit) = true -> 1 <= score commit) tokens.
Proof.
  intros tokens score. split; [apply query_keywords_tokens|]. split.
  - rewrite keyword_search_eq. simpl. do 2 f_equal.
    apply omap_ext_eq. intros commit. unfold keyword_hit, score, tokens.
    rewrite keyword_match_score_sum. reflexivity.
  - apply Forall_forall. intros t Ht commit Hc.
    pose proof (keyword_match_score_ge tokens (commit_text commit) t) as H.
    rewrite keyword_match_score_sum in H.
    pose proof (count_present _ _ Hc). etrans; [eassumption|]. by apply H.
Qed.

Lemma append_cons c a b : String c a +:+ b = String c (a +:+ b).
Proof. reflexivity. Qed.

Lemma append_nil b : "" +:+ b = b.
Proof. reflexivity. Qed.

Lemma lower_app a b : Str.lower (a +:+ b) = Str.lower a +:+ Str.lower b.
Proof.
  induction a as [|c a IH]; [done|].
  rewrite append_cons. simpl. by rewrite append_cons, IH.
Qed.

Lemma lower_join_space l : Str.lower (Str.join " " l) = Str.join " " (Str.lower <$> l).
Proof.
  induction l as [|x [|y l] IH]; [done..|].
  change (Str.join " " (x :: y :: l)) with (x +:+ " " +:+ Str.join " " (y :: l)).
  rewrite !lower_app, IH. reflexivity.
Qed.

Section Separator.

Lemma prefix_app_space sub : forall x r,
  spaceless sub -> String.prefix sub x = false ->
  String.prefix sub (x +:+ String " " r) = false.
Proof.
  induction sub as [|a sub IH]; intros x r Hs Hp; [by destruct x|].
  apply Forall_cons in Hs as [Ha Hs].
  destruct x as [|c x]; [rewrite append_nil|rewrite append_cons]; simpl in *.
  - destruct (ascii_dec a " "); [done|reflexivity].
  - destruct (ascii_dec a c); [|reflexivity]. by apply IH.
Qed.

Lemma contains_app_space sub x r :
  spaceless sub -> Str.contains sub x = false -> Str.contains sub r = false ->
  Str.contains sub (x +:+ String " " r) = false.
Proof.
  intros Hs Hx Hr. induction x as [|c x IH].
  - simpl in Hx. rewrite orb_false_r in Hx.
    change ("" +:+ String " " r) with (String " " r).
    rewrite contains_cons, Hr, orb_false_r.
    apply (prefix_app_space sub "" r Hs Hx).
  - pose proof (contains_tail _ _ _ Hx) as Ht.
    rewrite contains_cons in Hx. apply orb_false_elim in Hx as [Hp _].
    change (String c x +:+ String " " r) with (String c (x +:+ String " " r)).
    rewrite contains_cons, (IH Ht), orb_false_r.
    apply (prefix_app_space sub (String c x) r Hs Hp).
Qed.

(** A spaceless string that occurs in no name does not occur in the
    names joined by spaces. *)
Lemma contains_join_space sub l :
  sub <> "" -> spaceless sub ->
  Forall (fun x => Str.contains sub x = false) l ->
  Str.contains sub (Str.join " " l) = false.
Proof.
  intros Hne Hs. induction l as [|x [|y l] IH]; intros H.
  - by destruct sub.
  - by apply Forall_cons in H as [H _].
  - apply Forall_cons in H as [Hx H].
    change (Str.join " " (x :: y :: l)) with (x +:+ String " " (Str.join " " (y :: l))).
    apply contains_app_space; auto.
Qed.

End Separator.

Lemma count_from_miss sub c s :
  String.prefix sub (String c s) = false ->
  Str.count_from sub 0 (String c s) = Str.count_from sub 0 s.
Proof. intros H. cbn [Str.count_from]. by rewrite H. Qed.

Lemma count_from_hit sub c s :
  String.prefix sub (String c s) = true ->
  Str.count_from sub 0 (String c s) = S (Str.count_from sub (String.length sub - 1) s).
Proof. intros H. cbn [Str.count_from]. by rewrite H. Qed.

Lemma count_from_skip sub k c s :
  Str.count_from sub (S k) (String c s) = Str.count_from sub k s.
Proof. reflexivity. Qed.

(** The names of the changed files of a commit, none of which contains
    [sub], add no occurrence of [sub] to the text. *)
Lemma file_names_absent sub commit :
  sub <> "" -> spaceless sub ->
  Forall (fun f => Str.contains sub (Str.lower (default "" (filename f))) = false)
         (default [] (file_changes commit)) ->
  Str.contains sub
    (Str.lower (Str.join " " (map (fun f => default "" (filename f))
                                  (default [] (file_changes commit))))) = false.
Proof.
  intros Hne Hs H. rewrite lower_join_space. apply contains_join_space; [done..|].
  rewrite !Forall_fmap. exact H.
Qed.

(** C3: on a store of two commits with the messages "fix bug in parser"
    and "update readme", where no changed file name contains "bug", the
    keyword search for "bug" with [top_k = 10] returns one entry: it has
    the hash, the author, the date, the message and the file count of
    the first commit and its first three file changes, its score is 1,
    and it is not an entry of the second commit. *)
Theorem keyword_search_bug_example (self : QueryEngine) (c1 c2 : Commit) :
  commits_data (analysis_data self) = Some [c1; c2] ->
  message c1 = Some "fix bug in parser" ->
  message c2 = Some "update readme" ->
  Forall (fun f => Str.contains "bug" (Str.lower (default "" (filename f))) = false)
         (default [] (file_changes c1)) ->
  Forall (fun f => Str.contains "bug" (Str.lower (default "" (filename f))) = false)
         (default [] (file_changes c2)) ->
  exists h,
    fst (keyword_search "bug" 10 self) = [h]
    /\ kw_message h = "fix bug in parser"
    /\ kw_hash h = default "" (hash c1)
    /\ kw_author h = default "" (author c1)
    /\ kw_date h = default "" (date c1)
    /\ kw_files_modified h = default 0%Z (files_modified c1)
    /\ kw_file_changes h = take 3 (default [] (file_changes c1))
    /\ kw_keyword_score h = 1
    /\ 1 <= kw_keyword_score h
    /\ kw_message h <> default "" (message c2).
Proof.
  intros Hcs Hm1 Hm2 Hf1 Hf2.
  assert (Hsp : spaceless "bug") by (repeat constructor; discriminate).
  apply (file_names_absent "bug" c1) in Hf1; [|done..].
  apply (file_names_absent "bug" c2) in Hf2; [|done..].
  rewrite keyword_search_eq, Hcs.
  change (Str.split (Str.lower "bug")) with ["bug"].
  assert (H1 : keyword_match_score ["bug"] (commit_text c1) = 1).
  { rewrite keyword_match_score_sum. unfold commit_text. rewrite Hm1. simpl default.
    rewrite !lower_app.
    set (names := Str.lower (Str.join " " _)) in *.
    cbn [sum_list_with]. unfold Str.count.
    change (Str.lower "fix bug in parser") with "fix bug in parser".
    change (Str.lower " ") with " ".
    rewrite !append_cons, !append_nil.
    rewrite !count_from_miss by reflexivity.
    rewrite count_from_hit by reflexivity.
    cbn [String.length Nat.sub]. rewrite !count_from_skip.
    rewrite !count_from_miss by reflexivity.
    by rewrite (count_from_absent _ _ 0 Hf1). }
  assert (H2 : keyword_match_score ["bug"] (commit_text c2) = 0).
  { rewrite keyword_match_score_sum. unfold commit_text. rewrite Hm2. simpl default.
    rewrite !lower_app.
    set (names := Str.lower (Str.join " " _)) in *.
    cbn [sum_list_with]. unfold Str.count.
    change (Str.lower "update readme") with "update readme".
    change (Str.lower " ") with " ".
    rewrite !append_cons, !append_nil.
    rewrite !count_from_miss by reflexivity.
    by rewrite (count_from_absent _ _ 0 Hf2). }
  cbn [default fst]. simpl omap. unfold keyword_hit. rewrite H1, H2.
  eexists. split; [reflexivity|].
  cbn [keyword_result kw_message kw_hash kw_author kw_date kw_files_modified
       kw_file_changes kw_keyword_score].
  rewrite Hm1, Hm2. split_and!; done.
Qed.

(** C3, at the sample store: the entry is the commit "a1". *)
Lemma keyword_search_bug_example_witness :
  exists h,
    fst (keyword_search "bug" 10 (Samples.session Samples.parser_commits)) = [h]
    /\ kw_message h = "fix bug in parser"
    /\ kw_hash h = "a1"
    /\ kw_date h = "2024-03-15T10:00:00"
    /\ kw_keyword_score h = 1.
Proof.
  destruct (keyword_search_bug_example (Samples.session Samples.parser_commits)
              (Samples.commit (Some "a1") "2024-03-15T10:00:00" "fix bug in parser" [])
              (Samples.commit (Some "b2") "2024-03-17T08:30:00" "update readme" [])
              eq_refl eq_refl eq_refl (Forall_nil_2 _) (Forall_nil_2 _))
    as (h & Hr & Hm & Hh & _ & Hd & _ & _ & Hs & _).
  exists h. split_and!; done.
Defined.

(** C2, as the specification words it, fails: the only token of the
    query "bug" has length 3, so nothing would be left to score, yet
    the search scores the first sample commit 1 and returns it. *)
Lemma keyword_search_keeps_short_token :
  Str.split (Str.lower "bug") = ["bug"]
  /\ String.length "bug" = 3
  /\ long_tokens "bug" = []
  /\ keyword_match_score (long_tokens "bug") "fix bug in parser " = 0
  /\ fst (keyword_search "bug" 10 (Samples.session Samples.parser_commits))
     = [keyword_result (Samples.commit (Some "a1") "2024-03-15T10:00:00" "fix bug in parser" []) 1].
Proof. repeat split; reflexivity. Qed.

(** C10: every result of the keyword search stems from a commit of the
    store and carries the first three entries of its [file_changes], in
    their order: at most three entries, and never the whole list of a
    commit that changed more than three files. *)
Theorem keyword_search_limits_files (query : string) (top_k : Z) (self : QueryEngine) :
  Forall (fun h : KeywordHit =>
            exists commit,
              commit ∈ default [] (commits_data (analysis_data self))
              /\ h = keyword_result commit (kw_keyword_score h)
              /\ kw_file_changes h = take 3 (default [] (file_changes commit))
              /\ length (kw_file_changes h) <= 3
              /\ (3 < length (default [] (file_changes commit)) ->
                  kw_file_changes h <> default [] (file_changes commit)))
         (fst (keyword_search query top_k self)).
Proof.
  rewrite keyword_search_eq. cbn [fst]. apply Forall_forall. intros h Hin.
  apply elem_of_slice_to, elem_of_sorted_reverse, list_elem_of_omap in Hin
    as (commit & Hc & Hh).
  unfold keyword_hit in Hh. case_match; [|done]. injection Hh as <-.
  exists commit. cbn [kw_file_changes kw_keyword_score keyword_result].
  repeat split; [done| |].
  - rewrite length_take. lia.
  - intros Hlen Heq. apply (f_equal length) in Heq.
    rewrite length_take in Heq. lia.
Qed.

(** The sample commit that changed five files is returned with three. *)
Example keyword_search_limits_files_ex :
  kw_file_changes <$> fst (keyword_search "parser" 10 (Samples.session Samples.wide_commits))
  = [[Samples.file "a.py"; Samples.file "b.py"; Samples.file "c.py"]].
Proof. reflexivity. Qed.

(** ** Time range search *)

Lemma omap_time_hit start_date end_date commits :
  omap (time_hit start_date end_date) commits =
  time_result <$>
    List.filter (fun c => String.leb start_date (default "" (date c))
                          && String.leb (default "" (date c)) end_date) commits.
Proof.
  induction commits as [|c cs IH]; [done|].
  csimpl. unfold time_hit at 1.
  destruct (String.leb start_date (default "" (date c))
            && String.leb (default "" (date c)) end_date); csimpl; by rewrite IH.
Qed.

Lemma time_range_search_eq start_date end_date self :
  time_range_search start_date end_date self =
  (Py.sorted_reverse String.leb tr_date
     (omap (time_hit start_date end_date)
           (default [] (commits_data (analysis_data self)))), self).
Proof.
  unfold time_range_search, mbind, M_bind, get, mret, M_ret.
  by destruct (commits_data (analysis_data self)) as [[|c cs]|].
Qed.

Lemma sorted_reverse_fmap {A B K} (leb : K -> K -> bool) (key : B -> K) (f : A -> B)
    (l : list A) :
  Py.sorted_reverse leb key (f <$> l) = f <$> Py.sorted_reverse leb (fun x => key (f x)) l.
Proof.
  induction l as [|x l IH]; [done|]. csimpl. rewrite IH.
  generalize (Py.sorted_reverse leb (fun x => key (f x)) l). intros l'.
  induction l' as [|y l' IH']; [done|]. csimpl.
  destruct (leb (key (f y)) (key (f x))); [done|]. by rewrite IH'.
Qed.

(** The results of the time range search are the entries of the commits
    in range, sorted by their dates. *)
Lemma time_range_search_kept start_date end_date self :
  let commits := default [] (commits_data (analysis_data self)) in
  let kept :=
    Py.sorted_reverse String.leb (fun c => default "" (date c))
                      (List.filter (dated_between start_date end_date) commits) in
  Forall2 time_entry_of kept (time_range_search start_date end_date self).1
  /\ kept ≡ₚ List.filter (dated_between start_date end_date) commits
  /\ StronglySorted (descending String.leb (fun c => default "" (date c))) kept.
Proof.
  intros commits kept. split_and!.
  - rewrite time_range_search_eq. cbn [fst]. fold commits.
    rewrite omap_time_hit, sorted_reverse_fmap. fold (dated_between start_date end_date).
    cbn [tr_date time_result]. fold kept.
    apply Forall2_fmap_r, Forall_Forall2_diag, Forall_forall. intros c _.
    by repeat split.
  - apply sorted_reverse_perm.
  - apply sorted_reverse_sorted; [apply String.leb_total|apply string_leb_trans].
Qed.

(** C8: the time range search returns one entry, with the fields of the
    commit, for each commit of the store whose date lies between the
    bounds, both included, in the order of the character codes, and no
    other entry; the commits, and so the dates of the entries, are in
    descending order of their dates.  A commit dated
    "2024-03-15T10:00:00" is among the commits returned for the bounds
    "2024-03-15" and "2024-03-15T23:59:59", and no commit of this date is
    among those returned for the bounds "2024-03-16" and "2024-03-20". *)
Theorem time_range_search_inclusive_sorted (start_date end_date : string) (self : QueryEngine) :
  let commits := default [] (commits_data (analysis_data self)) in
  let results := fst (time_range_search start_date end_date self) in
  (exists kept,
     Forall2 time_entry_of kept results
     /\ kept ≡ₚ List.filter (dated_between start_date end_date) commits
     /\ (forall c, c ∈ kept <->
           c ∈ commits
           /\ String.leb start_date (default "" (date c)) = true
           /\ String.leb (default "" (date c)) end_date = true)
     /\ StronglySorted (descending String.leb (fun c => default "" (date c))) kept
     /\ StronglySorted (descending String.leb tr_date) results)
  /\ (exists kept,
        Forall2 time_entry_of kept
                (fst (time_range_search "2024-03-15" "2024-03-15T23:59:59" self))
        /\ kept ⊆ commits
        /\ forall c, c ∈ commits -> date c = Some "2024-03-15T10:00:00" -> c ∈ kept)
  /\ (exists kept,
        Forall2 time_entry_of kept (fst (time_range_search "2024-03-16" "2024-03-20" self))
        /\ kept ⊆ commits
        /\ forall c, date c = Some "2024-03-15T10:00:00" -> c ∉ kept).
Proof.
  intros commits results.
  assert (Hmem : forall s e c,
    c ∈ Py.sorted_reverse String.leb (fun c => default "" (date c))
          (List.filter (dated_between s e) commits) <->
    c ∈ commits /\ String.leb s (default "" (date c)) = true
    /\ String.leb (default "" (date c)) e = true).
  { intros s e c. rewrite elem_of_sorted_reverse, list_elem_of_In, List.filter_In.
    rewrite <- list_elem_of_In. unfold dated_between. rewrite andb_true_iff. tauto. }
  split_and!.
  - destruct (time_range_search_kept start_date end_date self) as (H1 & H2 & H3).
    eexists. split_and!; [exact H1|exact H2|apply Hmem|exact H3|].
    unfold results. rewrite time_range_search_eq. cbn [fst].
    apply sorted_reverse_sorted; [apply String.leb_total|apply string_leb_trans].
  - destruct (time_range_search_kept "2024-03-15" "2024-03-15T23:59:59" self) as (H1 & _ & _).
    eexists. split_and!; [exact H1| |].
    + intros c Hc. by apply Hmem in Hc as [Hc _].
    + intros c Hc Hd. apply Hmem. rewrite Hd. done.
  - destruct (time_range_search_kept "2024-03-16" "2024-03-20" self) as (H1 & _ & _).
    eexists. split_and!; [exact H1| |].
    + intros c Hc. by apply Hmem in Hc as [Hc _].
    + intros c Hd Hc. apply Hmem in Hc as (_ & Hc & _). rewrite Hd in Hc. discriminate.
Qed.

(** C8, at the sample store: the entry of the commit "a1" is returned
    for the first bounds. *)
Lemma time_range_search_inclusive_sorted_witness :
  exists kept,
    Forall2 time_entry_of kept
            (fst (time_range_search "2024-03-15" "2024-03-15T23:59:59"
                    (Samples.session Samples.parser_commits)))
    /\ Samples.commit (Some "a1") "2024-03-15T10:00:00" "fix bug in parser" [] ∈ kept.
Proof.
  destruct (time_range_search_inclusive_sorted "" "" (Samples.session Samples.parser_commits))
    as (_ & (kept & H1 & _ & H2) & _).
  exists kept. split; [exact H1|]. apply H2; [apply list_elem_of_here|reflexivity].
Defined.

Example time_range_search_ex :
  tr_hash <$> fst (time_range_search "2024-03-15" "2024-03-15T23:59:59"
                     (Samples.session Samples.parser_commits)) = ["a1"]
  /\ tr_hash <$> fst (time_range_search "2024-03-16" "2024-03-20"
                        (Samples.session Samples.parser_commits)) = ["b2"]
  /\ tr_hash <$> fst (time_range_search "2024" "2025"
                        (Samples.session Samples.parser_commits)) = ["b2"; "a1"].
Proof. repeat split; reflexivity. Qed.

(** ** The session is read, not written *)

Lemma bind_run {A B} (m : M A) (f : A -> M B) self :
  (m ≫= f) self = f (m self).1 (m self).2.
Proof. unfold mbind, M_bind. by destruct (m self). Qed.

Lemma extends_refl self : extends self self.
Proof. repeat split. exists []. by rewrite app_nil_r. Qed.

Lemma extends_trans s1 s2 s3 : extends s1 s2 -> extends s2 s3 -> extends s1 s3.
Proof.
  intros [(?&?&?&?) [n1 Hn1]] [(?&?&?&?) [n2 Hn2]].
  repeat split; try congruence.
  exists (n1 ++ n2). by rewrite Hn2, Hn1, app_assoc.
Qed.

Lemma extends_set_heap self new : extends self (set_heap (heap self ++ new) self).
Proof. repeat split. by exists new. Qed.

(** An object of [self] is the same object after [self] is extended. *)
Lemma extends_lookup self self' l d :
  extends self self' -> heap self !! l = Some d -> heap self' !! l = Some d.
Proof. intros [_ [new ->]] H. by apply lookup_app_l_Some. Qed.

Lemma alter_fresh {A} (f : A -> A) (h : list A) d :
  alter f (length h) (h ++ [d]) = h ++ [f d].
Proof.
  rewrite alter_app_r_alt by lia. by rewrite Nat.sub_diag.
Qed.

(** The copy of a dict and the two assignments to the copy leave one new
    object behind. *)
Lemma copy_and_tag {A} d f g (k : loc -> M A) self :
  (result ← alloc d; _ ← store result f; _ ← store result g; k result) self
  = k (length (heap self)) (set_heap (heap self ++ [g (f d)]) self).
Proof.
  rewrite !bind_run. unfold alloc, store, modify. cbn [fst snd heap set_heap].
  by rewrite !alter_fresh.
Qed.

Lemma semantic_loop_extends hits : forall i self,
  extends self (semantic_loop hits i self).2.
Proof.
  induction hits as [|[similarity idx] hits IH]; intros i self.
  - apply extends_refl.
  - cbn [semantic_loop]. rewrite bind_run. cbn [get fst snd].
    destruct ((0 <=? idx)%Z && _); [|apply IH].
    destruct (commit_metadata self !! Z.to_nat idx) as [source|]; [|apply extends_refl].
    rewrite bind_run. cbn [deref fst snd].
    destruct (heap self !! source) as [d|]; [|apply extends_refl].
    rewrite copy_and_tag, bind_run. cbn [mret M_ret snd].
    eapply extends_trans; [apply extends_set_heap|apply IH].
Qed.

Lemma semantic_search_extends ext query top_k self :
  extends self (semantic_search ext query top_k self).2.
Proof.
  unfold semantic_search. rewrite bind_run. cbn [get fst snd].
  destruct (embeddings_model self) as [model|]; [|apply extends_refl].
  destruct (embeddings_index self) as [index|]; [|apply extends_refl].
  destruct (encode model query) as [v|]; [|apply extends_refl].
  destruct (search index _ top_k) as [hits|]; [|apply extends_refl].
  rewrite bind_run.
  pose proof (semantic_loop_extends hits 0 self) as H.
  destruct (semantic_loop hits 0 self) as [[ls|] self']; cbn [fst snd] in *; [|done].
  by rewrite bind_run.
Qed.

Lemma author_search_eq query self :
  author_search query self =
  (Py.sorted_reverse String.leb au_date
     (omap (author_hit (Str.lower query))
           (default [] (commits_data (analysis_data self)))), self).
Proof.
  unfold author_search, mbind, M_bind, get, mret, M_ret.
  by destruct (commits_data (analysis_data self)) as [[|c cs]|].
Qed.

Lemma file_search_eq query self :
  file_search query self =
  (Py.sorted_reverse String.leb fi_date
     (omap (file_hit (Str.lower query))
           (default [] (commits_data (analysis_data self)))), self).
Proof.
  unfold file_search, mbind, M_bind, get, mret, M_ret.
  by destruct (commits_data (analysis_data self)) as [[|c cs]|].
Qed.

Lemma get_repository_summary_state self : (get_repository_summary self).2 = self.
Proof.
  unfold get_repository_summary. rewrite bind_run. cbn [get fst snd].
  by destruct (negb _).
Qed.

(** C9: the keyword, author, file and time range searches and the
    summary leave the session as it is; the semantic search leaves the
    model, the index, the list [commit_metadata] and the analysis data as
    they are, and every dict object of the session, those of
    [commit_metadata] among them, where it was and with the content it
    had: it only adds the copies it returns. *)
Theorem searches_leave_session_unchanged (ext : Externals) (self : QueryEngine)
    (query start_date end_date : string) (top_k : Z) :
  (keyword_search query top_k self).2 = self
  /\ (author_search query self).2 = self
  /\ (file_search query self).2 = self
  /\ (time_range_search start_date end_date self).2 = self
  /\ (get_repository_summary self).2 = self
  /\ let self' := (semantic_search ext query top_k self).2 in
     analysis_data self' = analysis_data self
     /\ commit_metadata self' = commit_metadata self
     /\ embeddings_index self' = embeddings_index self
     /\ embeddings_model self' = embeddings_model self
     /\ (forall l d, heap self !! l = Some d -> heap self' !! l = Some d)
     /\ (metadata_allocated self ->
         (fun l => heap self' !! l) <$> commit_metadata self'
         = (fun l => heap self !! l) <$> commit_metadata self).
Proof.
  rewrite keyword_search_eq, author_search_eq, file_search_eq, time_range_search_eq.
  repeat split; try apply get_repository_summary_state;
    pose proof (semantic_search_extends ext query top_k self) as H;
    try apply H.
  - intros l d. by apply extends_lookup.
  - intros Hwf. destruct H as [(_ & _ & -> & _) [new ->]].
    apply list_fmap_ext. intros i l Hl.
    apply lookup_app_l. eapply Forall_lookup_1 in Hwf; eauto.
Qed.

(** ** Semantic search *)

Lemma set_heap_id self : set_heap (heap self) self = self.
Proof. by destruct self. Qed.

Lemma semantic_dicts_extends self self' hits : forall i,
  metadata_allocated self -> extends self self' ->
  semantic_dicts self' hits i = semantic_dicts self hits i.
Proof.
  intros i Hwf [(_ & _ & Hm & _) [new Hh]]. revert i.
  induction hits as [|[similarity idx] hits IH]; intros i; [done|].
  cbn [semantic_dicts]. rewrite Hm, IH.
  destruct (_ && _); [|done].
  destruct (commit_metadata self !! Z.to_nat idx) as [l|] eqn:El; [|done].
  cbn [mbind option_bind]. rewrite Hh, lookup_app_l; [done|].
  eapply Forall_lookup_1 in Hwf; eauto.
Qed.

(** The loop leaves the dicts of [semantic_dicts] behind as the new
    objects, and returns them. *)
Lemma semantic_loop_dicts hits : forall i self,
  metadata_allocated self ->
  semantic_loop hits i self =
  (Some (seq (length (heap self)) (length (semantic_dicts self hits i))),
   set_heap (heap self ++ semantic_dicts self hits i) self).
Proof.
  induction hits as [|[similarity idx] hits IH]; intros i self Hwf.
  - cbn. by rewrite app_nil_r, set_heap_id.
  - cbn [semantic_loop semantic_dicts]. rewrite bind_run. cbn [get fst snd].
    destruct (_ && _) eqn:Hrange; [|by apply IH].
    apply andb_prop in Hrange as [H0 Hlt].
    apply Z.leb_le in H0. apply Z.ltb_lt in Hlt.
    destruct (lookup_lt_is_Some_2 (commit_metadata self) (Z.to_nat idx)) as [source Hs]; [lia|].
    rewrite Hs. cbn [mbind option_bind].
    destruct (lookup_lt_is_Some_2 (heap self) source) as [d Hd].
    { eapply Forall_lookup_1 in Hwf; eauto. }
    rewrite bind_run. cbn [deref fst snd]. rewrite Hd.
    rewrite copy_and_tag, bind_run.
    set (d' := set_rank (i + 1) (set_similarity_score similarity d)).
    assert (Hext : extends self (set_heap (heap self ++ [d']) self))
      by apply extends_set_heap.
    assert (Hwf' : metadata_allocated (set_heap (heap self ++ [d']) self)).
    { unfold metadata_allocated in *. cbn [commit_metadata heap set_heap].
      eapply Forall_impl; [exact Hwf|]. intros l Hl. rewrite length_app. cbn beta in Hl. cbn [length]. lia. }
    rewrite IH by done. rewrite (semantic_dicts_extends self) by done.
    cbn [fst snd mret M_ret fmap option_fmap option_map heap set_heap length].
    rewrite length_app, <- app_assoc. cbn [length app seq].
    by rewrite Nat.add_1_r.
Qed.

Lemma contents_fresh (new : list MetaDict) : forall h,
  mapM (fun l => (h ++ new) !! l) (seq (length h) (length new)) = Some new.
Proof.
  induction new as [|d new IH]; intros h; [done|].
  apply mapM_Some_2. cbn [length seq]. constructor.
  - by apply list_lookup_middle.
  - apply mapM_Some_1. specialize (IH (h ++ [d])).
    rewrite <- app_assoc, length_app, Nat.add_1_r in IH. exact IH.
Qed.

(** In a session with the model and the index, whose metadata dicts are
    allocated, the semantic search returns the dicts of the answer of the
    index. *)
Lemma semantic_search_dicts ext query top_k self model index v hits :
  metadata_allocated self ->
  embeddings_model self = Some model ->
  embeddings_index self = Some index ->
  encode model query = Some v ->
  search index (normalize_L2 ext (astype_float32 ext v)) top_k = Some hits ->
  (semantic_search ext query top_k self).1 = semantic_dicts self hits 0.
Proof.
  intros Hwf Hm Hi Hv Hs. unfold semantic_search.
  rewrite bind_run. cbn [get fst snd]. rewrite Hm, Hi, Hv, Hs.
  rewrite bind_run, semantic_loop_dicts by done. cbn [fst snd].
  rewrite bind_run. unfold contents. rewrite bind_run.
  cbn [get fst snd mret M_ret heap set_heap].
  by rewrite contents_fresh.
Qed.

Example semantic_search_ex :
  (fun d => (md_hash d, md_rank d)) <$>
    (semantic_search (Samples.externals ∅) "parser" 5 Samples.full_session).1
  = [(Some "b2", Some 1); (Some "a1", Some 2)].
Proof. reflexivity. Qed.

(** ** Loading *)

Lemma alloc_all_eq ds : forall self,
  alloc_all ds self = (seq (length (heap self)) (length ds), set_heap (heap self ++ ds) self).
Proof.
  induction ds as [|d ds IH]; intros self.
  - cbn. by rewrite app_nil_r, set_heap_id.
  - cbn [alloc_all]. rewrite bind_run. cbn [alloc fst snd].
    rewrite bind_run, IH. cbn [fst snd mret M_ret heap set_heap length seq].
    by rewrite length_app, <- app_assoc, Nat.add_1_r.
Qed.

Lemma lookup_fresh (new : list MetaDict) : forall h,
  (fun l => (h ++ new) !! l) <$> seq (length h) (length new) = Some <$> new.
Proof.
  induction new as [|d new IH]; intros h; [done|].
  cbn [length seq]. csimpl. f_equal; [by apply list_lookup_middle|].
  specialize (IH (h ++ [d])).
  rewrite <- app_assoc, length_app, Nat.add_1_r in IH. exact IH.
Qed.

Lemma load_analysis_data_eq ext repo_id self :
  load_analysis_data ext repo_id self =
  match fs ext !! analysis_file (cwd ext) repo_id with
  | Some (Json d) =>
      match fs ext !! index_file (cwd ext) repo_id with
      | None | Some (Faiss _) =>
          match fs ext !! metadata_file (cwd ext) repo_id with
          | None | Some (Pickle _) => (true, loaded_session ext repo_id d self)
          | Some _ => (false, loaded_session ext repo_id d self)
          end
      | Some _ => (false, set_analysis_data d self)
      end
  | _ => (false, self)
  end.
Proof.
  unfold load_analysis_data, loaded_session.
  destruct (fs ext !! analysis_file (cwd ext) repo_id) as [[d| | |]|]; try done.
  rewrite bind_run. cbn [modify fst snd]. rewrite bind_run.
  destruct (fs ext !! index_file (cwd ext) repo_id) as [[| i | |]|]; try done.
  - rewrite bind_run. cbn [modify fst snd mret M_ret].
    destruct (fs ext !! metadata_file (cwd ext) repo_id) as [[| | m |]|]; try done.
    rewrite bind_run, alloc_all_eq. cbn [fst snd]. by rewrite bind_run.
  - cbn [mret M_ret fst snd].
    destruct (fs ext !! metadata_file (cwd ext) repo_id) as [[| | m |]|]; try done.
    rewrite bind_run, alloc_all_eq. cbn [fst snd]. by rewrite bind_run.
Qed.

(** C4, as the code has it: the load succeeds exactly when the analysis
    document is there and readable and each of the index file and the
    metadata file is absent or readable.  After a successful load the
    analysis data is the document; the index and the metadata are those
    of the files that are there, and are left as they were for a file
    that is absent.  Nothing compares the three. *)
Theorem load_analysis_data_lenient (ext : Externals) (repo_id : string) (self : QueryEngine) :
  let doc := fs ext !! analysis_file (cwd ext) repo_id in
  let idx := fs ext !! index_file (cwd ext) repo_id in
  let meta := fs ext !! metadata_file (cwd ext) repo_id in
  let self' := (load_analysis_data ext repo_id self).2 in
  ((load_analysis_data ext repo_id self).1 = true <->
     (exists d, doc = Some (Json d))
     /\ (idx = None \/ exists i, idx = Some (Faiss i))
     /\ (meta = None \/ exists m, meta = Some (Pickle m)))
  /\ ((load_analysis_data ext repo_id self).1 = true ->
      doc = Some (Json (analysis_data self'))
      /\ embeddings_model self' = embeddings_model self
      /\ (idx = None -> embeddings_index self' = embeddings_index self)
      /\ (forall i, idx = Some (Faiss i) -> embeddings_index self' = Some i)
      /\ (meta = None -> commit_metadata self' = commit_metadata self)
      /\ (forall m, meta = Some (Pickle m) ->
            (fun l => heap self' !! l) <$> commit_metadata self' = Some <$> m)
      /\ (forall l d, heap self !! l = Some d -> heap self' !! l = Some d)).
Proof.
  intros doc idx meta self'. subst self'. rewrite load_analysis_data_eq.
  unfold loaded_session. fold doc idx meta.
  destruct doc as [[d| | |]|] eqn:Ed; cbn [fst snd];
    try (split; [split; [done|intros ([? ?] & _); done]|done]).
  destruct idx as [[| i | |]|] eqn:Ei; cbn [fst snd];
    try (split; [split; [done|intros (_ & [?|[? ?]] & _); done]|done]);
    (destruct meta as [[| | m |]|] eqn:Em; cbn [fst snd];
     try (split; [split; [done|intros (_ & _ & [?|[? ?]]); done]|done])).
  all: split; [split; [intros _; repeat split; eauto|done]|].
  all: intros _; repeat split; try done.
  all: try (intros ? [= <-]; done).
  all: try (intros l d' Hl; cbn [heap set_heap set_commit_metadata set_embeddings_index
                                   set_analysis_data]; by apply lookup_app_l_Some).
  all: intros m' [= <-];
    cbn [heap set_heap set_commit_metadata set_embeddings_index set_analysis_data
         commit_metadata];
    apply lookup_fresh.
Qed.

(** C4, as the specification words it, fails: the load succeeds with the
    analysis document alone on disk, and it succeeds with an index of two
    vectors beside the metadata of one commit and a document of two. *)
Lemma load_succeeds_without_consistency :
  (load_analysis_data (Samples.externals (Samples.document_only Samples.parser_commits))
                      "0123456789ab" init).1 = true
  /\ Samples.document_only Samples.parser_commits !! index_file "/srv" "0123456789ab" = None
  /\ Samples.document_only Samples.parser_commits !! metadata_file "/srv" "0123456789ab" = None
  /\ (load_analysis_data (Samples.externals Samples.mismatched) "0123456789ab" init).1 = true
  /\ ntotal <$> embeddings_index
                  (load_analysis_data (Samples.externals Samples.mismatched) "0123456789ab" init).2
     = Some 2
  /\ length (commit_metadata
               (load_analysis_data (Samples.externals Samples.mismatched) "0123456789ab" init).2)
     = 1
  /\ length <$> commits_data (analysis_data
               (load_analysis_data (Samples.externals Samples.mismatched) "0123456789ab" init).2)
     = Some 2.
Proof. repeat split; vm_compute; reflexivity. Qed.

(** ** Paths *)

Lemma append_inj_l a b c : a +:+ b = a +:+ c -> b = c.
Proof.
  induction a as [|x a IH]; [done|].
  rewrite !append_cons. intros [= H]. auto.
Qed.

Lemma analysis_file_ne_index_file cwd repo_id :
  analysis_file cwd repo_id <> index_file cwd repo_id.
Proof. intros H. by do 3 apply append_inj_l in H. Qed.

Lemma analysis_file_ne_metadata_file cwd repo_id :
  analysis_file cwd repo_id <> metadata_file cwd repo_id.
Proof. intros H. by do 3 apply append_inj_l in H. Qed.

(** ** Semantic search without a model or an index *)

Lemma collect_embeddings_none commits :
  Forall (fun c => embedding_truthy c = None) commits ->
  collect_embeddings commits = Some ([], []).
Proof.
  induction 1 as [|c cs Hc _ IH]; [done|].
  cbn [collect_embeddings]. by rewrite Hc.
Qed.

Lemma semantic_search_none ext query top_k self :
  embeddings_model self = None \/ embeddings_index self = None ->
  semantic_search ext query top_k self = ([], self).
Proof.
  intros H. unfold semantic_search. rewrite bind_run. cbn [get fst snd].
  destruct H as [-> | ->]; [done|]. by destruct (embeddings_model self).
Qed.

Lemma process_query_loaded ext query repo_id search_type self :
  dict_truthy (analysis_data self) = true ->
  present (embeddings_model self) = true ->
  process_query ext query repo_id search_type self
  = answer ext query repo_id search_type self.
Proof.
  intros Hd Hm. unfold process_query.
  rewrite bind_run. cbn [get fst snd]. rewrite Hd. cbn [negb].
  rewrite bind_run. cbn [mret M_ret fst snd negb].
  rewrite bind_run. cbn [get fst snd]. rewrite Hm. cbn [negb].
  by rewrite bind_run.
Qed.

Lemma process_query_fresh ext query repo_id search_type self self' m :
  dict_truthy (analysis_data self) = false ->
  load_analysis_data ext repo_id self = (true, self') ->
  embeddings_model self' = None ->
  sentence_transformer ext "all-MiniLM-L6-v2" = Loaded m ->
  process_query ext query repo_id search_type self
  = answer ext query repo_id search_type (set_embeddings_model (Some m) self').
Proof.
  intros Hd Hl Hm Ht. unfold process_query.
  rewrite bind_run. cbn [get fst snd]. rewrite Hd. cbn [negb].
  rewrite bind_run, Hl. cbn [fst snd negb].
  rewrite bind_run. cbn [get fst snd]. rewrite Hm. cbn [present negb].
  rewrite bind_run. unfold initialize_model. rewrite Ht.
  by rewrite bind_run.
Qed.

(** ** The combined search *)

Lemma filter_absorb {A} (p q : A -> bool) l :
  (forall x, p x = true -> q x = true) ->
  List.filter p (List.filter q l) = List.filter p l.
Proof.
  intros H. induction l as [|x l IH]; [done|]. cbn [List.filter].
  destruct (q x) eqn:Eq; cbn [List.filter]; rewrite IH; [done|].
  destruct (p x) eqn:Ep; [|done]. apply H in Ep. congruence.
Qed.

Lemma filter_both {A} (p q : A -> bool) l :
  List.filter p (List.filter q l) = List.filter (fun x => p x && q x) l.
Proof.
  induction l as [|x l IH]; [done|]. cbn [List.filter].
  destruct (q x); cbn [List.filter]; rewrite IH, ?andb_true_r, ?andb_false_r; done.
Qed.

(** A filter on the commit id may be applied before the deduplication
    or after it. *)
Lemma filter_dedup_first (p : Result -> bool) rs :
  (forall r r', result_hash r = result_hash r' -> p r = p r') ->
  List.filter p (dedup_first rs) = dedup_first (List.filter p rs).
Proof.
  intros Hp. induction rs as [|r rs IH]; [done|].
  cbn [dedup_first List.filter]. destruct (p r) eqn:Er.
  - cbn [dedup_first]. f_equal. rewrite <- IH.
    rewrite !filter_both. apply List.filter_ext. intros x. apply andb_comm.
  - rewrite <- IH. apply filter_absorb. intros x Hx.
    destruct (String.eqb_spec (result_hash x) (result_hash r)) as [E|]; [|done].
    apply Hp in E. congruence.
Qed.

(** The loop of the combined search is the deduplication that keeps the
    first occurrence, over the results whose id is not empty and was not
    seen before. *)
Lemma unique_results_dedup rs : forall seen,
  unique_results rs seen =
  dedup_first
    (List.filter (fun r => Str.truthy (result_hash r)
                           && bool_decide (result_hash r ∉ seen)) rs).
Proof.
  induction rs as [|r rs IH]; intros seen; [done|].
  cbn [unique_results List.filter].
  destruct (Str.truthy (result_hash r) && bool_decide (result_hash r ∉ seen)) eqn:E;
    [|apply IH].
  cbn [dedup_first]. f_equal. rewrite IH.
  rewrite filter_dedup_first.
  - f_equal. rewrite filter_both. apply List.filter_ext. intros x.
    destruct (String.eqb_spec (result_hash x) (result_hash r)) as [Ex|Ex]; cbn [negb andb].
    + rewrite bool_decide_eq_false_2, andb_false_r; [done|].
      intros H. apply H. rewrite Ex. apply elem_of_union_l. by apply elem_of_singleton.
    + f_equal. apply bool_decide_ext.
      rewrite not_elem_of_union, not_elem_of_singleton. tauto.
  - intros x x' Hx. by rewrite Hx.
Qed.

Lemma unique_results_first rs :
  unique_results rs ∅ =
  dedup_first (List.filter (fun r => Str.truthy (result_hash r)) rs).
Proof.
  rewrite unique_results_dedup. f_equal. apply List.filter_ext. intros r.
  rewrite bool_decide_eq_true_2, andb_true_r; [done|]. apply not_elem_of_empty.
Qed.


(** A search type that [process_query] does not name runs the combined
    search. *)
Lemma execute_combined ext search_type query self :
  search_type ∉ ["semantic"; "keyword"; "author"; "file"; "summary"] ->
  execute ext search_type query self =
  (take 10 (dedup_first
              (List.filter (fun r => Str.truthy (result_hash r))
                 ((SemanticResult <$> (semantic_search ext query 5 self).1)
                  ++ (KeywordResult <$> (keyword_search query 5 self).1)))),
   None, "combined", (semantic_search ext query 5 self).2).
Proof.
  intros H. repeat (apply not_elem_of_cons in H as [? H]).
  unfold execute.
  repeat match goal with
         | Hne : search_type <> ?s |- _ =>
             rewrite (proj2 (String.eqb_neq search_type s) Hne); clear Hne
         end.
  rewrite bind_run, bind_run. cbn [mret M_ret fst snd].
  pose proof (semantic_search_extends ext query 5 self) as [(_ & _ & _ & Ha) _].
  rewrite !keyword_search_eq. cbn [fst snd]. rewrite Ha.
  by rewrite unique_results_first.
Qed.


Lemma dedup_first_NoDup rs : NoDup (result_hash <$> dedup_first rs).
Proof.
  induction rs as [|r rs IH]; [constructor|].
  cbn [dedup_first]. csimpl. constructor.
  - intros H. apply list_elem_of_fmap in H as (x & Hx & Hin).
    apply list_elem_of_In, List.filter_In in Hin as [_ Hne].
    rewrite Hx, String.eqb_refl in Hne. done.
  - revert IH. generalize (dedup_first rs). intros l Hl.
    induction l as [|x l IHl]; [constructor|].
    csimpl in Hl. apply NoDup_cons in Hl as [Hx Hl].
    cbn [List.filter]. destruct (negb _); [|by apply IHl].
    csimpl. constructor; [|by apply IHl].
    intros H. apply Hx. apply list_elem_of_fmap in H as (y & -> & Hy).
    apply list_elem_of_fmap. exists y. split; [done|].
    apply list_elem_of_In, List.filter_In in Hy as [Hy _]. by apply list_elem_of_In.
Qed.

Example combined_search_ex :
  option_map (fmap result_hash)
    (results_of (process_query (Samples.externals ∅) "parser bug" "0123456789ab" "combined"
                               Samples.full_session).1)
  = Some ["b2"; "a1"].
Proof. vm_compute. reflexivity. Qed.

(** The guard of the loop drops a result without commit id: a commit
    whose dict has no ['hash'] matches the query, the deduplication by
    commit id would keep it, and the combined search returns nothing.  No
    writer of this repository saves such a commit. *)
Example combined_search_guard_ex :
  results_of (process_query (Samples.externals (Samples.document_only Samples.unnamed_commits))
                            "parser" "0123456789ab" "combined" init).1
  = Some []
  /\ (semantic_search (Samples.externals (Samples.document_only Samples.unnamed_commits))
                      "parser" 5 (Samples.session Samples.unnamed_commits)).1 = []
  /\ (keyword_search "parser" 5 (Samples.session Samples.unnamed_commits)).1
     = [keyword_result (Samples.commit None "2024-03-15T10:00:00" "refactor parser module"
                                       ["parser.py"]) 2]
  /\ take 10 (dedup_first
       ((SemanticResult <$>
           (semantic_search (Samples.externals (Samples.document_only Samples.unnamed_commits))
                            "parser" 5 (Samples.session Samples.unnamed_commits)).1)
        ++ (KeywordResult <$>
              (keyword_search "parser" 5 (Samples.session Samples.unnamed_commits)).1)))
     = [KeywordResult
          (keyword_result (Samples.commit None "2024-03-15T10:00:00" "refactor parser module"
                                          ["parser.py"]) 2)].
Proof. split_and!; vm_compute; reflexivity. Qed.

(** ** The router *)

Lemma answer_author ext query repo_id self :
  auto_detect (Str.lower query) = "author" ->
  answer ext query repo_id "auto" self =
  let rs := (author_search
               (Str.strip (Str.replace "who" "" (Str.replace "author" "" (Str.lower query))))
               self).1 in
  (Answered
     {| an_query := query; an_repo_id := repo_id; an_search_type := "author";
        an_timestamp := now_isoformat ext;
        an_results := AuthorResult <$> rs; an_summary := None;
        an_suggestions :=
          if match AuthorResult <$> rs with [] => true | _ => false end
          then Some no_results_suggestions else None;
        an_total_results := length (AuthorResult <$> rs);
        an_total_commits_available :=
          length (default [] (commits_data (analysis_data self)));
        an_analysis_date := default "" (analysis_timestamp (analysis_data self));
        an_repo_url := default "" (repo_url (analysis_data self)) |}, self).
Proof.
  intros H. unfold answer. eval_eqb. rewrite H. unfold execute. eval_eqb.
  rewrite !bind_run, !author_search_eq. cbn [fst snd get mret M_ret].
  by rewrite andb_true_r.
Qed.

(** C7: under ['auto'] the triggers are tried in the order author, file,
    time range, and the semantic mode is what is left; so a query with
    "author" or "who" is an author query whatever else it contains, and
    [process_query] answers it with the author search.  The query "who
    modified config.py" has the author trigger "who" and the file trigger
    ".py", and is an author query. *)
Theorem auto_detect_precedence (ext : Externals) (query repo_id : string) (self : QueryEngine) :
  let q := Str.lower query in
  let author_trigger := Str.contains "author" q || Str.contains "who" q in
  let file_trigger :=
    Str.contains "file" q || Str.contains ".py" q || Str.contains ".js" q in
  let date_trigger :=
    existsb (fun date_term => Str.contains date_term q)
            ["before"; "after"; "during"; "2020"; "2021"; "2022"; "2023"; "2024"] in
  (author_trigger = true -> auto_detect q = "author")
  /\ (author_trigger = false -> file_trigger = true -> auto_detect q = "file")
  /\ (author_trigger = false -> file_trigger = false -> date_trigger = true ->
      auto_detect q = "time_range")
  /\ (author_trigger = false -> file_trigger = false -> date_trigger = false ->
      auto_detect q = "semantic")
  /\ (author_trigger = true ->
      dict_truthy (analysis_data self) = true ->
      present (embeddings_model self) = true ->
      exists a,
        (process_query ext query repo_id "auto" self).1 = Answered a
        /\ an_search_type a = "author"
        /\ an_results a =
           AuthorResult <$>
             (author_search (Str.strip (Str.replace "who" "" (Str.replace "author" "" q)))
                            self).1)
  /\ (Str.contains "who" (Str.lower "who modified config.py") = true
      /\ Str.contains ".py" (Str.lower "who modified config.py") = true
      /\ auto_detect (Str.lower "who modified config.py") = "author").
Proof.
  intros q author_trigger file_trigger date_trigger.
  assert (Ha : author_trigger = true -> auto_detect q = "author").
  { intros H. unfold auto_detect. fold author_trigger. by rewrite H. }
  split_and!; try done.
  - intros H1 H2. unfold auto_detect. fold author_trigger file_trigger.
    by rewrite H1, H2.
  - intros H1 H2 H3. unfold auto_detect. fold author_trigger file_trigger date_trigger.
    by rewrite H1, H2, H3.
  - intros H1 H2 H3. unfold auto_detect. fold author_trigger file_trigger date_trigger.
    by rewrite H1, H2, H3.
  - intros H Hd Hm. rewrite process_query_loaded by done.
    rewrite answer_author by auto. cbn zeta. cbn [fst]. eexists. split; [reflexivity|done].
Qed.

(** C7, for the query "who modified config.py" at the sample session. *)
Lemma auto_detect_precedence_witness :
  exists a,
    (process_query (Samples.externals ∅) "who modified config.py" "0123456789ab" "auto"
                   Samples.full_session).1 = Answered a
    /\ an_search_type a = "author"
    /\ an_results a =
       AuthorResult <$>
         (author_search
            (Str.strip (Str.replace "who" ""
                          (Str.replace "author" "" (Str.lower "who modified config.py"))))
            Samples.full_session).1.
Proof.
  apply (auto_detect_precedence (Samples.externals ∅) "who modified config.py"
           "0123456789ab" Samples.full_session); reflexivity.
Defined.

Example author_query_ex :
  Str.strip (Str.replace "who" "" (Str.replace "author" "" (Str.lower "who modified config.py")))
  = "modified config.py".
Proof. reflexivity. Qed.

(** A query that [auto_detect] takes for a time range query is answered
    by the combined search. *)
Lemma auto_time_range_is_combined ext query repo_id self :
  auto_detect (Str.lower query) = "time_range" ->
  dict_truthy (analysis_data self) = true ->
  present (embeddings_model self) = true ->
  exists a,
    (process_query ext query repo_id "auto" self).1 = Answered a
    /\ an_search_type a = "combined"
    /\ an_results a =
       take 10 (dedup_first
                  (List.filter (fun r => Str.truthy (result_hash r))
                     ((SemanticResult <$> (semantic_search ext query 5 self).1)
                      ++ (KeywordResult <$> (keyword_search query 5 self).1)))).
Proof.
  intros Ht Hd Hm. rewrite process_query_loaded by done.
  unfold answer. eval_eqb. rewrite Ht.
  rewrite bind_run, execute_combined.
  - cbn [fst snd]. rewrite bind_run. cbn [get mret M_ret fst snd].
    eexists. split; [reflexivity|done].
  - repeat (apply not_elem_of_cons; split; [discriminate|]). apply not_elem_of_nil.
Qed.

(** C1 fails on the code: the query "commits before 2020" is classified
    as a time range query under ['auto'], and [process_query] answers it
    with the combined search: the result is the keyword match of the
    commit of 2024 whose message has the word "before", under the search
    type ['combined'].  No branch of [process_query] calls
    [time_range_search], which for the bounds "" and "2020" gives the
    commit of 2019. *)
Lemma process_query_time_range_runs_combined :
  auto_detect (Str.lower "commits before 2020") = "time_range"
  /\ search_type_of
       (process_query (Samples.externals (Samples.document_only Samples.release_commits))
                      "commits before 2020" "0123456789ab" "auto" init).1
     = Some "combined"
  /\ results_of
       (process_query (Samples.externals (Samples.document_only Samples.release_commits))
                      "commits before 2020" "0123456789ab" "auto" init).1
     = Some [KeywordResult
               (keyword_result
                  (Samples.commit (Some "d4") "2024-03-15T10:00:00" "cleanup before release" [])
                  1)]
  /\ (time_range_search "" "2020" (Samples.session Samples.release_commits)).1
     = [time_result (Samples.commit (Some "e5") "2019-05-01T10:00:00" "update readme" [])].
Proof. split_and!; vm_compute; reflexivity. Qed.

(** * Further properties *)

(** ** Author and file search *)

Lemma omap_author_hit query_lower commits :
  omap (author_hit query_lower) commits =
  author_result <$> List.filter (author_matches query_lower) commits.
Proof.
  induction commits as [|c cs IH]; [done|].
  csimpl. unfold author_hit at 1. fold (author_matches query_lower c).
  destruct (author_matches query_lower c); csimpl; by rewrite IH.
Qed.

Lemma omap_file_hit query_lower commits :
  omap (file_hit query_lower) commits =
  file_result query_lower <$>
    List.filter (fun c => match matching_files query_lower c with [] => false | _ => true end)
                commits.
Proof.
  induction commits as [|c cs IH]; [done|].
  csimpl. unfold file_hit at 1. fold (file_matches query_lower).
  fold (matching_files query_lower c). unfold file_result at 1.
  destruct (matching_files query_lower c) eqn:E; csimpl; rewrite IH; [done|].
  by rewrite <- E.
Qed.

Lemma contains_empty s : Str.contains "" s = true.
Proof. by destruct s. Qed.

Lemma filter_all {A} (p : A -> bool) l :
  (forall x, p x = true) -> List.filter p l = l.
Proof.
  intros H. induction l as [|x l IH]; [done|]. cbn [List.filter]. by rewrite H, IH.
Qed.

(** X1: the author search returns, once each and without a cap, the
    commits whose author name or author email contains the lower-cased
    query, case ignored, in descending order of their dates; the empty
    query matches every commit. *)
Theorem author_search_matches (query : string) (self : QueryEngine) :
  let commits := default [] (commits_data (analysis_data self)) in
  let results := (author_search query self).1 in
  results ≡ₚ author_result <$> List.filter (author_matches (Str.lower query)) commits
  /\ length results = length (List.filter (author_matches (Str.lower query)) commits)
  /\ StronglySorted (descending String.leb au_date) results
  /\ (author_search "" self).1 ≡ₚ author_result <$> commits.
Proof.
  intros commits results. unfold results. rewrite !author_search_eq. cbn [fst].
  fold commits. rewrite !omap_author_hit. split_and!.
  - apply sorted_reverse_perm.
  - by rewrite sorted_reverse_perm, length_fmap.
  - apply sorted_reverse_sorted; [apply String.leb_total|apply string_leb_trans].
  - rewrite sorted_reverse_perm, filter_all; [done|].
    intros c. unfold author_matches. by rewrite contains_empty.
Qed.

(** X2: the file search returns, once each, the commits of which some
    changed file name contains the lower-cased query, case ignored, in
    descending order of their dates; a result carries the matching file
    changes only, in the order of the commit, and at least one. *)
Theorem file_search_matches (query : string) (self : QueryEngine) :
  let commits := default [] (commits_data (analysis_data self)) in
  let results := (file_search query self).1 in
  results ≡ₚ
    file_result (Str.lower query) <$>
      List.filter (fun c => existsb (file_matches (Str.lower query))
                                    (default [] (file_changes c))) commits
  /\ StronglySorted (descending String.leb fi_date) results
  /\ Forall (fun h => fi_matching_files h <> []
                      /\ Forall (fun f => file_matches (Str.lower query) f = true)
                                (fi_matching_files h)
                      /\ exists c, c ∈ commits
                           /\ fi_matching_files h `sublist_of` default [] (file_changes c))
            results.
Proof.
  intros commits results. unfold results. rewrite file_search_eq. cbn [fst].
  fold commits. rewrite omap_file_hit.
  assert (Hex : forall c,
    match matching_files (Str.lower query) c with [] => false | _ => true end
    = existsb (file_matches (Str.lower query)) (default [] (file_changes c))).
  { intros c. unfold matching_files.
    induction (default [] (file_changes c)) as [|f fs IH]; [done|].
    cbn [List.filter existsb]. by destruct (file_matches (Str.lower query) f). }
  split_and!.
  - by rewrite sorted_reverse_perm, (List.filter_ext _ _ Hex).
  - apply sorted_reverse_sorted; [apply String.leb_total|apply string_leb_trans].
  - apply Forall_forall. intros h Hh.
    apply elem_of_sorted_reverse, list_elem_of_fmap in Hh as (c & -> & Hc).
    apply list_elem_of_In, List.filter_In in Hc as [Hc Hm].
    cbn [fi_matching_files file_result]. split_and!.
    + by destruct (matching_files (Str.lower query) c).
    + apply Forall_forall. intros f Hf.
      by apply list_elem_of_In, List.filter_In in Hf as [_ Hf].
    + exists c. split; [by apply list_elem_of_In|].
      unfold matching_files. generalize (default [] (file_changes c)). intros l.
      induction l as [|f l IH]; [done|]. cbn [List.filter].
      destruct (file_matches (Str.lower query) f);
        [by apply sublist_skip|by apply sublist_cons].
Qed.

(** ** The order of the results *)

Lemma strongly_sorted_app_l {A} (R : A -> A -> Prop) l1 l2 :
  StronglySorted R (l1 ++ l2) ->
  StronglySorted R l1 /\ Forall (fun x => Forall (R x) l2) l1.
Proof.
  induction l1 as [|x l1 IH]; cbn [app]; intros H.
  - split; constructor.
  - apply StronglySorted_inv in H as [H Hx]. destruct (IH H) as [H1 H2].
    apply Forall_app in Hx as [Hx1 Hx2].
    split; constructor; done.
Qed.

Section Stable.

Context {A K : Type} (leb : K -> K -> bool) (key : A -> K) (p : A -> bool).

(** The elements that [p] selects have keys that are not apart. *)
Hypothesis p_ties : forall a b, p a = true -> p b = true -> leb (key a) (key b) = true.

Lemma insert_reverse_stable x l :
  List.filter p (Py.insert_reverse leb key x l) = List.filter p (x :: l).
Proof.
  induction l as [|y l IH]; [done|]. cbn [Py.insert_reverse].
  destruct (leb (key y) (key x)) eqn:E; [done|].
  cbn [List.filter] in *. rewrite IH.
  destruct (p y) eqn:Ey, (p x) eqn:Ex; try done.
  rewrite p_ties in E; done.
Qed.

(** [sorted] is stable: the elements of equal rank keep their order. *)
Lemma sorted_reverse_stable l :
  List.filter p (Py.sorted_reverse leb key l) = List.filter p l.
Proof.
  induction l as [|x l IH]; [done|]. cbn [Py.sorted_reverse].
  rewrite insert_reverse_stable. cbn [List.filter]. by rewrite IH.
Qed.

End Stable.

Lemma filter_take_prefix {A} (p : A -> bool) n l :
  List.filter p (take n l) `prefix_of` List.filter p l.
Proof.
  exists (List.filter p (drop n l)).
  by rewrite <- List.filter_app, take_drop.
Qed.

Lemma string_leb_eq a b : String.eqb a b = true -> String.leb a b = true.
Proof.
  intros H. apply String.eqb_eq in H as ->.
  by destruct (String.leb_total b b).
Qed.

Lemma keyword_hit_positive kws c h : keyword_hit kws c = Some h -> 1 <= kw_keyword_score h.
Proof.
  unfold keyword_hit. destruct (0 <? _)%nat eqn:E; [|done].
  intros [= <-]. cbn [kw_keyword_score keyword_result]. by apply Nat.ltb_lt in E.
Qed.

(** X3: the keyword search returns the hits of the highest scores: the
    results are in descending order of their scores, each score is at
    least 1, no hit that is left out scores more than a result, and the
    number of results is the smaller of [top_k] and the number of hits
    (for a negative [top_k], the number of hits less [-top_k]). *)
Theorem keyword_search_ranked (query : string) (top_k : Z) (self : QueryEngine) :
  let results := (keyword_search query top_k self).1 in
  StronglySorted (descending Nat.leb kw_keyword_score) results
  /\ Forall (fun h => 1 <= kw_keyword_score h) results
  /\ (exists rest,
        results ++ rest ≡ₚ keyword_hits query self
        /\ Forall (fun h => Forall (fun h' => kw_keyword_score h' <= kw_keyword_score h) rest)
                  results)
  /\ length results =
     if (top_k <? 0)%Z
     then length (keyword_hits query self) - Z.to_nat (- top_k)
     else Nat.min (Z.to_nat top_k) (length (keyword_hits query self)).
Proof.
  intros results. unfold results. rewrite keyword_search_eq. cbn [fst].
  fold (keyword_hits query self).
  set (sorted := Py.sorted_reverse Nat.leb kw_keyword_score (keyword_hits query self)).
  assert (Hs : StronglySorted (descending Nat.leb kw_keyword_score) sorted).
  { apply sorted_reverse_sorted.
    - intros a b. rewrite !Nat.leb_le. lia.
    - intros a b c. rewrite !Nat.leb_le. lia. }
  assert (Hlen : length sorted = length (keyword_hits query self))
    by (unfold sorted; by rewrite sorted_reverse_perm).
  assert (Hcut : exists n, Py.slice_to sorted top_k = take n sorted).
  { unfold Py.slice_to. destruct (top_k <? 0)%Z; eauto. }
  destruct Hcut as [n Hn]. rewrite Hn.
  rewrite <- (take_drop n sorted) in Hs. apply strongly_sorted_app_l in Hs as [Hs1 Hs2].
  split_and!.
  - done.
  - apply Forall_forall. intros h Hh.
    apply subseteq_take, elem_of_sorted_reverse, list_elem_of_omap in Hh as (c & _ & Hh).
    by apply keyword_hit_positive in Hh.
  - exists (drop n sorted). split.
    + rewrite take_drop. apply sorted_reverse_perm.
    + eapply Forall_impl; [exact Hs2|]. intros h Hh.
      eapply Forall_impl; [exact Hh|]. intros h' Hh'.
      unfold descending in Hh'. by apply Nat.leb_le in Hh'.
  - rewrite <- Hn. unfold Py.slice_to.
    destruct (top_k <? 0)%Z eqn:E; rewrite length_take, Hlen; [|done].
    apply Z.ltb_lt in E. lia.
Qed.

(** X4: hits of the same score come in the order of the store, and
    results of the same date in the author, file and time range searches
    come in the order of the store: the sort is stable. *)
Theorem search_ties_in_store_order (query start_date end_date : string) (top_k : Z)
    (self : QueryEngine) (score : nat) (day : string) :
  let commits := default [] (commits_data (analysis_data self)) in
  List.filter (fun h => kw_keyword_score h =? score)%nat (keyword_search query top_k self).1
    `prefix_of` List.filter (fun h => kw_keyword_score h =? score)%nat (keyword_hits query self)
  /\ List.filter (fun h => String.eqb (au_date h) day) (author_search query self).1
     = List.filter (fun h => String.eqb (au_date h) day)
         (author_result <$> List.filter (author_matches (Str.lower query)) commits)
  /\ List.filter (fun h => String.eqb (fi_date h) day) (file_search query self).1
     = List.filter (fun h => String.eqb (fi_date h) day)
         (omap (file_hit (Str.lower query)) commits)
  /\ List.filter (fun h => String.eqb (tr_date h) day)
       (time_range_search start_date end_date self).1
     = List.filter (fun h => String.eqb (tr_date h) day)
         (omap (time_hit start_date end_date) commits).
Proof.
  intros commits.
  rewrite keyword_search_eq, author_search_eq, file_search_eq, time_range_search_eq.
  cbn [fst]. fold commits. fold (keyword_hits query self). split_and!.
  - assert (Hties : forall a b : KeywordHit,
      (kw_keyword_score a =? score)%nat = true ->
      (kw_keyword_score b =? score)%nat = true ->
      Nat.leb (kw_keyword_score a) (kw_keyword_score b) = true).
    { intros a b Ha Hb. apply Nat.eqb_eq in Ha, Hb. apply Nat.leb_le. lia. }
    unfold Py.slice_to. destruct (top_k <? 0)%Z.
    + pose proof (filter_take_prefix (fun h => kw_keyword_score h =? score)%nat
        (Z.to_nat (Z.of_nat (length (Py.sorted_reverse Nat.leb kw_keyword_score
                                       (keyword_hits query self))) + top_k))
        (Py.sorted_reverse Nat.leb kw_keyword_score (keyword_hits query self))) as H.
      by rewrite (sorted_reverse_stable _ _ _ Hties) in H.
    + pose proof (filter_take_prefix (fun h => kw_keyword_score h =? score)%nat
        (Z.to_nat top_k)
        (Py.sorted_reverse Nat.leb kw_keyword_score (keyword_hits query self))) as H.
      by rewrite (sorted_reverse_stable _ _ _ Hties) in H.
  - rewrite sorted_reverse_stable, omap_author_hit; [done|].
    intros a b Ha Hb. apply String.eqb_eq in Ha, Hb. rewrite Ha, Hb.
    apply string_leb_eq, String.eqb_refl.
  - rewrite sorted_reverse_stable; [done|].
    intros a b Ha Hb. apply String.eqb_eq in Ha, Hb. rewrite Ha, Hb.
    apply string_leb_eq, String.eqb_refl.
  - rewrite sorted_reverse_stable; [done|].
    intros a b Ha Hb. apply String.eqb_eq in Ha, Hb. rewrite Ha, Hb.
    apply string_leb_eq, String.eqb_refl.
Qed.

(** ** The results of the semantic search *)

Lemma semantic_dicts_shape self hits : forall i,
  metadata_allocated self ->
  let in_range idx :=
    (0 <=? idx)%Z && (idx <? Z.of_nat (length (commit_metadata self)))%Z in
  length (semantic_dicts self hits i) = length (List.filter (fun h => in_range h.2) hits)
  /\ Forall (fun d => exists j similarity idx l source,
               hits !! j = Some (similarity, idx)
               /\ in_range idx = true
               /\ commit_metadata self !! Z.to_nat idx = Some l
               /\ heap self !! l = Some source
               /\ d = set_rank (i + j + 1) (set_similarity_score similarity source))
            (semantic_dicts self hits i)
  /\ StronglySorted (fun a b => exists ra rb,
                       md_rank a = Some ra /\ md_rank b = Some rb /\ ra < rb)
                    (semantic_dicts self hits i).
Proof.
  intros i Hwf in_range. revert i.
  induction hits as [|[similarity idx] hits IH]; intros i.
  - split_and!; constructor.
  - destruct (IH (S i)) as (Hlen & Hall & Hsorted).
    assert (Hshift : Forall (fun d => exists j similarity' idx' l source,
               ((similarity, idx) :: hits) !! j = Some (similarity', idx')
               /\ in_range idx' = true
               /\ commit_metadata self !! Z.to_nat idx' = Some l
               /\ heap self !! l = Some source
               /\ d = set_rank (i + j + 1) (set_similarity_score similarity' source))
            (semantic_dicts self hits (S i))).
    { eapply Forall_impl; [exact Hall|].
      intros d (j & s & x & l & src & Hj & Hr & Hl & Hs & ->).
      exists (S j), s, x, l, src. split_and!; try done. f_equal. lia. }
    cbn [semantic_dicts List.filter snd]. fold (in_range idx).
    destruct (in_range idx) eqn:Hrange; [|done].
    pose proof Hrange as Hr. apply andb_prop in Hr as [H0 Hlt].
    apply Z.leb_le in H0. apply Z.ltb_lt in Hlt.
    destruct (lookup_lt_is_Some_2 (commit_metadata self) (Z.to_nat idx)) as [l Hl]; [lia|].
    destruct (lookup_lt_is_Some_2 (heap self) l) as [source Hs].
    { eapply Forall_lookup_1 in Hwf; eauto. }
    rewrite Hl. cbn [mbind option_bind]. rewrite Hs. cbn [length].
    split_and!.
    + by rewrite Hlen.
    + constructor; [|done].
      exists 0, similarity, idx, l, source. split_and!; try done. f_equal. lia.
    + constructor; [done|].
      eapply Forall_impl; [exact Hall|].
      intros d (j & s & x & l' & src & _ & _ & _ & _ & ->).
      eexists _, _. split_and!; [reflexivity|reflexivity|lia].
Qed.



(** ** Saving and loading *)

Lemma index_file_ne_metadata_file cwd repo_id :
  index_file cwd repo_id <> metadata_file cwd repo_id.
Proof. intros H. by do 3 apply append_inj_l in H. Qed.

Lemma loaded_all ext repo_id d index m self :
  fs ext !! analysis_file (cwd ext) repo_id = Some (Json d) ->
  fs ext !! index_file (cwd ext) repo_id = Some (Faiss index) ->
  fs ext !! metadata_file (cwd ext) repo_id = Some (Pickle m) ->
  let r := load_analysis_data ext repo_id self in
  r.1 = true
  /\ analysis_data r.2 = d
  /\ embeddings_index r.2 = Some index
  /\ embeddings_model r.2 = embeddings_model self
  /\ (fun l => heap r.2 !! l) <$> commit_metadata r.2 = Some <$> m
  /\ metadata_allocated r.2.
Proof.
  intros Ha Hi Hm r. subst r. rewrite load_analysis_data_eq, Ha, Hi, Hm.
  unfold loaded_session. rewrite Hi, Hm. cbn [fst snd].
  split_and!; try done.
  - cbn [heap set_heap set_commit_metadata set_embeddings_index set_analysis_data
         commit_metadata]. apply lookup_fresh.
  - unfold metadata_allocated.
    cbn [heap set_heap set_commit_metadata set_embeddings_index set_analysis_data
         commit_metadata].
    apply Forall_forall. intros l Hl. apply elem_of_seq in Hl.
    rewrite length_app. lia.
Qed.

(** X6: what [save_analysis_results] writes for an analysis with an
    index, [load_analysis_data] reads back: the load succeeds, whatever
    was on disk before, and the session has the document without the
    embeddings, the index, and the metadata dicts in their order. *)
Theorem save_load_round_trip (ext : Externals) (repo_id : string) (d : AnalysisData)
    (tm : CodebaseTimeMachine) (files : FileSystem) (index : Index) (self : QueryEngine) :
  tm_embeddings_index tm = Some index ->
  fs ext = (save_analysis_results (cwd ext) repo_id d tm files).2 ->
  let r := load_analysis_data ext repo_id self in
  r.1 = true
  /\ analysis_data r.2 = clean_data d
  /\ embeddings_index r.2 = Some index
  /\ embeddings_model r.2 = embeddings_model self
  /\ (fun l => heap r.2 !! l) <$> commit_metadata r.2 = Some <$> tm_commit_metadata tm
  /\ metadata_allocated r.2.
Proof.
  intros Hi Hfs. unfold save_analysis_results in Hfs. rewrite Hi in Hfs. cbn [snd] in Hfs.
  apply loaded_all; rewrite Hfs.
  - rewrite lookup_insert_ne by apply not_eq_sym, analysis_file_ne_metadata_file.
    rewrite lookup_insert_ne by apply not_eq_sym, analysis_file_ne_index_file.
    apply lookup_insert_eq.
  - rewrite lookup_insert_ne by apply not_eq_sym, index_file_ne_metadata_file.
    apply lookup_insert_eq.
  - apply lookup_insert_eq.
Qed.

(** X7: an analysis that builds no index writes the document only and
    removes nothing: the index file and the metadata file of an earlier
    analysis of the repository stay on disk, and the load gives the
    session the new document with the old index and the old metadata. *)
Theorem save_keeps_old_index (ext : Externals) (repo_id : string) (d : AnalysisData)
    (tm : CodebaseTimeMachine) (files : FileSystem) (old_index : Index)
    (old_metadata : list MetaDict) (self : QueryEngine) :
  tm_embeddings_index tm = None ->
  files !! index_file (cwd ext) repo_id = Some (Faiss old_index) ->
  files !! metadata_file (cwd ext) repo_id = Some (Pickle old_metadata) ->
  fs ext = (save_analysis_results (cwd ext) repo_id d tm files).2 ->
  let r := load_analysis_data ext repo_id self in
  r.1 = true
  /\ analysis_data r.2 = clean_data d
  /\ embeddings_index r.2 = Some old_index
  /\ (fun l => heap r.2 !! l) <$> commit_metadata r.2 = Some <$> old_metadata.
Proof.
  intros Hn Hi Hm Hfs. unfold save_analysis_results in Hfs. rewrite Hn in Hfs.
  cbn [snd] in Hfs.
  destruct (loaded_all ext repo_id (clean_data d) old_index old_metadata self)
    as (H1 & H2 & H3 & _ & H5 & _); [rewrite Hfs..|done].
  - apply lookup_insert_eq.
  - rewrite lookup_insert_ne by apply analysis_file_ne_index_file. exact Hi.
  - rewrite lookup_insert_ne by apply analysis_file_ne_metadata_file. exact Hm.
Qed.

(** X6, for the sample analyzer and an empty directory. *)
Lemma save_load_round_trip_witness :
  (load_analysis_data (Samples.externals Cases.saved) "0123456789ab" init).1 = true
  /\ analysis_data (load_analysis_data (Samples.externals Cases.saved) "0123456789ab" init).2
     = clean_data (Samples.document Samples.parser_commits)
  /\ embeddings_index (load_analysis_data (Samples.externals Cases.saved) "0123456789ab" init).2
     = Some Samples.index.
Proof.
  destruct (save_load_round_trip (Samples.externals Cases.saved) "0123456789ab"
              (Samples.document Samples.parser_commits) Cases.analyzer ∅ Samples.index init
              eq_refl eq_refl) as (H1 & H2 & H3 & _).
  exact (conj H1 (conj H2 H3)).
Defined.

(** X7, for a second analysis of the sample repository. *)
Lemma save_keeps_old_index_witness :
  analysis_data
    (load_analysis_data (Samples.externals Cases.saved_again) "0123456789ab" init).2
  = clean_data (Samples.document Samples.release_commits)
  /\ embeddings_index
       (load_analysis_data (Samples.externals Cases.saved_again) "0123456789ab" init).2
     = Some Samples.index.
Proof.
  destruct (save_keeps_old_index (Samples.externals Cases.saved_again) "0123456789ab"
              (Samples.document Samples.release_commits) Cases.bare_analyzer Cases.saved
              Samples.index
              [Samples.meta "a1" "fix bug in parser"; Samples.meta "b2" "update readme"]
              init eq_refl) as (_ & H2 & H3 & _); [vm_compute; reflexivity..|reflexivity|].
  exact (conj H2 H3).
Defined.

(** ** The router, case by case *)

Lemma answer_eq ext query repo_id search_type self :
  answer ext query repo_id search_type self =
  let e := execute ext (resolved_type query search_type) query self in
  (Answered (response_of ext query repo_id e.1 e.2), e.2).
Proof.
  unfold answer, resolved_type. rewrite bind_run.
  destruct (execute ext _ query self) as [[[results summary] st] self'].
  cbn [fst snd]. rewrite bind_run. reflexivity.
Qed.

Lemma execute_extends ext search_type query self :
  extends self (execute ext search_type query self).2.
Proof.
  unfold execute.
  repeat (destruct (String.eqb search_type _);
          [rewrite bind_run;
           rewrite ?keyword_search_eq, ?author_search_eq, ?file_search_eq;
           cbn [mret M_ret fst snd];
           first [apply semantic_search_extends
                 |rewrite get_repository_summary_state; apply extends_refl
                 |apply extends_refl]|]).
  rewrite !bind_run. cbn [mret M_ret fst snd]. rewrite keyword_search_eq. cbn [snd].
  apply semantic_search_extends.
Qed.

Lemma length_slice_to_le {A} (l : list A) k : (0 <= k)%Z -> length (Py.slice_to l k) <= Z.to_nat k.
Proof.
  intros H. unfold Py.slice_to. destruct (k <? 0)%Z eqn:E; [lia|].
  rewrite length_take. lia.
Qed.

(** What every outcome of [execute] satisfies. *)
Lemma execute_outcome ext search_type query self :
  let '(results, summary, st) := (execute ext search_type query self).1 in
  st ∈ ["semantic"; "keyword"; "author"; "file"; "summary"; "combined"]
  /\ (is_Some summary <-> st = "summary")
  /\ (st = "summary" -> results = [])
  /\ (st = "keyword" \/ st = "combined" -> length results <= 10).
Proof.
  unfold execute.
  destruct (String.eqb search_type "semantic").
  { rewrite bind_run. cbn [mret M_ret fst]. split_and!.
    - set_solver.
    - split; [by intros [? ?]|done].
    - done.
    - by intros [?|?]. }
  destruct (String.eqb search_type "keyword").
  { rewrite bind_run. cbn [mret M_ret fst]. split_and!.
    - set_solver.
    - split; [by intros [? ?]|done].
    - done.
    - intros _. rewrite length_fmap, keyword_search_eq. cbn [fst].
      by apply (length_slice_to_le _ 10). }
  destruct (String.eqb search_type "author").
  { rewrite bind_run. cbn [mret M_ret fst]. split_and!.
    - set_solver.
    - split; [by intros [? ?]|done].
    - done.
    - by intros [?|?]. }
  destruct (String.eqb search_type "file").
  { rewrite bind_run. cbn [mret M_ret fst]. split_and!.
    - set_solver.
    - split; [by intros [? ?]|done].
    - done.
    - by intros [?|?]. }
  destruct (String.eqb search_type "summary").
  { rewrite bind_run. cbn [mret M_ret fst]. split_and!.
    - set_solver.
    - split; [done|by eexists].
    - done.
    - by intros [?|?]. }
  rewrite !bind_run. cbn [mret M_ret fst]. split_and!.
  - set_solver.
  - split; [by intros [? ?]|done].
  - done.
  - intros _. rewrite length_take. lia.
Qed.

(** The three ways out of [process_query]. *)
Lemma process_query_cases ext query repo_id search_type self :
  (exists error suggestions,
     (process_query ext query repo_id search_type self).1 = NotFound error suggestions)
  \/ (exists msg,
        (process_query ext query repo_id search_type self).1
        = Failed msg query repo_id (now_isoformat ext))
  \/ (exists self',
        process_query ext query repo_id search_type self
        = answer ext query repo_id search_type self').
Proof.
  unfold process_query. rewrite bind_run. cbn [get fst snd]. rewrite bind_run.
  set (l := (if negb (dict_truthy (analysis_data self))
             then load_analysis_data ext repo_id else mret true) self).
  destruct l as [[|] self1]; cbn [fst snd negb]; [|left; by eexists _, _].
  right. rewrite bind_run. cbn [get fst snd]. rewrite bind_run.
  destruct (present (embeddings_model self1)); cbn [negb mret M_ret fst snd];
    [right; by eexists|].
  unfold initialize_model.
  destruct (sentence_transformer ext "all-MiniLM-L6-v2") as [msg|m]; cbn [mret M_ret fst snd].
  - left. by eexists.
  - rewrite bind_run. cbn [modify fst snd]. right. by eexists.
Qed.

(** ** The combined mode *)

(** A response with results was computed by [answer] in the session
    after the load and with the model. *)
Lemma process_query_answered ext query repo_id search_type self a :
  (process_query ext query repo_id search_type self).1 = Answered a ->
  process_query ext query repo_id search_type self
  = answer ext query repo_id search_type (searched_session ext repo_id self).
Proof.
  unfold process_query, searched_session. rewrite bind_run. cbn [get fst snd].
  rewrite bind_run.
  destruct (dict_truthy (analysis_data self)); cbn [negb mret M_ret fst snd].
  - rewrite bind_run. cbn [get fst snd]. rewrite bind_run.
    destruct (embeddings_model self) as [model|]; cbn [present negb mret M_ret fst snd];
      [done|].
    unfold initialize_model.
    destruct (sentence_transformer ext "all-MiniLM-L6-v2") as [msg|m];
      cbn [mret M_ret fst snd]; [done|].
    by rewrite bind_run.
  - destruct (load_analysis_data ext repo_id self) as [[|] self1]; cbn [negb fst snd];
      [|done].
    rewrite bind_run. cbn [get fst snd]. rewrite bind_run.
    destruct (embeddings_model self1) as [model|]; cbn [present negb mret M_ret fst snd];
      [done|].
    unfold initialize_model.
    destruct (sentence_transformer ext "all-MiniLM-L6-v2") as [msg|m];
      cbn [mret M_ret fst snd]; [done|].
    by rewrite bind_run.
Qed.

(** The search type of the response: the type that was asked for, or
    ['combined'] for a type that [process_query] does not name. *)
Lemma execute_search_type ext search_type query self :
  (execute ext search_type query self).1.2 =
  if bool_decide (search_type ∈ ["semantic"; "keyword"; "author"; "file"; "summary"])
  then search_type else "combined".
Proof.
  unfold execute.
  destruct (String.eqb_spec search_type "semantic") as [->|H1];
    [by rewrite bind_run|].
  destruct (String.eqb_spec search_type "keyword") as [->|H2];
    [by rewrite bind_run|].
  destruct (String.eqb_spec search_type "author") as [->|H3];
    [by rewrite bind_run|].
  destruct (String.eqb_spec search_type "file") as [->|H4];
    [by rewrite bind_run|].
  destruct (String.eqb_spec search_type "summary") as [->|H5];
    [by rewrite bind_run|].
  rewrite bool_decide_eq_false_2.
  - by rewrite !bind_run.
  - intros H. repeat (apply elem_of_cons in H as [?|H]; [done|]). by apply elem_of_nil in H.
Qed.

(** The first occurrences of a concatenation: those of the first list,
    then those of the second whose id is not in the first. *)
Lemma dedup_first_app l1 l2 :
  dedup_first (l1 ++ l2) =
  dedup_first l1
  ++ List.filter (fun r => bool_decide (result_hash r ∉ result_hash <$> l1)) (dedup_first l2).
Proof.
  induction l1 as [|r l1 IH].
  - cbn [app dedup_first]. rewrite filter_all; [done|].
    intros x. apply bool_decide_eq_true_2. csimpl. apply not_elem_of_nil.
  - cbn [app dedup_first]. rewrite IH, List.filter_app, filter_both. cbn [app].
    do 2 f_equal. apply List.filter_ext. intros x. csimpl.
    destruct (String.eqb_spec (result_hash x) (result_hash r)) as [E|E]; cbn [negb andb].
    + symmetry. apply bool_decide_eq_false_2. intros H. apply H. rewrite E. by left.
    + apply bool_decide_ext. rewrite not_elem_of_cons. tauto.
Qed.

Lemma elem_of_dedup_first r rs : r ∈ dedup_first rs -> r ∈ rs.
Proof.
  revert r. induction rs as [|x rs IH]; intros r; [done|]. cbn [dedup_first].
  intros [->|H]%elem_of_cons; [by left|]. right. apply IH.
  by apply list_elem_of_In, List.filter_In in H as [H%list_elem_of_In _].
Qed.

Lemma filter_truthy_ids (rs : list Result) :
  Forall (fun r => result_hash r <> "") rs ->
  List.filter (fun r => Str.truthy (result_hash r)) rs = rs.
Proof.
  induction 1 as [|r rs Hr Hrs IH]; [done|]. cbn [List.filter]. rewrite IH.
  by destruct (result_hash r).
Qed.

(** The dicts of the semantic search have the commit ids of the
    metadata. *)
Lemma semantic_search_ids ext query top_k self :
  Forall (fun l => exists d h, heap self !! l = Some d /\ md_hash d = Some h /\ h <> "")
         (commit_metadata self) ->
  Forall (fun d => exists h, md_hash d = Some h /\ h <> "")
         (semantic_search ext query top_k self).1.
Proof.
  intros H.
  assert (Hwf : metadata_allocated self).
  { eapply Forall_impl; [exact H|]. intros l (d & _ & Hl & _).
    by apply lookup_lt_Some in Hl. }
  destruct (embeddings_model self) as [model|] eqn:Em;
    [|rewrite semantic_search_none by (by left); constructor].
  destruct (embeddings_index self) as [index|] eqn:Ei;
    [|rewrite semantic_search_none by (by right); constructor].
  destruct (encode model query) as [v|] eqn:Ee.
  - destruct (search index (normalize_L2 ext (astype_float32 ext v)) top_k) as [hits|] eqn:Es.
    + rewrite (semantic_search_dicts _ _ _ _ _ _ _ _ Hwf Em Ei Ee Es).
      destruct (semantic_dicts_shape self hits 0 Hwf) as (_ & Hall & _).
      eapply Forall_impl; [exact Hall|].
      intros d (j & similarity & idx & l & source & _ & _ & Hl & Hsource & ->).
      apply list_elem_of_lookup_2 in Hl. rewrite Forall_forall in H.
      destruct (H l Hl) as (d' & h & Hd' & Hh & Hne). exists h. split; [|done].
      rewrite Hsource in Hd'. by injection Hd' as ->.
    + unfold semantic_search. rewrite bind_run. cbn [get fst snd].
      rewrite Em, Ei, Ee, Es. constructor.
  - unfold semantic_search. rewrite bind_run. cbn [get fst snd].
    rewrite Em, Ei, Ee. constructor.
Qed.

(** The entries of the keyword search have the commit ids of the
    commits. *)
Lemma keyword_search_ids query top_k self :
  Forall (fun c => exists h, hash c = Some h /\ h <> "")
         (default [] (commits_data (analysis_data self))) ->
  Forall (fun h => kw_hash h <> "") (keyword_search query top_k self).1.
Proof.
  intros H. rewrite keyword_search_eq. cbn [fst]. apply Forall_forall. intros h Hin.
  apply elem_of_slice_to, elem_of_sorted_reverse, list_elem_of_omap in Hin
    as (commit & Hc & Hh).
  unfold keyword_hit in Hh. case_match; [|done]. injection Hh as <-.
  rewrite Forall_forall in H. destruct (H commit Hc) as (h & Hh & Hne).
  cbn [kw_hash keyword_result]. by rewrite Hh.
Qed.

(** C5: a response of [process_query] has the search type ['combined']
    exactly where the search type that was asked for, or detected under
    ['auto'], is none of the five types that [process_query] names.
    Where the semantic and the keyword results carry a commit id, the
    results of such a response are the semantic results for [top_k = 5]
    followed by the keyword results for [top_k = 5], of which there are at
    most five, deduplicated by commit id keeping the first occurrence, and
    cut to 10 entries: no id comes twice, and no keyword result has the id
    of a semantic result.  The results carry a commit id where the
    commits and the metadata dicts of the session do, as those that the
    analyzer writes.  The searches run in the session after the load, so
    this holds of a new session as of a loaded one. *)
Theorem combined_search_results (ext : Externals) (query repo_id search_type : string)
    (self : QueryEngine) (a : Answer) :
  (process_query ext query repo_id search_type self).1 = Answered a ->
  let searched := searched_session ext repo_id self in
  let semantic_results := SemanticResult <$> (semantic_search ext query 5 searched).1 in
  let keyword_results := KeywordResult <$> (keyword_search query 5 searched).1 in
  (an_search_type a = "combined" <->
   resolved_type query search_type ∉ ["semantic"; "keyword"; "author"; "file"; "summary"])
  /\ (an_search_type a = "combined" ->
      Forall (fun r => result_hash r <> "") (semantic_results ++ keyword_results) ->
      an_results a = take 10 (dedup_first (semantic_results ++ keyword_results))
      /\ length keyword_results <= 5
      /\ length (an_results a) <= 10
      /\ NoDup (result_hash <$> an_results a)
      /\ Forall (fun r => r ∈ semantic_results
                          \/ r ∈ keyword_results
                             /\ result_hash r ∉ result_hash <$> semantic_results)
                (an_results a))
  /\ (Forall (fun c => exists h, hash c = Some h /\ h <> "")
             (default [] (commits_data (analysis_data searched))) ->
      Forall (fun l => exists d h,
                heap searched !! l = Some d /\ md_hash d = Some h /\ h <> "")
             (commit_metadata searched) ->
      Forall (fun r => result_hash r <> "") (semantic_results ++ keyword_results)).
Proof.
  intros Ha searched semantic_results keyword_results.
  rewrite (process_query_answered _ _ _ _ _ _ Ha), answer_eq in Ha.
  fold searched in Ha. cbn zeta in Ha. cbn [fst] in Ha. injection Ha as <-.
  pose proof (execute_search_type ext (resolved_type query search_type) query searched) as Hst.
  assert (Hiff : an_search_type
                   (response_of ext query repo_id
                      (execute ext (resolved_type query search_type) query searched).1
                      (execute ext (resolved_type query search_type) query searched).2)
                 = "combined" <->
                 resolved_type query search_type
                 ∉ ["semantic"; "keyword"; "author"; "file"; "summary"]).
  { destruct (execute ext _ query searched) as [[[rs sm] st] self'].
    cbn [fst snd response_of an_search_type] in *. rewrite Hst.
    case_bool_decide as Hin; [|done]. split; [|done]. intros E. rewrite E in Hin.
    repeat (apply elem_of_cons in Hin as [?|Hin]; [done|]). by apply elem_of_nil in Hin. }
  split; [exact Hiff|]. split; [|intros Hcs Hmd; apply Forall_app; split].
  2:{ apply Forall_fmap. eapply Forall_impl; [exact (semantic_search_ids _ _ _ _ Hmd)|].
      intros d (h & Hh & Hne). cbn [compose result_hash]. by rewrite Hh. }
  2:{ apply Forall_fmap. exact (keyword_search_ids _ _ _ Hcs). }
  intros Hc Hids. apply Hiff in Hc.
  rewrite (execute_combined _ _ _ _ Hc). cbn [fst snd response_of an_results].
  fold semantic_results. fold keyword_results.
  rewrite (filter_truthy_ids _ Hids). split_and!.
  - done.
  - unfold keyword_results. rewrite length_fmap, keyword_search_eq. cbn [fst].
    by apply (length_slice_to_le _ 5).
  - rewrite length_take. lia.
  - rewrite fmap_take. eapply sublist_NoDup; [apply dedup_first_NoDup|apply sublist_take].
  - apply Forall_forall. intros r Hr. apply (subseteq_take 10) in Hr.
    rewrite dedup_first_app in Hr. apply elem_of_app in Hr as [Hr|Hr].
    + left. by apply elem_of_dedup_first.
    + right. apply list_elem_of_In, List.filter_In in Hr as [Hr Hp].
      apply list_elem_of_In, elem_of_dedup_first in Hr. split; [done|].
      by apply bool_decide_eq_true_1 in Hp.
Qed.

(** C5, for a new session that loads the sample files, under ['auto']:
    the query is taken for a time range query, and the semantic results
    "b2" and "a1" come before the keyword result "a1", which is dropped. *)
Lemma combined_search_results_witness :
  exists a,
    (process_query (Samples.externals Samples.complete) "parser bug before 2024"
                   "0123456789ab" "auto" init).1 = Answered a
    /\ an_search_type a = "combined"
    /\ result_hash <$> an_results a = ["b2"; "a1"]
    /\ length (an_results a) <= 10.
Proof.
  eexists. split; [vm_compute; reflexivity|].
  match goal with
  | |- an_search_type ?a = _ /\ _ =>
      pose proof (combined_search_results (Samples.externals Samples.complete)
                    "parser bug before 2024" "0123456789ab" "auto" init a) as H
  end.
  destruct H as (H1 & H2 & _); [vm_compute; reflexivity|].
  assert (Hc : resolved_type "parser bug before 2024" "auto"
               ∉ ["semantic"; "keyword"; "author"; "file"; "summary"]).
  { change (resolved_type "parser bug before 2024" "auto") with "time_range".
    repeat (apply not_elem_of_cons; split; [discriminate|]). apply not_elem_of_nil. }
  apply H1 in Hc. split; [exact Hc|].
  destruct (H2 Hc) as (H3 & _ & H4 & _).
  - vm_compute. repeat constructor; discriminate.
  - split; [|exact H4]. rewrite H3. vm_compute. reflexivity.
Defined.

(** ** Loading and failing in [process_query] *)

(** X8: where the analysis document of the repository is missing or is
    not readable, [process_query] on a session without data returns the
    "not found" response with the repository id in the message and two
    suggestions, for every query and search type, and leaves the session
    as it was. *)
Theorem missing_document_not_found (ext : Externals) (query repo_id search_type : string)
    (self : QueryEngine) :
  dict_truthy (analysis_data self) = false ->
  (forall d, fs ext !! analysis_file (cwd ext) repo_id <> Some (Json d)) ->
  process_query ext query repo_id search_type self
  = (NotFound ("Repository analysis not found for ID: " +:+ repo_id)
              ["Please analyze the repository first";
               "Check if the repository ID is correct"], self).
Proof.
  intros Hd Hf. unfold process_query. rewrite bind_run. cbn [get fst snd].
  rewrite Hd. cbn [negb]. rewrite bind_run, load_analysis_data_eq.
  destruct (fs ext !! analysis_file (cwd ext) repo_id) as [[d| | |]|] eqn:E; try done.
  by destruct (Hf d).
Qed.

Lemma missing_document_not_found_witness :
  process_query (Samples.externals ∅) "parser" "0123456789ab" "keyword" init
  = (NotFound "Repository analysis not found for ID: 0123456789ab"
              ["Please analyze the repository first";
               "Check if the repository ID is correct"], init).
Proof.
  apply (missing_document_not_found (Samples.externals ∅) "parser" "0123456789ab"
           "keyword" init); [reflexivity|]. intros d. discriminate.
Defined.

Lemma process_query_model ext query repo_id search_type self :
  dict_truthy (analysis_data self) = true ->
  embeddings_model self = None ->
  process_query ext query repo_id search_type self =
  match sentence_transformer ext "all-MiniLM-L6-v2" with
  | LoadRaises msg => (Failed msg query repo_id (now_isoformat ext), self)
  | Loaded m => answer ext query repo_id search_type (set_embeddings_model (Some m) self)
  end.
Proof.
  intros Hd Hm. unfold process_query.
  rewrite bind_run. cbn [get fst snd]. rewrite Hd. cbn [negb].
  rewrite bind_run. cbn [mret M_ret fst snd negb].
  rewrite bind_run. cbn [get fst snd]. rewrite Hm. cbn [present negb].
  rewrite bind_run. unfold initialize_model.
  destruct (sentence_transformer ext "all-MiniLM-L6-v2"); [done|].
  by rewrite bind_run.
Qed.

(** X9: a load that reads the document and then fails on the index file
    reports "not found" but keeps the document: the session has the data
    from then on, and the next call does not load again and answers from
    the document. *)
Theorem failed_load_keeps_document (ext : Externals)
    (query1 query2 repo_id search_type1 search_type2 : string)
    (d : AnalysisData) (c : FileContent) (m : Model) :
  fs ext !! analysis_file (cwd ext) repo_id = Some (Json d) ->
  dict_truthy d = true ->
  fs ext !! index_file (cwd ext) repo_id = Some c ->
  (forall i, c <> Faiss i) ->
  sentence_transformer ext "all-MiniLM-L6-v2" = Loaded m ->
  let first := process_query ext query1 repo_id search_type1 init in
  first.1 = NotFound ("Repository analysis not found for ID: " +:+ repo_id)
                     ["Please analyze the repository first";
                      "Check if the repository ID is correct"]
  /\ first.2 = set_analysis_data d init
  /\ exists a,
       (process_query ext query2 repo_id search_type2 first.2).1 = Answered a
       /\ an_total_commits_available a = length (default [] (commits_data d)).
Proof.
  intros Ha Hd Hi Hc Hm first.
  assert (Hfirst : first =
    (NotFound ("Repository analysis not found for ID: " +:+ repo_id)
              ["Please analyze the repository first";
               "Check if the repository ID is correct"], set_analysis_data d init)).
  { unfold first, process_query. rewrite bind_run. cbn [get fst snd].
    change (dict_truthy (analysis_data init)) with false. cbn [negb].
    rewrite bind_run, load_analysis_data_eq, Ha, Hi.
    destruct c as [| i | |]; try done. by destruct (Hc i). }
  rewrite Hfirst. cbn [fst snd]. split_and!; [done..|].
  rewrite process_query_model, Hm by done.
  rewrite answer_eq. cbn zeta. cbn [fst].
  eexists. split; [reflexivity|].
  pose proof (execute_extends ext (resolved_type query2 search_type2) query2
                (set_embeddings_model (Some m) (set_analysis_data d init)))
    as [(_ & _ & _ & Hdata) _].
  destruct (execute ext _ query2 _) as [[[rs sm] st] self']. cbn [fst snd] in *.
  cbn [response_of an_total_commits_available]. by rewrite Hdata.
Qed.

Lemma failed_load_keeps_document_witness :
  (process_query (Samples.externals Cases.broken_index) "parser" "0123456789ab" "keyword"
                 init).1
  = NotFound "Repository analysis not found for ID: 0123456789ab"
             ["Please analyze the repository first";
              "Check if the repository ID is correct"]
  /\ exists a,
       (process_query (Samples.externals Cases.broken_index) "bug" "0123456789ab" "keyword"
          (process_query (Samples.externals Cases.broken_index) "parser" "0123456789ab"
                         "keyword" init).2).1 = Answered a
       /\ an_total_commits_available a = 2.
Proof.
  destruct (failed_load_keeps_document (Samples.externals Cases.broken_index)
              "parser" "bug" "0123456789ab" "keyword" "keyword"
              (Samples.document Samples.parser_commits) Garbage Samples.model)
    as (H1 & _ & H3); [reflexivity|reflexivity|reflexivity|discriminate|reflexivity|].
  exact (conj H1 H3).
Defined.

(** X10: in a session that has its data, a sentence transformer that
    cannot be loaded fails the call for every search type, also for the
    keyword, author, file and summary types that make no use of it: the
    response is the error with the message of the exception, and the
    session is as it was. *)
Theorem model_failure_fails_every_mode (ext : Externals)
    (query repo_id search_type msg : string) (self : QueryEngine) :
  dict_truthy (analysis_data self) = true ->
  embeddings_model self = None ->
  sentence_transformer ext "all-MiniLM-L6-v2" = LoadRaises msg ->
  process_query ext query repo_id search_type self
  = (Failed msg query repo_id (now_isoformat ext), self).
Proof. intros Hd Hm Hl. by rewrite process_query_model, Hl. Qed.

Lemma model_failure_fails_every_mode_witness :
  process_query (Cases.offline ∅) "bug" "0123456789ab" "keyword"
                (Samples.session Samples.parser_commits)
  = (Failed "connection refused" "bug" "0123456789ab" "2024-04-02T00:00:00",
     Samples.session Samples.parser_commits).
Proof.
  apply (model_failure_fails_every_mode (Cases.offline ∅) "bug" "0123456789ab" "keyword"
           "connection refused" (Samples.session Samples.parser_commits));
    reflexivity.
Defined.

(** ** The semantic mode without a model or an index *)

Lemma load_keeps_model ext repo_id self :
  embeddings_model (load_analysis_data ext repo_id self).2 = embeddings_model self.
Proof.
  rewrite load_analysis_data_eq. unfold loaded_session.
  destruct (fs ext !! analysis_file (cwd ext) repo_id) as [[d| | |]|]; try done;
    destruct (fs ext !! index_file (cwd ext) repo_id) as [[| i | |]|]; try done;
    destruct (fs ext !! metadata_file (cwd ext) repo_id) as [[| | m |]|]; done.
Qed.

(** With the data at hand or loaded, a model that cannot be loaded fails
    the call. *)
Lemma process_query_fails ext query repo_id search_type self msg :
  dict_truthy (analysis_data self) = true
  \/ (load_analysis_data ext repo_id self).1 = true ->
  embeddings_model self = None ->
  sentence_transformer ext "all-MiniLM-L6-v2" = LoadRaises msg ->
  (process_query ext query repo_id search_type self).1
  = Failed msg query repo_id (now_isoformat ext).
Proof.
  intros Hd Hm Hl.
  destruct (dict_truthy (analysis_data self)) eqn:Ed.
  { by rewrite process_query_model, Hl. }
  destruct Hd as [Hd|Hd]; [done|].
  unfold process_query. rewrite bind_run. cbn [get fst snd]. rewrite Ed. cbn [negb].
  rewrite bind_run, Hd. cbn [negb].
  rewrite bind_run. cbn [get fst snd]. rewrite load_keeps_model, Hm. cbn [present negb].
  rewrite bind_run. unfold initialize_model. by rewrite Hl.
Qed.

(** C6, as the code has it.  [semantic_search] returns the empty list,
    and the session as it was, where the session has no model or no
    index.  Through [process_query] in the semantic mode, a response
    that is an answer has no result, and the suggestions, where the
    session of the search has no index; but a model that cannot be
    loaded makes the response the error of the exception.  For a store
    without any embedded record [create_embeddings_index] builds no
    index, and [save_analysis_results] writes the document and leaves
    the index file and the metadata file as they were: where there were
    none, a new session answers a semantic query with no result; where
    an earlier analysis left them, the new session has the old index and
    the old metadata. *)
Theorem semantic_search_unavailable (ext : Externals) (query : string) (top_k : Z) :
  (forall self,
     embeddings_model self = None \/ embeddings_index self = None ->
     semantic_search ext query top_k self = ([], self))
  /\ (forall repo_id self a,
        (process_query ext query repo_id "semantic" self).1 = Answered a ->
        embeddings_index (searched_session ext repo_id self) = None ->
        an_search_type a = "semantic"
        /\ an_results a = []
        /\ an_total_results a = 0
        /\ an_suggestions a = Some no_results_suggestions)
  /\ (forall repo_id self msg,
        dict_truthy (analysis_data self) = true
        \/ (load_analysis_data ext repo_id self).1 = true ->
        embeddings_model self = None ->
        sentence_transformer ext "all-MiniLM-L6-v2" = LoadRaises msg ->
        (process_query ext query repo_id "semantic" self).1
        = Failed msg query repo_id (now_isoformat ext))
  /\ (forall build_index commits tm d files repo_id,
        Forall (fun c => embedding_truthy c = None) commits ->
        tm_embeddings_index tm = None ->
        let built := create_embeddings_index build_index commits tm in
        let saved := (save_analysis_results (cwd ext) repo_id d built.2 files).2 in
        built = (None, tm)
        /\ saved !! analysis_file (cwd ext) repo_id = Some (Json (clean_data d))
        /\ saved !! index_file (cwd ext) repo_id = files !! index_file (cwd ext) repo_id
        /\ saved !! metadata_file (cwd ext) repo_id
           = files !! metadata_file (cwd ext) repo_id
        /\ (forall m,
              fs ext = saved ->
              files !! index_file (cwd ext) repo_id = None ->
              files !! metadata_file (cwd ext) repo_id = None ->
              sentence_transformer ext "all-MiniLM-L6-v2" = Loaded m ->
              exists a,
                (process_query ext query repo_id "semantic" init).1 = Answered a
                /\ an_results a = [] /\ an_search_type a = "semantic")
        /\ (forall index metadata,
              fs ext = saved ->
              files !! index_file (cwd ext) repo_id = Some (Faiss index) ->
              files !! metadata_file (cwd ext) repo_id = Some (Pickle metadata) ->
              let self := (load_analysis_data ext repo_id init).2 in
              analysis_data self = clean_data d
              /\ embeddings_index self = Some index
              /\ (fun l => heap self !! l) <$> commit_metadata self = Some <$> metadata)).
Proof.
  split_and!.
  - intros self. apply semantic_search_none.
  - intros repo_id self a Ha Hi.
    rewrite (process_query_answered _ _ _ _ _ _ Ha), answer_eq in Ha.
    change (resolved_type query "semantic") with "semantic" in Ha.
    unfold execute in Ha. revert Ha. eval_eqb.
    rewrite bind_run, semantic_search_none by (by right).
    cbn [fst snd mret M_ret fmap list_fmap response_of]. by intros [= <-].
  - intros repo_id self msg. apply process_query_fails.
  - intros build_index commits tm d files repo_id Hc Htm built saved.
    assert (Hb : built = (None, tm)).
    { unfold built, create_embeddings_index. by rewrite collect_embeddings_none. }
    assert (Hs : saved = <[analysis_file (cwd ext) repo_id := Json (clean_data d)]> files).
    { unfold saved. rewrite Hb. unfold save_analysis_results. cbn [snd]. by rewrite Htm. }
    assert (Ha : saved !! analysis_file (cwd ext) repo_id = Some (Json (clean_data d)))
      by (rewrite Hs; apply lookup_insert_eq).
    assert (Hi : saved !! index_file (cwd ext) repo_id
                 = files !! index_file (cwd ext) repo_id).
    { rewrite Hs. apply lookup_insert_ne, analysis_file_ne_index_file. }
    assert (Hmd : saved !! metadata_file (cwd ext) repo_id
                  = files !! metadata_file (cwd ext) repo_id).
    { rewrite Hs. apply lookup_insert_ne, analysis_file_ne_metadata_file. }
    split_and!; [done..| |].
    + intros m Hfs Hi' Hmd' Hst. rewrite <- Hfs in Ha, Hi, Hmd.
      rewrite Hi' in Hi. rewrite Hmd' in Hmd.
      assert (Hl : load_analysis_data ext repo_id init
                   = (true, set_analysis_data (clean_data d) init)).
      { rewrite load_analysis_data_eq, Ha, Hi, Hmd. unfold loaded_session.
        by rewrite Hi, Hmd. }
      erewrite process_query_fresh; [|done|exact Hl|done|exact Hst].
      unfold answer, execute. eval_eqb.
      rewrite !bind_run, semantic_search_none by (by right).
      cbn [fst snd get mret M_ret fmap list_fmap]. eexists. split; [reflexivity|done].
    + intros index metadata Hfs Hi' Hmd' self. rewrite <- Hfs in Ha, Hi, Hmd.
      rewrite Hi' in Hi. rewrite Hmd' in Hmd.
      destruct (loaded_all ext repo_id (clean_data d) index metadata init Ha Hi Hmd)
        as (_ & H1 & H2 & _ & H3 & _).
      done.
Qed.

(** C6, at the sample document: saved by an analyzer without an index
    into an empty directory, it gives a semantic query no result; with a
    sentence transformer that cannot be loaded the response is the
    error. *)
Lemma semantic_search_unavailable_witness :
  (exists a,
     (process_query (Samples.externals (Samples.document_only Samples.parser_commits))
                    "parser" "0123456789ab" "semantic" init).1 = Answered a
     /\ an_results a = [] /\ an_search_type a = "semantic")
  /\ (process_query (Cases.offline (Samples.document_only Samples.parser_commits))
                    "parser" "0123456789ab" "semantic" init).1
     = Failed "connection refused" "parser" "0123456789ab" "2024-04-02T00:00:00".
Proof.
  split.
  - pose proof (semantic_search_unavailable
                  (Samples.externals (Samples.document_only Samples.parser_commits))
                  "parser" 10) as (_ & _ & _ & H).
    destruct (H (fun _ => Some Samples.index) Samples.parser_commits Cases.bare_analyzer
                (Samples.document Samples.parser_commits) ∅ "0123456789ab")
      as (_ & _ & _ & _ & H' & _).
    + repeat constructor.
    + reflexivity.
    + apply (H' Samples.model); [vm_compute; reflexivity|reflexivity..].
  - pose proof (semantic_search_unavailable
                  (Cases.offline (Samples.document_only Samples.parser_commits))
                  "parser" 10) as (_ & _ & H & _).
    apply (H "0123456789ab" init "connection refused"); [right|..]; reflexivity.
Defined.

(** C6, as the specification words it, fails.  The sentence transformer
    cannot be loaded: [process_query] in the semantic mode returns the
    error of the exception, and no results.  And a store without any
    embedded record, for which no index is built, is saved beside the
    index of an earlier analysis: the semantic query is answered from the
    old index, with the commits "b2" and "a1", which are not in the
    store. *)
Lemma semantic_mode_fails_without_model :
  sentence_transformer (Cases.offline (Samples.document_only Samples.parser_commits))
                       "all-MiniLM-L6-v2"
  = LoadRaises "connection refused"
  /\ (process_query (Cases.offline (Samples.document_only Samples.parser_commits))
                    "parser" "0123456789ab" "semantic" init).1
     = Failed "connection refused" "parser" "0123456789ab" "2024-04-02T00:00:00"
  /\ results_of
       (process_query (Cases.offline (Samples.document_only Samples.parser_commits))
                      "parser" "0123456789ab" "semantic" init).1
     = None
  /\ create_embeddings_index (fun _ => Some Samples.index) Samples.release_commits
                             Cases.bare_analyzer
     = (None, Cases.bare_analyzer)
  /\ option_map (fmap result_hash)
       (results_of (process_query (Samples.externals Cases.saved_again)
                                  "parser" "0123456789ab" "semantic" init).1)
     = Some ["b2"; "a1"]
  /\ hash <$> default [] (commits_data
                            (analysis_data
                               (process_query (Samples.externals Cases.saved_again)
                                  "parser" "0123456789ab" "semantic" init).2))
     = [Some "d4"; Some "e5"].
Proof. split_and!; vm_compute; reflexivity. Qed.

(** X11: every answer of [process_query] echoes the query and the
    repository id, has one of six search types, counts its results in
    [total_results], has a summary exactly in the summary mode, where it
    has no results, has at most 10 results in the keyword and the
    combined modes, and has the suggestions exactly when it has no
    result and no summary with content. *)
Theorem answer_invariants (ext : Externals) (query repo_id search_type : string)
    (self : QueryEngine) (a : Answer) :
  (process_query ext query repo_id search_type self).1 = Answered a ->
  an_query a = query
  /\ an_repo_id a = repo_id
  /\ an_search_type a ∈ ["semantic"; "keyword"; "author"; "file"; "summary"; "combined"]
  /\ an_total_results a = length (an_results a)
  /\ (is_Some (an_summary a) <-> an_search_type a = "summary")
  /\ (an_search_type a = "summary" -> an_results a = [])
  /\ (an_search_type a = "keyword" \/ an_search_type a = "combined" ->
      length (an_results a) <= 10)
  /\ (is_Some (an_suggestions a) <->
      an_results a = [] /\ summary_truthy (an_summary a) = false).
Proof.
  intros H.
  destruct (process_query_cases ext query repo_id search_type self)
    as [(e & sg & H')|[(msg & H')|(self' & H')]]; try congruence.
  rewrite H', answer_eq in H. cbn zeta in H. cbn [fst] in H.
  pose proof (execute_outcome ext (resolved_type query search_type) query self') as Ho.
  destruct (execute ext _ query self') as [[[rs sm] st] self'']. cbn [fst snd] in *.
  injection H as <-. cbn [response_of an_query an_repo_id an_search_type an_total_results
                          an_summary an_results an_suggestions].
  destruct Ho as (H1 & H2 & H3 & H4). split_and!; try done.
  destruct rs, (summary_truthy sm); cbn [andb negb]; split;
    first [by intros [? ?] | by intros [? ?] | by eexists | done].
Qed.

Lemma answer_invariants_witness :
  exists a,
    (process_query (Samples.externals ∅) "parser bug" "0123456789ab" "combined"
                   Samples.full_session).1 = Answered a
    /\ an_total_results a = length (an_results a)
    /\ an_search_type a ∈ ["semantic"; "keyword"; "author"; "file"; "summary"; "combined"].
Proof.
  eexists. split; [vm_compute; reflexivity|].
  destruct (answer_invariants (Samples.externals ∅) "parser bug" "0123456789ab" "combined"
              Samples.full_session _ ltac:(vm_compute; reflexivity))
    as (_ & _ & H3 & H4 & _).
  exact (conj H4 H3).
Defined.

(** ** The loaded session *)

Lemma semantic_search_collaborators ext ext' query top_k :
  astype_float32 ext = astype_float32 ext' ->
  normalize_L2 ext = normalize_L2 ext' ->
  semantic_search ext query top_k = semantic_search ext' query top_k.
Proof.
  intros Ha Hn. destruct ext, ext'. cbn [astype_float32 normalize_L2] in *.
  subst. reflexivity.
Qed.

Lemma execute_collaborators ext ext' search_type query self :
  astype_float32 ext = astype_float32 ext' ->
  normalize_L2 ext = normalize_L2 ext' ->
  execute ext search_type query self = execute ext' search_type query self.
Proof.
  intros Ha Hn. unfold execute.
  by rewrite !(semantic_search_collaborators ext ext').
Qed.

(** X12: a session that has its data and its model is not loaded again:
    [process_query] reads neither the files nor the working directory
    and does not load the model, so its value is the same whatever is on
    disk, and it leaves the data, the metadata, the index and the model
    of the session as they are. *)
Theorem loaded_session_is_not_reloaded (ext ext' : Externals)
    (query repo_id search_type : string) (self : QueryEngine) :
  dict_truthy (analysis_data self) = true ->
  present (embeddings_model self) = true ->
  astype_float32 ext = astype_float32 ext' ->
  normalize_L2 ext = normalize_L2 ext' ->
  now_isoformat ext = now_isoformat ext' ->
  process_query ext query repo_id search_type self
  = process_query ext' query repo_id search_type self
  /\ extends self (process_query ext query repo_id search_type self).2.
Proof.
  intros Hd Hm Ha Hn Ht. rewrite !process_query_loaded, !answer_eq by done.
  cbn zeta. cbn [snd]. split.
  - rewrite (execute_collaborators ext ext') by done.
    unfold response_of. by rewrite Ht.
  - apply execute_extends.
Qed.

Lemma loaded_session_is_not_reloaded_witness :
  process_query (Samples.externals ∅) "bug" "0123456789ab" "keyword" Samples.full_session
  = process_query (Samples.externals Cases.broken_index) "bug" "0123456789ab" "keyword"
                  Samples.full_session.
Proof.
  apply (loaded_session_is_not_reloaded (Samples.externals ∅)
           (Samples.externals Cases.broken_index) "bug" "0123456789ab" "keyword"
           Samples.full_session); reflexivity.
Defined.

(** X13: a session that has its data answers from it whatever
    repository id comes with the query: the id is echoed in the
    response, but no other repository is loaded, so the results, the
    search type and the session after the call are the same for every
    id. *)
Theorem loaded_session_ignores_repo_id (ext : Externals)
    (query repo_id repo_id' search_type : string) (self : QueryEngine) :
  dict_truthy (analysis_data self) = true ->
  present (embeddings_model self) = true ->
  let r := process_query ext query repo_id search_type self in
  let r' := process_query ext query repo_id' search_type self in
  results_of r.1 = results_of r'.1
  /\ search_type_of r.1 = search_type_of r'.1
  /\ r.2 = r'.2
  /\ exists a, r'.1 = Answered a /\ an_repo_id a = repo_id'.
Proof.
  intros Hd Hm r r'. subst r r'. rewrite !process_query_loaded, !answer_eq by done.
  cbn zeta. cbn [fst snd results_of search_type_of].
  destruct (execute ext _ query self) as [[[rs sm] st] self'].
  cbn [fst snd response_of an_results an_search_type]. split_and!; try done.
  by eexists.
Qed.

Lemma loaded_session_ignores_repo_id_witness :
  results_of (process_query (Samples.externals ∅) "bug" "0123456789ab" "keyword"
                            Samples.full_session).1
  = results_of (process_query (Samples.externals ∅) "bug" "ffffffffffff" "keyword"
                              Samples.full_session).1.
Proof.
  apply (loaded_session_ignores_repo_id (Samples.externals ∅) "bug" "0123456789ab"
           "ffffffffffff" "keyword" Samples.full_session); reflexivity.
Defined.

(** ** The embeddings and the document *)

Lemma omap_fmap_commits {B} (f : Commit -> option B) (g : Commit -> Commit) (l : list Commit) :
  (forall c, f (g c) = f c) -> omap f (g <$> l) = omap f l.
Proof.
  intros H. induction l as [|c l IH]; [done|]. csimpl. by rewrite H, IH.
Qed.

Lemma clean_data_commits d :
  default [] (commits_data (clean_data d)) = clean_commit <$> default [] (commits_data d).
Proof. unfold clean_data. cbn [commits_data]. by destruct (commits_data d). Qed.

(** X14: the document that is saved, which is the document without the
    embeddings of its commits, has the same commits in the same order,
    none with an embedding, and gives the same results in the keyword,
    author, file and time range searches; removing the embeddings twice
    is removing them once. *)
Theorem clean_data_keeps_searches (d : AnalysisData) (self : QueryEngine)
    (query start_date end_date : string) (top_k : Z) :
  let full := set_analysis_data d self in
  let saved := set_analysis_data (clean_data d) self in
  (keyword_search query top_k saved).1 = (keyword_search query top_k full).1
  /\ (author_search query saved).1 = (author_search query full).1
  /\ (file_search query saved).1 = (file_search query full).1
  /\ (time_range_search start_date end_date saved).1
     = (time_range_search start_date end_date full).1
  /\ length (default [] (commits_data (clean_data d)))
     = length (default [] (commits_data d))
  /\ Forall (fun c => embedding c = None) (default [] (commits_data (clean_data d)))
  /\ clean_data (clean_data d) = clean_data d.
Proof.
  intros full saved. subst full saved.
  rewrite !keyword_search_eq, !author_search_eq, !file_search_eq, !time_range_search_eq.
  cbn [fst analysis_data set_analysis_data]. rewrite !clean_data_commits.
  split_and!.
  - by rewrite omap_fmap_commits.
  - by rewrite omap_fmap_commits.
  - by rewrite omap_fmap_commits.
  - by rewrite omap_fmap_commits.
  - by rewrite length_fmap.
  - apply Forall_fmap, Forall_true. done.
  - unfold clean_data. cbn [repo_id repo_url analysis_timestamp status structure_info
                             insights commits_data other_keys].
    f_equal. destruct (commits_data d) as [cs|]; [|done]. cbn. f_equal.
    rewrite <- list_fmap_compose. by apply list_fmap_ext.
Qed.



(** ** Queries of trigger words, and the summary *)

(** X16: under ['auto'], a query of which nothing but whitespace is left
    when the words "author" and "who" are taken out, as the query "who",
    is an author search for the empty name, which every commit matches:
    the answer has all the commits of the store. *)
Theorem trigger_only_author_query (ext : Externals) (query repo_id : string)
    (self : QueryEngine) :
  dict_truthy (analysis_data self) = true ->
  present (embeddings_model self) = true ->
  auto_detect (Str.lower query) = "author" ->
  Str.strip (Str.replace "who" "" (Str.replace "author" "" (Str.lower query))) = "" ->
  exists a,
    (process_query ext query repo_id "auto" self).1 = Answered a
    /\ an_search_type a = "author"
    /\ an_results a ≡ₚ
       AuthorResult <$> (author_result <$> default [] (commits_data (analysis_data self)))
    /\ an_total_results a = length (default [] (commits_data (analysis_data self))).
Proof.
  intros Hd Hm Ha He. rewrite process_query_loaded, answer_author by done.
  cbn zeta. cbn [fst]. rewrite He.
  eexists. split; [reflexivity|].
  cbn [an_search_type an_results an_total_results].
  rewrite author_search_eq. cbn [fst]. rewrite omap_author_hit, filter_all.
  - split_and!; [done| |].
    + by rewrite sorted_reverse_perm.
    + by rewrite !length_fmap, sorted_reverse_perm, length_fmap.
  - intros c. unfold author_matches. by rewrite contains_empty.
Qed.

Lemma trigger_only_author_query_witness :
  exists a,
    (process_query (Samples.externals ∅) "who" "0123456789ab" "auto"
                   Samples.full_session).1 = Answered a
    /\ an_search_type a = "author"
    /\ an_results a ≡ₚ
       AuthorResult <$> (author_result <$> Samples.parser_commits)
    /\ an_total_results a = 2.
Proof.
  apply (trigger_only_author_query (Samples.externals ∅) "who" "0123456789ab"
           Samples.full_session); reflexivity.
Defined.

(** X17: in the summary mode a session that has its data answers with
    the summary of the document, no results and no suggestions, and stays
    as it was: the summary says that the semantic search is available
    exactly when the session has an index, counts the metadata dicts as
    the indexed commits, and gives the status "unknown" to a document
    without one. *)
Theorem summary_mode (ext : Externals) (query repo_id : string) (self : QueryEngine) :
  dict_truthy (analysis_data self) = true ->
  present (embeddings_model self) = true ->
  exists a s,
    process_query ext query repo_id "summary" self = (Answered a, self)
    /\ an_search_type a = "summary"
    /\ an_results a = []
    /\ an_total_results a = 0
    /\ an_suggestions a = None
    /\ an_summary a = Some (FullSummary s)
    /\ sm_semantic_search_available s = present (embeddings_index self)
    /\ sm_total_commits_indexed s = length (commit_metadata self)
    /\ sm_status s = default "unknown" (status (analysis_data self))
    /\ sm_search_types s = ["semantic"; "keyword"; "author"; "file"; "time_range"].
Proof.
  intros Hd Hm. rewrite process_query_loaded, answer_eq by done.
  unfold resolved_type, execute. eval_eqb. cbn zeta.
  rewrite bind_run. unfold get_repository_summary. rewrite bind_run.
  cbn [get fst snd]. rewrite Hd. cbn [negb mret M_ret fst snd].
  eexists _, _. split; [reflexivity|]. by split_and!.
Qed.

Lemma summary_mode_witness :
  exists a s,
    process_query (Samples.externals ∅) "overview" "0123456789ab" "summary"
                  Samples.full_session = (Answered a, Samples.full_session)
    /\ an_search_type a = "summary"
    /\ an_results a = []
    /\ an_total_results a = 0
    /\ an_suggestions a = None
    /\ an_summary a = Some (FullSummary s)
    /\ sm_semantic_search_available s = true
    /\ sm_total_commits_indexed s = 2
    /\ sm_status s = "completed"
    /\ sm_search_types s = ["semantic"; "keyword"; "author"; "file"; "time_range"].
Proof.
  apply (summary_mode (Samples.externals ∅) "overview" "0123456789ab"
           Samples.full_session); reflexivity.
Defined.

(** ** Counters *)

Lemma count_of_bump key k d :
  count_of k (bump key d) = count_of k d + (if String.eqb key k then 1 else 0).
Proof.
  induction d as [|[k0 n] d IH]; cbn [bump count_of sum_list_with fst snd].
  - lia.
  - destruct (String.eqb_spec k0 key) as [->|Hne]; cbn [sum_list_with fst snd].
    + destruct (String.eqb key k); lia.
    + fold (count_of k (bump key d)). fold (count_of k d). rewrite IH. lia.
Qed.

Lemma keys_bump key d :
  fst <$> bump key d = if bool_decide (key ∈ fst <$> d) then fst <$> d else (fst <$> d) ++ [key].
Proof.
  induction d as [|[k0 n] d IH]; [done|]. cbn [bump]. csimpl.
  destruct (String.eqb_spec k0 key) as [->|Hne]; csimpl.
  - rewrite bool_decide_eq_true_2; [done|]. apply list_elem_of_here.
  - rewrite IH. destruct (bool_decide (key ∈ fst <$> d)) eqn:E.
    + apply bool_decide_eq_true in E. rewrite bool_decide_eq_true_2; [done|].
      by apply list_elem_of_further.
    + apply bool_decide_eq_false in E. rewrite bool_decide_eq_false_2; [done|].
      intros H. apply elem_of_cons in H as [H|H]; [by subst|done].
Qed.

Lemma NoDup_keys_bump key d : NoDup (fst <$> d) -> NoDup (fst <$> bump key d).
Proof.
  intros H. rewrite keys_bump. case_bool_decide as E; [done|].
  apply NoDup_app. split_and!; [done| |apply NoDup_singleton].
  intros x Hx Hx'. apply list_elem_of_singleton in Hx' as ->. done.
Qed.

Lemma positive_bump key d :
  Forall (fun item => 1 <= item.2) d -> Forall (fun item => 1 <= item.2) (bump key d).
Proof.
  induction 1 as [|[k0 n] d Hn Hd IH]; cbn [bump]; [by repeat constructor|].
  cbn [snd] in Hn.
  destruct (String.eqb k0 key); constructor; cbn [snd]; first [done|lia].
Qed.

Lemma total_bump key d : sum_list_with snd (bump key d) = S (sum_list_with snd d).
Proof.
  induction d as [|[k0 n] d IH]; cbn [bump sum_list_with snd]; [done|].
  destruct (String.eqb k0 key); cbn [sum_list_with snd]; lia.
Qed.

Lemma occurrences_cons key k keys :
  occurrences k (key :: keys) = (if String.eqb key k then 1 else 0) + occurrences k keys.
Proof.
  unfold occurrences. cbn [List.filter]. rewrite (String.eqb_sym k key).
  by destruct (String.eqb key k).
Qed.

Lemma occurrences_app k l1 l2 :
  occurrences k (l1 ++ l2) = occurrences k l1 + occurrences k l2.
Proof. unfold occurrences. by rewrite List.filter_app, length_app. Qed.

Lemma occurrences_positive k keys : k ∈ keys <-> 1 <= occurrences k keys.
Proof.
  induction keys as [|key keys IH].
  - split; [by intros ?%elem_of_nil|cbn; lia].
  - rewrite occurrences_cons, elem_of_cons, IH.
    destruct (String.eqb_spec key k) as [->|Hne]; split; try lia; auto.
    intros [->|H]; [done|lia].
Qed.

(** What counting the keys [keys] into a counter gives. *)
Lemma bump_all_spec keys : forall d,
  (forall k, count_of k (bump_all keys d) = count_of k d + occurrences k keys)
  /\ (NoDup (fst <$> d) -> NoDup (fst <$> bump_all keys d))
  /\ (Forall (fun item => 1 <= item.2) d ->
      Forall (fun item => 1 <= item.2) (bump_all keys d))
  /\ sum_list_with snd (bump_all keys d) = sum_list_with snd d + length keys
  /\ (forall k, k ∈ fst <$> bump_all keys d <-> k ∈ fst <$> d \/ k ∈ keys).
Proof.
  induction keys as [|key keys IH]; intros d.
  - unfold bump_all, occurrences. cbn [fold_left List.filter length]. split_and!; try done.
    intros k. split; [auto|]. intros [?|?%elem_of_nil]; done.
  - change (bump_all (key :: keys) d) with (bump_all keys (bump key d)).
    destruct (IH (bump key d)) as (H1 & H2 & H3 & H4 & H5). split_and!.
    + intros k. rewrite H1, count_of_bump, occurrences_cons. lia.
    + intros H. by apply H2, NoDup_keys_bump.
    + intros H. by apply H3, positive_bump.
    + rewrite H4, total_bump. cbn [length]. lia.
    + intros k. rewrite H5, keys_bump, elem_of_cons. case_bool_decide as E.
      * split; [intros [?|?]; auto|]. intros [?|[->|?]]; auto.
      * rewrite elem_of_app, list_elem_of_singleton. tauto.
Qed.

Lemma count_of_item k n d :
  NoDup (fst <$> d) -> (k, n) ∈ d -> count_of k d = n.
Proof.
  induction d as [|[k0 n0] d IH]; intros Hd Hin; [by apply elem_of_nil in Hin|].
  csimpl in Hd. apply NoDup_cons in Hd as [Hk0 Hd].
  cbn [count_of sum_list_with fst snd]. fold (count_of k d).
  apply elem_of_cons in Hin as [[= -> ->]|Hin].
  - rewrite String.eqb_refl.
    enough (count_of k0 d = 0) by lia.
    clear -Hk0. induction d as [|[k1 n1] d IH]; [done|].
    csimpl in Hk0. apply not_elem_of_cons in Hk0 as [Hne Hk0].
    cbn [count_of sum_list_with fst snd]. fold (count_of k0 d).
    rewrite (proj2 (String.eqb_neq k1 k0)) by done. by rewrite IH.
  - rewrite (proj2 (String.eqb_neq k0 k)).
    + by rewrite IH.
    + intros ->. apply Hk0. apply list_elem_of_fmap. by exists (k, n).
Qed.

(** The items of the counter of [keys]: the keys are distinct, and each
    comes with the number of times it is in [keys], which is not 0. *)
Lemma bump_all_items keys :
  NoDup (fst <$> bump_all keys [])
  /\ Forall (fun item => item.2 = occurrences item.1 keys /\ 1 <= item.2) (bump_all keys [])
  /\ sum_list_with snd (bump_all keys []) = length keys
  /\ (forall k, k ∈ fst <$> bump_all keys [] <-> k ∈ keys).
Proof.
  destruct (bump_all_spec keys []) as (H1 & H2 & H3 & H4 & H5).
  assert (Hnd : NoDup (fst <$> bump_all keys [])) by (apply H2; constructor).
  split_and!; [done| |done|].
  - specialize (H3 (Forall_nil_2 _)).
    apply Forall_forall. intros [k n] Hin. cbn [fst snd]. split.
    + rewrite <- (count_of_item k n _ Hnd Hin), H1. done.
    + rewrite Forall_forall in H3. apply (H3 _ Hin).
  - intros k. rewrite H5. split; [intros [?%elem_of_nil|?]; done|auto].
Qed.

(** ** The loops of [generate_insights] *)

Lemma bump_all_app l1 l2 d : bump_all (l1 ++ l2) d = bump_all l2 (bump_all l1 d).
Proof. apply fold_left_app. Qed.

Lemma omap_cons_Some {A B} (f : A -> option B) (x : A) (l : list A) (y : B) :
  f x = Some y -> omap f (x :: l) = y :: omap f l.
Proof. intros H. csimpl. by rewrite H. Qed.

Lemma count_authors_and_months_spec commits : forall a m,
  match count_authors_and_months commits a m with
  | Return (a', m') =>
      Forall (fun c => is_Some (author c) /\ is_Some (date c)) commits
      /\ a' = bump_all (omap author commits) a
      /\ m' = bump_all (String.substring 0 7 <$> omap date commits) m
  | Raise msg =>
      (msg = "'author'" \/ msg = "'date'")
      /\ ~ Forall (fun c => is_Some (author c) /\ is_Some (date c)) commits
  end.
Proof.
  induction commits as [|c cs IH]; intros a m; [by split_and!|].
  cbn [count_authors_and_months].
  destruct (author c) as [x|] eqn:Ea; cbn [mbind Raises_bind subscript].
  - destruct (date c) as [y|] eqn:Ed; cbn [mbind Raises_bind subscript].
    + specialize (IH (bump x a) (bump (String.substring 0 7 y) m)).
      destruct (count_authors_and_months cs _ _) as [msg|[a' m']].
      * destruct IH as [H1 H2]. split; [done|].
        intros H. apply Forall_cons in H as [_ H]. done.
      * destruct IH as (H1 & -> & ->). split_and!.
        -- constructor; [|done]. rewrite Ea, Ed. by split; eexists.
        -- by rewrite (omap_cons_Some _ _ _ _ Ea).
        -- by rewrite (omap_cons_Some _ _ _ _ Ed).
    + split; [by right|]. intros H. apply Forall_cons in H as [[_ [? H]] _].
      congruence.
  - split; [by left|]. intros H. apply Forall_cons in H as [[[? H] _] _]. congruence.
Qed.

Lemma count_files_of_spec changes : forall d,
  match count_files_of changes d with
  | Return d' =>
      Forall (fun f => is_Some (filename f)) changes
      /\ d' = bump_all (omap filename changes) d
  | Raise msg =>
      msg = "'filename'" /\ ~ Forall (fun f => is_Some (filename f)) changes
  end.
Proof.
  induction changes as [|f fs IH]; intros d; [by split|].
  cbn [count_files_of]. destruct (filename f) as [x|] eqn:Ef; cbn [mbind Raises_bind subscript].
  - specialize (IH (bump x d)). destruct (count_files_of fs _) as [msg|d'].
    + destruct IH as [-> H]. split; [done|]. intros H'. by apply Forall_cons in H' as [_ H'].
    + destruct IH as [H ->]. split.
      * constructor; [|done]. rewrite Ef. by eexists.
      * by rewrite (omap_cons_Some _ _ _ _ Ef).
  - split; [done|]. intros H. apply Forall_cons in H as [[? H] _]. congruence.
Qed.

Lemma count_files_spec commits : forall d,
  match count_files commits d with
  | Return d' =>
      Forall (fun c => Forall (fun f => is_Some (filename f)) (default [] (file_changes c)))
             commits
      /\ d' = bump_all (commits ≫= file_names) d
  | Raise msg =>
      msg = "'filename'"
      /\ ~ Forall (fun c => Forall (fun f => is_Some (filename f))
                                   (default [] (file_changes c))) commits
  end.
Proof.
  induction commits as [|c cs IH]; intros d; [by split|].
  cbn [count_files].
  pose proof (count_files_of_spec (default [] (file_changes c)) d) as Hc.
  destruct (count_files_of _ d) as [msg|d1]; cbn [mbind Raises_bind subscript].
  - destruct Hc as [-> H]. split; [done|]. intros H'. by apply Forall_cons in H' as [H' _].
  - destruct Hc as [Hc ->]. specialize (IH (bump_all (omap filename (default [] (file_changes c))) d)).
    destruct (count_files cs _) as [msg|d'].
    + destruct IH as [-> H]. split; [done|]. intros H'. by apply Forall_cons in H' as [_ H'].
    + destruct IH as [H ->]. split; [by constructor|].
      csimpl. by rewrite bump_all_app.
Qed.

Lemma count_words_filter words : forall d,
  count_words words d
  = bump_all (List.filter (fun word => (3 <? String.length word)%nat) words) d.
Proof.
  unfold count_words, bump_all.
  induction words as [|w ws IH]; intros d; [done|].
  cbn [fold_left List.filter]. rewrite IH.
  by destruct (3 <? String.length w)%nat.
Qed.

Lemma count_keywords_spec commits : forall d,
  match count_keywords commits d with
  | Return d' =>
      Forall (fun c => is_Some (message c)) commits
      /\ d' = bump_all (commits ≫= counted_words) d
  | Raise msg =>
      msg = "'message'" /\ ~ Forall (fun c => is_Some (message c)) commits
  end.
Proof.
  induction commits as [|c cs IH]; intros d; [by split|].
  cbn [count_keywords]. destruct (message c) as [x|] eqn:Em; cbn [mbind Raises_bind subscript].
  - specialize (IH (count_words (Str.split (Str.lower x)) d)).
    destruct (count_keywords cs _) as [msg|d'].
    + destruct IH as [-> H]. split; [done|]. intros H'. by apply Forall_cons in H' as [_ H'].
    + destruct IH as [H ->]. split.
      * constructor; [|done]. rewrite Em. by eexists.
      * csimpl. rewrite bump_all_app, count_words_filter. unfold counted_words.
        by rewrite Em.
  - split; [done|]. intros H. apply Forall_cons in H as [[? H] _]. congruence.
Qed.

(** [compute_insights] returns the insights by counting where every
    commit has the keys, and raises a [KeyError] otherwise. *)
Lemma compute_insights_spec commits complexity_data :
  match compute_insights commits complexity_data with
  | Return i => Forall insightful commits /\ i = insights_of commits complexity_data
  | Raise msg =>
      msg ∈ ["'author'"; "'date'"; "'filename'"; "'message'"]
      /\ ~ Forall insightful commits
  end.
Proof.
  unfold compute_insights.
  pose proof (count_authors_and_months_spec commits [] []) as H1.
  destruct (count_authors_and_months commits [] []) as [msg|[a m]]; cbn.
  { destruct H1 as [Hmsg H]. split; [destruct Hmsg as [-> | ->]; set_solver|].
    intros H'. apply H. eapply Forall_impl; [exact H'|]. by intros c (? & ? & _). }
  destruct H1 as (H1 & -> & ->).
  pose proof (count_files_spec commits []) as H2.
  destruct (count_files commits []) as [msg|f]; cbn.
  { destruct H2 as [-> H]. split; [set_solver|].
    intros H'. apply H. eapply Forall_impl; [exact H'|]. by intros c (_ & _ & _ & ?). }
  destruct H2 as [H2 ->].
  pose proof (count_keywords_spec commits []) as H3.
  destruct (count_keywords commits []) as [msg|k]; cbn.
  { destruct H3 as [-> H]. split; [set_solver|].
    intros H'. apply H. eapply Forall_impl; [exact H'|]. by intros c (_ & _ & ? & _). }
  destruct H3 as [H3 ->]. split; [|done].
  rewrite Forall_forall in H1, H2, H3. apply Forall_forall. intros c Hc.
  destruct (H1 c Hc). by split_and!; auto.
Qed.

(** ** The leading items of a counter *)

(** The first [n] of a list sorted by descending keys: they are sorted,
    and what is left has no greater key. *)
Lemma top_of_sorted {A K} (leb : K -> K -> bool) (key : A -> K) (l : list A) n :
  (forall a b, leb a b = true \/ leb b a = true) ->
  (forall a b c, leb a b = true -> leb b c = true -> leb a c = true) ->
  let top := take n (Py.sorted_reverse leb key l) in
  StronglySorted (descending leb key) top
  /\ exists rest,
       top ++ rest ≡ₚ l
       /\ Forall (fun x => Forall (fun y => leb (key y) (key x) = true) rest) top.
Proof.
  intros Htotal Htrans top.
  pose proof (sorted_reverse_sorted leb key Htotal Htrans l) as Hs.
  rewrite <- (take_drop n (Py.sorted_reverse leb key l)) in Hs.
  apply strongly_sorted_app_l in Hs as [Hs1 Hs2]. split; [done|].
  exists (drop n (Py.sorted_reverse leb key l)). split; [|done].
  unfold top. rewrite take_drop. apply sorted_reverse_perm.
Qed.

(** The first [n] items, by descending count, of the counter of [keys]. *)
Lemma top_counts (keys : list string) (n : nat) :
  let counter := bump_all keys [] in
  let top := take n (Py.sorted_reverse Nat.leb snd counter) in
  length top <= n
  /\ StronglySorted (descending Nat.leb snd) top
  /\ NoDup (fst <$> top)
  /\ Forall (fun item => item.1 ∈ keys /\ item.2 = occurrences item.1 keys /\ 1 <= item.2) top
  /\ (forall k, k ∈ keys -> k ∉ fst <$> top ->
        Forall (fun item => occurrences k keys <= item.2) top)
  /\ (length counter <= n -> sum_list_with snd top = length keys).
Proof.
  intros counter top.
  destruct (bump_all_items keys) as (Hnd & Hitems & Hsum & Hkeys). fold counter in Hnd, Hitems, Hsum, Hkeys.
  destruct (top_of_sorted Nat.leb snd counter n) as (Hsorted & rest & Hperm & Hrest).
  { intros a b. rewrite !Nat.leb_le. lia. }
  { intros a b c. rewrite !Nat.leb_le. lia. }
  fold top in Hsorted, Hperm, Hrest.
  assert (Hsub : forall item, item ∈ top -> item ∈ counter).
  { intros item H. rewrite <- Hperm. apply elem_of_app. by left. }
  split_and!.
  - unfold top. rewrite length_take. lia.
  - done.
  - rewrite <- Hperm, fmap_app in Hnd. by apply NoDup_app in Hnd as [Hnd _].
  - apply Forall_forall. intros item Hin. rewrite Forall_forall in Hitems.
    destruct (Hitems item (Hsub item Hin)) as [H1 H2]. split_and!; [|done..].
    apply Hkeys, list_elem_of_fmap. exists item. auto.
  - intros k Hk Hout. apply Hkeys, list_elem_of_fmap in Hk as ([k' n'] & -> & Hin).
    cbn [fst] in *. rewrite <- Hperm in Hin. apply elem_of_app in Hin as [Hin|Hin].
    { destruct Hout. apply list_elem_of_fmap. by exists (k', n'). }
    rewrite Forall_forall in Hitems.
    assert (Hn' : n' = occurrences k' keys).
    { apply (Hitems (k', n')). rewrite <- Hperm. apply elem_of_app. by right. }
    eapply Forall_impl; [exact Hrest|]. intros item Hitem.
    rewrite Forall_forall in Hitem. specialize (Hitem _ Hin). cbn [snd] in Hitem.
    apply Nat.leb_le in Hitem. lia.
  - intros Hlen. unfold top. rewrite take_ge.
    + by rewrite sorted_reverse_perm.
    + rewrite sorted_reverse_perm. done.
Qed.

(** ** Ascending order *)

Section Sorted_ascending.

Context {A : Type} (leb : A -> A -> bool).

Lemma insert_sorted_perm x l : insert_sorted leb x l ≡ₚ x :: l.
Proof.
  induction l as [|y l IH]; [done|]. cbn [insert_sorted].
  destruct (leb y x); [|done]. rewrite IH. apply perm_swap.
Qed.

Lemma sorted_perm l : sorted leb l ≡ₚ l.
Proof.
  induction l as [|x l IH]; [done|]. cbn [sorted].
  by rewrite insert_sorted_perm, IH.
Qed.

Hypothesis leb_total : forall a b, leb a b = true \/ leb b a = true.
Hypothesis leb_trans : forall a b c, leb a b = true -> leb b c = true -> leb a c = true.

Lemma insert_sorted_sorted x l :
  StronglySorted (fun a b => leb a b = true) l ->
  StronglySorted (fun a b => leb a b = true) (insert_sorted leb x l).
Proof.
  induction 1 as [|y l Hl IH Hy]; cbn [insert_sorted]; [repeat constructor|].
  destruct (leb y x) eqn:E.
  - constructor; [done|]. rewrite insert_sorted_perm. by constructor.
  - assert (Hxy : leb x y = true) by (destruct (leb_total x y); congruence).
    constructor; [by constructor|]. constructor; [done|].
    eapply Forall_impl; [exact Hy|]. intros z Hz. cbn beta in Hz. eauto.
Qed.

Lemma sorted_sorted l : StronglySorted (fun a b => leb a b = true) (sorted leb l).
Proof. induction l; cbn [sorted]; [constructor|]. by apply insert_sorted_sorted. Qed.

End Sorted_ascending.

Lemma item_leb_total a b : item_leb a b = true \/ item_leb b a = true.
Proof.
  unfold item_leb. rewrite (String.eqb_sym b.1 a.1).
  destruct (String.eqb a.1 b.1).
  - rewrite !Nat.leb_le. lia.
  - apply String.leb_total.
Qed.

Lemma item_leb_trans a b c :
  item_leb a b = true -> item_leb b c = true -> item_leb a c = true.
Proof.
  unfold item_leb.
  destruct (String.eqb_spec a.1 b.1) as [Eab|Nab].
  - rewrite Eab. destruct (String.eqb_spec b.1 c.1) as [Ebc|Nbc]; [|done].
    rewrite !Nat.leb_le. lia.
  - destruct (String.eqb_spec b.1 c.1) as [Ebc|Nbc].
    + rewrite <- Ebc. destruct (String.eqb_spec a.1 b.1); done.
    + intros H1 H2. destruct (String.eqb_spec a.1 c.1) as [Eac|Nac].
      * rewrite <- Eac in H2. destruct Nab. by apply String.leb_antisym.
      * by apply (string_leb_trans _ b.1).
Qed.

Lemma strongly_sorted_distinct {A B} (R : A -> A -> Prop) (f : A -> B) l :
  StronglySorted R l -> NoDup (f <$> l) ->
  StronglySorted (fun a b => R a b /\ f a <> f b) l.
Proof.
  induction 1 as [|x l Hl IH Hx]; intros Hnd; [constructor|].
  csimpl in Hnd. apply NoDup_cons in Hnd as [Hx' Hnd].
  constructor; [auto|]. apply Forall_forall. intros y Hy. split.
  - rewrite Forall_forall in Hx. auto.
  - intros E. apply Hx'. rewrite E. apply list_elem_of_fmap. by exists y.
Qed.

Lemma strongly_sorted_impl {A} (R R' : A -> A -> Prop) (l : list A) :
  (forall a b, R a b -> R' a b) -> StronglySorted R l -> StronglySorted R' l.
Proof.
  intros HR. induction 1 as [|x l Hl IH Hx]; constructor; [done|].
  eapply Forall_impl; [exact Hx|]. intros y. apply HR.
Qed.

(** ** The insights *)

Lemma generate_insights_success commits complexity_data i :
  generate_insights commits complexity_data = InsightsOf i ->
  commits <> [] /\ Forall insightful commits /\ i = insights_of commits complexity_data.
Proof.
  unfold generate_insights. destruct commits as [|c cs]; [done|].
  pose proof (compute_insights_spec (c :: cs) complexity_data) as H.
  destruct (compute_insights (c :: cs) complexity_data); [done|].
  intros [= <-]. by destruct H as [H ->].
Qed.

Lemma omap_all {A B} (f : A -> option B) (d : B) (l : list A) :
  Forall (fun x => is_Some (f x)) l -> omap f l = (fun x => default d (f x)) <$> l.
Proof.
  induction 1 as [|x l [y Hy] Hl IH]; [done|].
  rewrite (omap_cons_Some _ _ _ _ Hy), IH. csimpl. by rewrite Hy.
Qed.

Lemma length_omap_all {A B} (f : A -> option B) (l : list A) :
  Forall (fun x => is_Some (f x)) l -> length (omap f l) = length l.
Proof.
  induction 1 as [|x l [y Hy] Hl IH]; [done|].
  rewrite (omap_cons_Some _ _ _ _ Hy). cbn [length]. by rewrite IH.
Qed.

Lemma insightful_authors commits :
  Forall insightful commits -> Forall (fun c => is_Some (author c)) commits.
Proof. intros H. eapply Forall_impl; [exact H|]. by intros c (? & _). Qed.

Lemma insightful_dates commits :
  Forall insightful commits -> Forall (fun c => is_Some (date c)) commits.
Proof. intros H. eapply Forall_impl; [exact H|]. by intros c (_ & ? & _). Qed.

Lemma size_list_to_set_le (l : list string) :
  size (list_to_set l : gset string) <= length l.
Proof.
  induction l as [|x l IH]; [done|]. cbn [list_to_set length].
  rewrite size_union_alt, size_singleton.
  assert (H : size (list_to_set l ∖ {[x]} : gset string) <= size (list_to_set l : gset string)).
  { apply subseteq_size. apply subseteq_difference_l. done. }
  lia.
Qed.

(** The counter of [keys] has one item for each distinct key. *)
Lemma length_counter keys :
  length (bump_all keys []) = size (list_to_set keys : gset string).
Proof.
  destruct (bump_all_items keys) as (Hnd & _ & _ & Hk).
  rewrite <- (length_fmap fst), <- (size_list_to_set (C:=gset string)) by done.
  f_equal. apply set_eq. intros k. rewrite !elem_of_list_to_set. apply Hk.
Qed.

(** X18: [generate_insights] returns the error dict of the message
    "No commits data available" for no commits.  For commits, it returns
    insights exactly where every commit has the keys ['author'], ['date']
    and ['message'] and every file change has ['filename'].  Otherwise the
    error is the text of the [KeyError] of the loop that fails first:
    ['author'] or ['date'] where a commit lacks one of the two, else
    ['filename'] where a file change lacks it, else ['message']. *)
Theorem generate_insights_errors (commits : list Commit) (complexity_data : string) :
  let keyed := Forall (fun c => is_Some (author c) /\ is_Some (date c)) commits in
  let named :=
    Forall (fun c => Forall (fun f => is_Some (filename f)) (default [] (file_changes c)))
           commits in
  let worded := Forall (fun c => is_Some (message c)) commits in
  match generate_insights commits complexity_data with
  | InsightsOf i =>
      commits <> [] /\ keyed /\ named /\ worded
      /\ in_total_commits_analyzed i = length commits
      /\ in_complexity_insights i = complexity_data
  | InsightsError msg =>
      (commits = [] /\ msg = "No commits data available")
      \/ (commits <> [] /\ ~ keyed /\ (msg = "'author'" \/ msg = "'date'"))
      \/ (commits <> [] /\ keyed /\ ~ named /\ msg = "'filename'")
      \/ (commits <> [] /\ keyed /\ named /\ ~ worded /\ msg = "'message'")
  end.
Proof.
  intros keyed named worded. unfold generate_insights.
  destruct commits as [|c cs]; [by left|].
  set (commits := c :: cs) in *.
  assert (Hne : commits <> []) by done. clearbody commits.
  unfold compute_insights.
  pose proof (count_authors_and_months_spec commits [] []) as H1.
  destruct (count_authors_and_months commits [] []) as [msg|[a m]];
    cbn [mbind Raises_bind].
  { destruct H1 as [Hmsg H]. right. left. done. }
  destruct H1 as (H1 & -> & ->).
  pose proof (count_files_spec commits []) as H2.
  destruct (count_files commits []) as [msg|f]; cbn [mbind Raises_bind].
  { destruct H2 as [-> H]. right. right. left. done. }
  destruct H2 as [H2 ->].
  pose proof (count_keywords_spec commits []) as H3.
  destruct (count_keywords commits []) as [msg|k]; cbn [mbind Raises_bind].
  { destruct H3 as [-> H]. do 3 right. done. }
  destruct H3 as [H3 ->]. by split_and!.
Qed.

(** X19: the summary of the insights.  [total_commits_analyzed] is the
    number of commits, [unique_authors] the number of distinct authors
    and [active_months] the number of distinct months (the first seven
    characters of the dates); [recent_active_authors] is at least 1, at
    most 30 and at most [unique_authors], and is [unique_authors] where
    there are at most 30 commits. *)
Theorem insights_summary (commits : list Commit) (complexity_data : string) (i : Insights) :
  generate_insights commits complexity_data = InsightsOf i ->
  let authors := omap author commits in
  let months := String.substring 0 7 <$> omap date commits in
  length authors = length commits
  /\ length months = length commits
  /\ in_total_commits_analyzed i = length commits
  /\ in_unique_authors i = size (list_to_set authors : gset string)
  /\ in_active_months i = size (list_to_set months : gset string)
  /\ 1 <= in_recent_active_authors i
  /\ in_recent_active_authors i <= 30
  /\ in_recent_active_authors i <= in_unique_authors i
  /\ in_unique_authors i <= length commits
  /\ in_active_months i <= length commits
  /\ (length commits <= 30 -> in_recent_active_authors i = in_unique_authors i).
Proof.
  intros (Hne & Hall & ->)%generate_insights_success authors months.
  pose proof (insightful_authors _ Hall) as Ha.
  pose proof (insightful_dates _ Hall) as Hd.
  assert (Hla : length authors = length commits) by by apply length_omap_all.
  assert (Hlm : length months = length commits).
  { unfold months. rewrite length_fmap. by apply length_omap_all. }
  cbn [insights_of in_total_commits_analyzed in_unique_authors in_active_months
       in_recent_active_authors].
  fold authors. fold months. rewrite !length_counter.
  set (recent := take 30 (Py.sorted_reverse String.leb (fun x => default "" (date x)) commits)).
  set (recent_authors := (fun commit => default "" (author commit)) <$> recent).
  assert (Hsub : (list_to_set recent_authors : gset string) ⊆ list_to_set authors).
  { intros a. rewrite !elem_of_list_to_set. unfold recent_authors, authors.
    rewrite (omap_all _ "" _ Ha). rewrite !list_elem_of_fmap.
    intros (c & -> & Hc). exists c. split; [done|].
    apply (subseteq_take 30) in Hc. by apply elem_of_sorted_reverse in Hc. }
  assert (Hlen : length recent_authors <= 30).
  { unfold recent_authors, recent. rewrite length_fmap, length_take. lia. }
  split_and!; try done.
  - destruct commits as [|c cs]; [done|].
    assert (Hin : exists x, x ∈ recent).
    { unfold recent. pose proof (sorted_reverse_perm String.leb
        (fun x => default "" (date x)) (c :: cs)) as Hp.
      apply Permutation_length in Hp.
      destruct (Py.sorted_reverse _ _ (c :: cs)) as [|x l]; [done|].
      exists x. cbn [take]. by left. }
    destruct Hin as [x Hx].
    assert (Hx' : default "" (author x) ∈ (list_to_set recent_authors : gset string)).
    { apply elem_of_list_to_set, list_elem_of_fmap. by exists x. }
    assert (size (list_to_set recent_authors : gset string) <> 0); [|lia].
    apply size_non_empty_iff. intros E. rewrite E in Hx'. set_solver.
  - pose proof (size_list_to_set_le recent_authors). lia.
  - by apply subseteq_size.
  - pose proof (size_list_to_set_le authors). lia.
  - pose proof (size_list_to_set_le months). lia.
  - intros Hle. f_equal. apply set_eq. intros a. split; [apply Hsub|].
    rewrite !elem_of_list_to_set. unfold recent_authors, authors, recent.
    rewrite (omap_all _ "" _ Ha). rewrite !list_elem_of_fmap.
    intros (c & -> & Hc). exists c. split; [done|].
    rewrite take_ge.
    + by apply elem_of_sorted_reverse.
    + by rewrite sorted_reverse_perm.
Qed.

(** X19, at three sample commits of one author in two months. *)
Lemma insights_summary_witness :
  exists i,
    generate_insights (Samples.wide_commits ++ Samples.parser_commits) "{}" = InsightsOf i
    /\ in_total_commits_analyzed i = 3
    /\ in_recent_active_authors i = in_unique_authors i.
Proof.
  eexists. split; [reflexivity|].
  pose proof (insights_summary (Samples.wide_commits ++ Samples.parser_commits) "{}" _ eq_refl)
    as (_ & _ & H1 & _ & _ & _ & _ & _ & _ & _ & H2).
  split; [exact H1|]. apply H2. cbn. lia.
Defined.

(** X20: the top contributors are at most ten authors, each once, in
    descending order of their commits; the count of an author is the
    number of the commits of that author, no author left out has more
    commits than one in the list, and where there are at most ten authors
    the counts add up to the number of commits. *)
Theorem top_contributors_counts (commits : list Commit) (complexity_data : string)
    (i : Insights) :
  generate_insights commits complexity_data = InsightsOf i ->
  let authors := omap author commits in
  let top := in_top_contributors i in
  length top <= 10
  /\ StronglySorted (descending Nat.leb snd) top
  /\ NoDup (fst <$> top)
  /\ Forall (fun item => item.1 ∈ authors /\ item.2 = occurrences item.1 authors
                         /\ 1 <= item.2) top
  /\ (forall a, a ∈ authors -> a ∉ fst <$> top ->
        Forall (fun item => occurrences a authors <= item.2) top)
  /\ (in_unique_authors i <= 10 -> sum_list_with snd top = length commits).
Proof.
  intros (Hne & Hall & ->)%generate_insights_success authors top.
  destruct (top_counts authors 10) as (H1 & H2 & H3 & H4 & H5 & H6).
  split_and!; try done.
  intros Hle. etrans; [apply H6, Hle|]. by apply length_omap_all, insightful_authors.
Qed.

(** X20, at three sample commits of one author. *)
Lemma top_contributors_counts_witness :
  exists i,
    generate_insights (Samples.wide_commits ++ Samples.parser_commits) "{}" = InsightsOf i
    /\ length (in_top_contributors i) <= 10
    /\ sum_list_with snd (in_top_contributors i) = 3.
Proof.
  eexists. split; [reflexivity|].
  pose proof (top_contributors_counts (Samples.wide_commits ++ Samples.parser_commits) "{}"
                _ eq_refl) as (H1 & _ & _ & _ & _ & H2).
  split; [exact H1|]. apply H2. cbn. lia.
Defined.

(** X21: the most modified files are at most ten file names, each once,
    in descending order of their modifications; the count of a name is
    the number of file changes of that name in all commits (a commit
    without ['file_changes'] has none), and no name left out has more
    than one in the list. *)
Theorem most_modified_files_counts (commits : list Commit) (complexity_data : string)
    (i : Insights) :
  generate_insights commits complexity_data = InsightsOf i ->
  let names := commits ≫= file_names in
  let top := in_most_modified_files i in
  length names = sum_list_with (fun c => length (default [] (file_changes c))) commits
  /\ length top <= 10
  /\ StronglySorted (descending Nat.leb snd) top
  /\ NoDup (fst <$> top)
  /\ Forall (fun item => item.1 ∈ names /\ item.2 = occurrences item.1 names
                         /\ 1 <= item.2) top
  /\ (forall name, name ∈ names -> name ∉ fst <$> top ->
        Forall (fun item => occurrences name names <= item.2) top)
  /\ (length (bump_all names []) <= 10 -> sum_list_with snd top = length names).
Proof.
  intros (Hne & Hall & ->)%generate_insights_success names top.
  destruct (top_counts names 10) as (H1 & H2 & H3 & H4 & H5 & H6).
  split_and!; try done.
  unfold names. clear -Hall. induction Hall as [|c cs Hc Hcs IH]; [done|].
  csimpl. rewrite length_app, IH. f_equal.
  unfold file_names. apply length_omap_all. by destruct Hc as (_ & _ & _ & ?).
Qed.

(** X21, at a sample commit of five files and two commits of none. *)
Lemma most_modified_files_counts_witness :
  exists i,
    generate_insights (Samples.wide_commits ++ Samples.parser_commits) "{}" = InsightsOf i
    /\ length (in_most_modified_files i) <= 10
    /\ sum_list_with snd (in_most_modified_files i) = 5.
Proof.
  eexists. split; [reflexivity|].
  pose proof (most_modified_files_counts (Samples.wide_commits ++ Samples.parser_commits) "{}"
                _ eq_refl) as (_ & H1 & _ & _ & _ & _ & H2).
  split; [exact H1|]. apply H2. cbn. lia.
Defined.

(** X22: the common commit keywords are at most twenty words, each once,
    in descending order of their frequencies.  A keyword is a word of a
    lower-cased message, split at whitespace, of more than three
    characters: it has no upper-case letter and no whitespace.  Its
    frequency is the number of times it is among these words of all
    messages, and no such word left out is more frequent than one in the
    list. *)
Theorem common_keywords_counts (commits : list Commit) (complexity_data : string)
    (i : Insights) :
  generate_insights commits complexity_data = InsightsOf i ->
  let words := commits ≫= counted_words in
  let top := in_common_commit_keywords i in
  (forall w, w ∈ words <->
     exists c m, c ∈ commits /\ message c = Some m
                 /\ w ∈ Str.split (Str.lower m) /\ 3 < String.length w)
  /\ length top <= 20
  /\ StronglySorted (descending Nat.leb snd) top
  /\ NoDup (fst <$> top)
  /\ Forall (fun item => 3 < String.length item.1
                         /\ token (fun c => Str.is_upper c = false) item.1
                         /\ item.2 = occurrences item.1 words
                         /\ 1 <= item.2) top
  /\ (forall w, w ∈ words -> w ∉ fst <$> top ->
        Forall (fun item => occurrences w words <= item.2) top).
Proof.
  intros (Hne & Hall & ->)%generate_insights_success words top.
  destruct (top_counts words 20) as (H1 & H2 & H3 & H4 & H5 & H6).
  assert (Hwords : forall w, w ∈ words <->
     exists c m, c ∈ commits /\ message c = Some m
                 /\ w ∈ Str.split (Str.lower m) /\ 3 < String.length w).
  { intros w. unfold words. rewrite list_elem_of_bind. split.
    - intros (c & Hw & Hc). unfold counted_words in Hw.
      apply list_elem_of_In, filter_In in Hw as [Hw Hlen]. apply list_elem_of_In in Hw.
      rewrite Forall_forall in Hall. destruct (Hall c Hc) as (_ & _ & [m Hm] & _).
      rewrite Hm in Hw. exists c, m. split_and!; try done.
      by apply Nat.ltb_lt in Hlen.
    - intros (c & m & Hc & Hm & Hw & Hlen). exists c. split; [|done].
      unfold counted_words. rewrite Hm. apply list_elem_of_In, filter_In.
      split; [by apply list_elem_of_In|]. by apply Nat.ltb_lt. }
  split_and!; try done.
  eapply Forall_impl; [exact H4|]. intros item (Hin & Hn & Hpos).
  apply Hwords in Hin as (c & m & _ & _ & Hw & Hlen). split_and!; try done.
  pose proof (query_keywords_tokens m) as Ht. rewrite Forall_forall in Ht. by apply Ht.
Qed.

(** X22, at three sample commits: "parser" is in two messages. *)
Lemma common_keywords_counts_witness :
  exists i,
    generate_insights (Samples.wide_commits ++ Samples.parser_commits) "{}" = InsightsOf i
    /\ length (in_common_commit_keywords i) <= 20
    /\ Forall (fun item => 3 < String.length item.1) (in_common_commit_keywords i).
Proof.
  eexists. split; [reflexivity|].
  pose proof (common_keywords_counts (Samples.wide_commits ++ Samples.parser_commits) "{}"
                _ eq_refl) as (_ & H1 & _ & _ & H2 & _).
  split; [exact H1|]. eapply Forall_impl; [exact H2|]. by intros item (? & _).
Defined.

(** X23: the activity timeline has one item for each month of a commit
    (the first seven characters of its date), in strictly ascending order
    of the months; the count of a month is the number of the commits of
    that month, the counts add up to the number of commits, and
    [active_months] is the number of items. *)
Theorem activity_timeline_sorted (commits : list Commit) (complexity_data : string)
    (i : Insights) :
  generate_insights commits complexity_data = InsightsOf i ->
  let months := String.substring 0 7 <$> omap date commits in
  let timeline := in_activity_timeline i in
  StronglySorted (fun a b => String.ltb a.1 b.1 = true) timeline
  /\ (forall month, month ∈ fst <$> timeline <-> month ∈ months)
  /\ Forall (fun item => item.2 = occurrences item.1 months /\ 1 <= item.2) timeline
  /\ sum_list_with snd timeline = length commits
  /\ in_active_months i = length timeline.
Proof.
  intros (Hne & Hall & ->)%generate_insights_success months timeline.
  destruct (bump_all_items months) as (Hnd & Hitems & Hsum & Hkeys).
  assert (Hperm : timeline ≡ₚ bump_all months []) by apply sorted_perm.
  split_and!.
  - assert (Hs : StronglySorted (fun a b => item_leb a b = true) timeline).
    { apply sorted_sorted; [apply item_leb_total|apply item_leb_trans]. }
    apply (strongly_sorted_distinct _ fst) in Hs; [|by rewrite Hperm].
    eapply strongly_sorted_impl; [|exact Hs]. clear.
    intros a b [Hle Hne]. unfold item_leb in Hle.
    destruct (String.eqb_spec a.1 b.1) as [|_]; [done|].
    unfold String.leb in Hle. unfold String.ltb.
    destruct (String.compare a.1 b.1) eqn:E; [|done..].
    by apply String.compare_eq_iff in E.
  - intros month. rewrite Hperm. apply Hkeys.
  - by rewrite Hperm.
  - rewrite Hperm, Hsum. unfold months. rewrite length_fmap.
    by apply length_omap_all, insightful_dates.
  - cbn [insights_of in_active_months]. fold months. by rewrite Hperm.
Qed.

(** X23, at sample commits of November 2023 and March 2024. *)
Lemma activity_timeline_sorted_witness :
  exists i,
    generate_insights (Samples.parser_commits ++ Samples.wide_commits) "{}" = InsightsOf i
    /\ sum_list_with snd (in_activity_timeline i) = 3
    /\ in_active_months i = length (in_activity_timeline i).
Proof.
  eexists. split; [reflexivity|].
  pose proof (activity_timeline_sorted (Samples.parser_commits ++ Samples.wide_commits) "{}"
                _ eq_refl) as (_ & _ & _ & H1 & H2).
  split; [exact H1|exact H2].
Defined.
